(** * Hotspot (wifi_extender): a shallow embedding of the extender core

    The development follows the Python sources:

    - [PyStr]              the [str] methods the sources call
    - [Py]                 a state-and-exception monad for method bodies
    - [Sys]                what a method sees of the operating system:
                           [subprocess.run], the files it opens
    - [InterfaceManager]   core/interface_manager.py
    - [ConnectionManager]  core/connection_manager.py
    - [APService]          core/ap_service.py
    - [BridgeService]      core/bridge_service.py
    - [WiFiDetector]       core/wifi_detector.py, over what [netifaces]
                           reports
    - [Daemon]             service/daemon.py, over an interface of
                           collaborators
    - [Wired]              the classes of [core] as these collaborators
    - [Fixtures]           concrete machines and mocked collaborators

    Text is modelled as [string], one character per code point below 256.
    [time.sleep] changes no value: the classes of [core] leave it out, the
    daemon records it as an event. A signal handler only clears [running],
    which only the loop of [run] reads: signals are delivered where the
    loop reads it. For [ConnectionManager] and the daemon, what the
    detector answers and what the configuration file holds are inputs,
    part of the machine; the detector's own methods are in
    [WiFiDetector]. The log lines of the classes of [core] are left out;
    those of the daemon are events. *)

From Stdlib Require Import ZArith Ascii String List.
From stdpp Require Import base tactics option list strings pretty gmap.

Local Open Scope string_scope.
Local Open Scope Z_scope.
Local Open Scope list_scope.

(* ===================================================================== *)
(** ** Python's [str] methods *)
(* ===================================================================== *)

Module PyStr.

(** [c.isspace()] for a code point below 256. *)
Definition is_space (c : ascii) : bool :=
  let n := nat_of_ascii c in
  ((9 <=? n)%nat && (n <=? 13)%nat) || ((28 <=? n)%nat && (n <=? 32)%nat)
  || (n =? 133)%nat || (n =? 160)%nat.

(** A value used as a condition: [None] and the empty string are false. *)
Definition truthy (o : option string) : bool :=
  match o with
  | None => false
  | Some s => negb (String.eqb s "")
  end.

(** [s.split()]: the maximal runs of characters that are not white space.
    [cur] is the run being read, reversed. *)
Fixpoint split_go (cur : string) (s : string) : list string :=
  match s with
  | EmptyString =>
      match cur with EmptyString => [] | _ => [String.rev cur] end
  | String c s' =>
      if is_space c then
        match cur with
        | EmptyString => split_go EmptyString s'
        | _ => String.rev cur :: split_go EmptyString s'
        end
      else split_go (String c cur) s'
  end.

Definition split (s : string) : list string := split_go EmptyString s.

Fixpoint lstrip (s : string) : string :=
  match s with
  | EmptyString => EmptyString
  | String c s' => if is_space c then lstrip s' else s
  end.

(** [s.strip()] *)
Definition strip (s : string) : string :=
  String.rev (lstrip (String.rev (lstrip s))).

(** [needle in hay] *)
Fixpoint contains (needle hay : string) : bool :=
  String.prefix needle hay
  || match hay with
     | EmptyString => false
     | String _ hay' => contains needle hay'
     end.

(** [s.split(sep)] for a non-empty [sep]: cut at each occurrence, left to
    right, occurrences not overlapping. [skip] counts the characters of a
    separator still to pass, [cur] is the piece being read, reversed. *)
Fixpoint split_on_go (sep : string) (skip : nat) (cur s : string)
  : list string :=
  match s with
  | EmptyString => [String.rev cur]
  | String c s' =>
      match skip with
      | S k => split_on_go sep k cur s'
      | O =>
          if String.prefix sep s
          then String.rev cur
                 :: split_on_go sep (String.length sep - 1) EmptyString s'
          else split_on_go sep O (String c cur) s'
      end
  end.

Definition split_on (sep s : string) : list string :=
  split_on_go sep O EmptyString s.

(** ['\n'.join(lines)] *)
Definition join_lines (lines : list string) : string :=
  String.concat (String (ascii_of_nat 10) EmptyString) lines.

(** Line boundaries of [s.splitlines()] among the code points below 256. *)
Definition is_linebreak (c : ascii) : bool :=
  let n := nat_of_ascii c in
  ((10 <=? n)%nat && (n <=? 13)%nat) || ((28 <=? n)%nat && (n <=? 30)%nat)
  || (n =? 133)%nat.

(** The line boundaries of a file opened in text mode: line feed and
    carriage return. *)
Definition is_newline (c : ascii) : bool :=
  let n := nat_of_ascii c in (n =? 10)%nat || (n =? 13)%nat.

(** Cutting a text into lines at the boundaries [brk]: a carriage return
    followed by a line feed is one boundary; a boundary at the very end
    opens no further line. The lines come without their boundary. *)
Fixpoint lines_go (brk : ascii -> bool) (cur : string) (s : string)
  : list string :=
  match s with
  | EmptyString =>
      match cur with EmptyString => [] | _ => [String.rev cur] end
  | String c s' =>
      if brk c then
        String.rev cur
          :: match s' with
             | String c' s'' =>
                 if (nat_of_ascii c =? 13)%nat && (nat_of_ascii c' =? 10)%nat
                 then lines_go brk EmptyString s''
                 else lines_go brk EmptyString s'
             | EmptyString => []
             end
      else lines_go brk (String c cur) s'
  end.

(** [s.splitlines()] *)
Definition splitlines (s : string) : list string :=
  lines_go is_linebreak EmptyString s.

(** [for line in f], each line without its end. *)
Definition file_lines (s : string) : list string :=
  lines_go is_newline EmptyString s.

(** The double quote, as a one-character string. *)
Definition dquote : string := String (ascii_of_nat 34) EmptyString.

(** [c.lower()] for a code point below 256: the letters A to Z and the
    capital letters of Latin-1 (all of 192 to 222 but the multiplication
    sign) move 32 places up. *)
Definition lower_char (c : ascii) : ascii :=
  let n := nat_of_ascii c in
  if ((65 <=? n)%nat && (n <=? 90)%nat)
     || ((192 <=? n)%nat && (n <=? 222)%nat && negb (n =? 215)%nat)
  then ascii_of_nat (n + 32) else c.

(** [s.lower()] *)
Fixpoint lower (s : string) : string :=
  match s with
  | EmptyString => EmptyString
  | String c s' => String (lower_char c) (lower s')
  end.

(** [s.replace(c, "")] for a one-character [c]. *)
Fixpoint without (c : ascii) (s : string) : string :=
  match s with
  | EmptyString => EmptyString
  | String a s' =>
      if Ascii.eqb a c then without c s' else String a (without c s')
  end.

End PyStr.

(* ===================================================================== *)
(** ** Method bodies: state and exceptions *)
(* ===================================================================== *)

Module Py.

(** The exceptions the sources can meet. [CalledProcessError] is what
    [subprocess.run(..., check=True)] raises on a non-zero exit status;
    [OSError] is what it raises when the program cannot be started, and
    what [open] raises. All of them are instances of [Exception]. *)
Inductive exn : Type :=
| CalledProcessError (cmd : list string) (returncode : Z)
| OSError (strerror : string)
| KeyError (key : string)
| IndexError
| ValueError (detail : string).

Definition is_CalledProcessError (e : exn) : bool :=
  match e with CalledProcessError _ _ => true | _ => false end.

(** The second component of the [(success, message)] pairs: literal text
    and [str(e)] of a caught exception, in order. *)
Inductive fragment : Type :=
| Lit (s : string)
| StrOf (e : exn).

Definition message : Type := list fragment.

Inductive outcome (A : Type) : Type :=
| Returned (a : A)
| Raised (e : exn).
Arguments Returned {A} a.
Arguments Raised {A} e.

Definition Py (S A : Type) : Type := S -> outcome A * S.

Definition ret {S A} (a : A) : Py S A := fun s => (Returned a, s).

Definition bind {S A B} (m : Py S A) (k : A -> Py S B) : Py S B :=
  fun s =>
    match m s with
    | (Returned a, s') => k a s'
    | (Raised e, s') => (Raised e, s')
    end.

Definition raise {S A} (e : exn) : Py S A := fun s => (Raised e, s).

(** [try: m  except <sel> as e: h e]: the state reached when the exception
    was raised is kept; an exception [sel] rejects goes on. *)
Definition try_except {S A} (m : Py S A) (sel : exn -> bool)
    (h : exn -> Py S A) : Py S A :=
  fun s =>
    match m s with
    | (Returned a, s') => (Returned a, s')
    | (Raised e, s') => if sel e then h e s' else (Raised e, s')
    end.

Definition any_Exception (_ : exn) : bool := true.

Definition get {S} : Py S S := fun s => (Returned s, s).
Definition put {S} (s : S) : Py S unit := fun _ => (Returned tt, s).
Definition modify {S} (f : S -> S) : Py S unit :=
  fun s => (Returned tt, f s).

(** A method of an object [T] running in the world [W]: world operations
    are lifted, the object's fields are read and written on the side. *)
Definition on_world {T W A} (m : Py W A) : Py (T * W) A :=
  fun '(self, w) =>
    match m w with
    | (r, w') => (r, (self, w'))
    end.

Definition self {T W} : Py (T * W) T :=
  fun '(o, w) => (Returned o, (o, w)).

Definition set_self {T W} (f : T -> T) : Py (T * W) unit :=
  fun '(o, w) => (Returned tt, (f o, w)).

(** A body that works on a local variable of type [L], the first
    component of its state: the body runs with the variable set to [l];
    when [sel] takes the exception the body raises, the variable is
    returned as it was left ([try: body  except <sel>: pass], then
    [return variable]). *)
Definition with_local {L S} (l : L) (body : Py (L * S) unit)
    (sel : exn -> bool) : Py S L :=
  fun s =>
    match body (l, s) with
    | (Returned _, (l', s')) => (Returned l', s')
    | (Raised e, (l', s')) =>
        if sel e then (Returned l', s') else (Raised e, s')
    end.

#[global] Instance Py_ret {S} : MRet (Py S) := @ret S.
#[global] Instance Py_bind {S} : MBind (Py S) :=
  fun A B k m => bind m k.

(** [for x in xs: body x] *)
Fixpoint for_each {S A} (xs : list A) (body : A -> Py S unit) : Py S unit :=
  match xs with
  | [] => ret tt
  | x :: xs' => bind (body x) (fun _ => for_each xs' body)
  end.

End Py.

Import Py.

(* ===================================================================== *)
(** ** The operating system, as the sources reach it *)
(* ===================================================================== *)

Module Sys.

Definition command : Type := list string.

(** [subprocess.CompletedProcess] *)
Record completed : Type := Completed {
  returncode : Z;
  stdout : string;
  stderr : string
}.

Inductive spawn : Type :=
| Exits (r : completed)
| CannotStart (strerror : string).

(** The dictionary [WiFiDetector.get_interface_status] returns. The two
    last keys are the ones [ConnectionManager.get_connection_status] may
    add; a key that was never set is [None]. The dictionary is empty for
    an interface the detector does not list. *)
Record status : Type := Status {
  active : bool;
  connected : bool;
  ssid : option string;
  ip_address : option string;
  mode : option string;
  signal_quality : option string;
  bit_rate : option string
}.

Inductive probe : Type :=
| EmptyDict
| Dict (s : status)
| ProbeRaises (e : exn).

(** What the machine answers is fixed by the commands run so far; the
    files are those the sources read, write and remove. *)
Record world : Type := World {
  respond : list command -> command -> spawn;
  detector : list command -> string -> probe;
  writable : string -> bool;
  files : gmap string string;
  executed : list command
}.

Definition log_command (c : command) (w : world) : world :=
  {| respond := respond w; detector := detector w; writable := writable w;
     files := files w; executed := executed w ++ [c] |}.

Definition set_files (f : gmap string string) (w : world) : world :=
  {| respond := respond w; detector := detector w; writable := writable w;
     files := f; executed := executed w |}.

(** Every command can be started on [w]; it may exit with any status. *)
Definition commands_start (w : world) : Prop :=
  forall h c, exists r, respond w h c = Exits r.

(** [w'] is the machine [w] at another moment: it answers commands and
    probes, and lets files be written, as [w] does. *)
Definition same_machine (w w' : world) : Prop :=
  respond w' = respond w /\ detector w' = detector w
  /\ writable w' = writable w.

(** The machine after the commands [cs] ran, in order. *)
Definition log_commands (cs : list command) (w : world) : world :=
  foldl (fun w c => log_command c w) w cs.

(** [subprocess.run(cmd, check=check)] *)
Definition run (check : bool) (cmd : command) : Py world completed :=
  fun w =>
    let w' := log_command cmd w in
    match respond w (executed w) cmd with
    | CannotStart err => (Raised (OSError err), w')
    | Exits r =>
        if check && negb (returncode r =? 0)
        then (Raised (CalledProcessError cmd (returncode r)), w')
        else (Returned r, w')
    end.

(** [with open(path, 'w') as f: f.write(text)] *)
Definition write_file (path text : string) : Py world unit :=
  fun w =>
    if writable w path
    then (Returned tt, set_files (<[path := text]> (files w)) w)
    else (Raised (OSError path), w).

(** [os.path.exists(path)] *)
Definition path_exists (path : string) : Py world bool :=
  fun w => (Returned (bool_decide (is_Some (files w !! path))), w).

(** [os.remove(path)] *)
Definition remove (path : string) : Py world unit :=
  fun w =>
    match files w !! path with
    | Some _ => (Returned tt, set_files (delete path (files w)) w)
    | None => (Raised (OSError path), w)
    end.

(** [with open(path, 'r') as f: f.read()]; a file that exists is taken
    to be readable. *)
Definition read_file (path : string) : Py world string :=
  fun w =>
    match files w !! path with
    | Some text => (Returned text, w)
    | None => (Raised (OSError path), w)
    end.

(** [wifi_detector.get_interface_status(interface)] *)
Definition get_interface_status (interface : string) : Py world probe :=
  fun w => (Returned (detector w (executed w) interface), w).

End Sys.

Import Sys.

(* ===================================================================== *)
(** ** core/interface_manager.py *)
(* ===================================================================== *)

Module InterfaceManager.

Record t : Type := Make {
  physical_interface : string;
  virtual_interface : option string
}.

(** [InterfaceManager(interface_name)] *)
Definition init (interface_name : string) : t :=
  {| physical_interface := interface_name; virtual_interface := None |}.

Definition set_virtual_interface (v : option string) (o : t) : t :=
  {| physical_interface := physical_interface o; virtual_interface := v |}.

Definition create_virtual_interface (name_suffix : string)
  : Py (t * world) (bool * message) :=
  o ← self;
  if PyStr.truthy (virtual_interface o) then
    mret (false,
          [Lit ("Virtual interface " +:+ default "" (virtual_interface o)
                +:+ " already exists")])
  else
    try_except
      (let virtual_name := physical_interface o +:+ "_" +:+ name_suffix in
       let cmd := ["iw"; "dev"; physical_interface o; "interface"; "add";
                   virtual_name; "type"; "__ap"] in
       result ← on_world (run true cmd);
       if returncode result =? 0 then
         set_self (set_virtual_interface (Some virtual_name));;
         mret (true,
               [Lit ("Successfully created virtual interface "
                     +:+ virtual_name)])
       else
         mret (false,
               [Lit ("Failed to create virtual interface: "
                     +:+ stderr result)]))
      is_CalledProcessError
      (fun e => mret (false, [StrOf e])).

Definition delete_virtual_interface : Py (t * world) (bool * message) :=
  o ← self;
  if negb (PyStr.truthy (virtual_interface o)) then
    mret (false, [Lit "No virtual interface exists"])
  else
    try_except
      (let cmd := ["iw"; "dev"; default "" (virtual_interface o); "del"] in
       result ← on_world (run true cmd);
       if returncode result =? 0 then
         set_self (set_virtual_interface None);;
         mret (true, [Lit "Successfully deleted virtual interface"])
       else
         mret (false,
               [Lit ("Failed to delete virtual interface: "
                     +:+ stderr result)]))
      is_CalledProcessError
      (fun e => mret (false, [StrOf e])).

Definition set_interface_up (interface : string)
  : Py (t * world) (bool * message) :=
  try_except
    (let cmd := ["ip"; "link"; "set"; interface; "up"] in
     result ← on_world (run true cmd);
     if returncode result =? 0 then
       mret (true, [Lit ("Successfully set " +:+ interface +:+ " UP")])
     else
       mret (false,
             [Lit ("Failed to set interface UP: " +:+ stderr result)]))
    is_CalledProcessError
    (fun e => mret (false, [StrOf e])).

Definition set_interface_down (interface : string)
  : Py (t * world) (bool * message) :=
  try_except
    (let cmd := ["ip"; "link"; "set"; interface; "down"] in
     result ← on_world (run true cmd);
     if returncode result =? 0 then
       mret (true, [Lit ("Successfully set " +:+ interface +:+ " DOWN")])
     else
       mret (false,
             [Lit ("Failed to set interface DOWN: " +:+ stderr result)]))
    is_CalledProcessError
    (fun e => mret (false, [StrOf e])).

Definition set_interface_mode (interface mode : string)
  : Py (t * world) (bool * message) :=
  try_except
    ('(down_success, down_msg) ← set_interface_down interface;
     if negb down_success then
       mret (false, Lit "Failed to set interface DOWN: " :: down_msg)
     else
       let cmd := ["iwconfig"; interface; "mode"; mode] in
       result ← on_world (run true cmd);
       if negb (returncode result =? 0) then
         mret (false, [Lit ("Failed to set mode: " +:+ stderr result)])
       else
         '(up_success, up_msg) ← set_interface_up interface;
         if negb up_success then
           mret (false, Lit "Failed to set interface UP: " :: up_msg)
         else
           mret (true,
                 [Lit ("Successfully set " +:+ interface +:+ " to mode "
                       +:+ mode)]))
    is_CalledProcessError
    (fun e => mret (false, [StrOf e])).

(** The three commands of [set_interface_mode], in order. *)
Definition mode_commands (interface mode : string) : list command :=
  [["ip"; "link"; "set"; interface; "down"];
   ["iwconfig"; interface; "mode"; mode];
   ["ip"; "link"; "set"; interface; "up"]].

End InterfaceManager.

(* ===================================================================== *)
(** ** core/connection_manager.py *)
(* ===================================================================== *)

Module ConnectionManager.

Record t : Type := Make {
  interface : string;
  current_connection : option status
}.

(** [ConnectionManager(interface)] *)
Definition init (interface : string) : t :=
  {| interface := interface; current_connection := None |}.

Definition set_current_connection (c : option status) (o : t) : t :=
  {| interface := interface o; current_connection := c |}.

Definition set_signal_quality (q : string) (s : status) : status :=
  {| active := active s; connected := connected s; ssid := ssid s;
     ip_address := ip_address s; mode := mode s;
     signal_quality := Some q; bit_rate := bit_rate s |}.

Definition set_bit_rate (r : string) (s : status) : status :=
  {| active := active s; connected := connected s; ssid := ssid s;
     ip_address := ip_address s; mode := mode s;
     signal_quality := signal_quality s; bit_rate := Some r |}.

(** [text.split(key)[1].split()[0]], for a [text] that holds [key]. *)
Definition word_after {S} (key text : string) : Py S string :=
  match PyStr.split (nth 1 (PyStr.split_on key text) "") with
  | [] => raise IndexError
  | word :: _ => mret word
  end.

Definition get_connection_status : Py (t * world) status :=
  o ← self;
  reply ← on_world (get_interface_status (interface o));
  match reply with
  | ProbeRaises e => raise e
  | EmptyDict => raise (KeyError "connected")
  | Dict status =>
      if connected status then
        try_except
          (result ← on_world (run true ["iwconfig"; interface o]);
           status ← (if PyStr.contains "Link Quality=" (stdout result)
                     then quality ← word_after "Link Quality=" (stdout result);
                          mret (set_signal_quality quality status)
                     else mret status);
           if PyStr.contains "Bit Rate=" (stdout result)
           then rate ← word_after "Bit Rate=" (stdout result);
                mret (set_bit_rate rate status)
           else mret status)
          is_CalledProcessError
          (fun _ => mret status)
      else mret status
  end.

(** The lines of the wpa_supplicant configuration. *)
Definition config_lines (ssid : string) (password : option string)
  : list string :=
  ["ctrl_interface=/run/wpa_supplicant";
   "update_config=1";
   "network={";
   "    ssid=" +:+ PyStr.dquote +:+ ssid +:+ PyStr.dquote]
  ++ (if PyStr.truthy password
      then ["    key_mgmt=WPA-PSK";
            "    psk=" +:+ PyStr.dquote +:+ default "" password
              +:+ PyStr.dquote]
      else ["    key_mgmt=NONE"])
  ++ ["}"].

Definition wpa_supplicant_conf : string := "/tmp/wpa_supplicant.conf".

(** The commands [connect_to_network] has run when it probes the status. *)
Definition connect_commands (o : t) : list command :=
  [["killall"; "wpa_supplicant"];
   ["wpa_supplicant"; "-B"; "-i"; interface o; "-c"; wpa_supplicant_conf];
   ["dhclient"; "-v"; interface o]].

(** Both [except] clauses of the source return [(False, str(e))]; they
    differ in the line they log. *)
Definition connect_to_network (ssid : string) (password : option string)
  : Py (t * world) (bool * message) :=
  o ← self;
  try_except
    (on_world (write_file wpa_supplicant_conf
                 (PyStr.join_lines (config_lines ssid password)));;
     on_world (run false ["killall"; "wpa_supplicant"]);;
     on_world (run true ["wpa_supplicant"; "-B"; "-i"; interface o;
                         "-c"; wpa_supplicant_conf]);;
     on_world (run true ["dhclient"; "-v"; interface o]);;
     status ← get_connection_status;
     if connected status && bool_decide (Sys.ssid status = Some ssid) then
       set_self (set_current_connection (Some status));;
       mret (true, [Lit ("Successfully connected to " +:+ ssid)])
     else
       mret (false, [Lit ("Failed to connect to " +:+ ssid)]))
    any_Exception
    (fun e => mret (false, [StrOf e])).

Definition disconnect : Py (t * world) (bool * message) :=
  o ← self;
  try_except
    (on_world (run true ["killall"; "wpa_supplicant"]);;
     on_world (run true ["dhclient"; "-r"; interface o]);;
     set_self (set_current_connection None);;
     mret (true, [Lit "Successfully disconnected"]))
    is_CalledProcessError
    (fun e => mret (false, [StrOf e])).

(** One entry of the list [scan_networks] returns: a dictionary with at
    most the keys "ssid", "quality", "encrypted" and "security". *)
Module Network.

Record t : Type := Make {
  ssid : option string;
  quality : option string;
  encrypted : option bool;
  security : option string
}.

(** [{}] *)
Definition empty : t := Make None None None None.

(** A dictionary used as a condition: the empty one is false. *)
Definition truthy (n : t) : bool :=
  match n with
  | Make None None None None => false
  | _ => true
  end.

Definition set_ssid (v : string) (n : t) : t :=
  Make (Some v) (quality n) (encrypted n) (security n).

Definition set_quality (v : string) (n : t) : t :=
  Make (ssid n) (Some v) (encrypted n) (security n).

Definition set_encrypted (v : bool) (n : t) : t :=
  Make (ssid n) (quality n) (Some v) (security n).

Definition set_security (v : string) (n : t) : t :=
  Make (ssid n) (quality n) (encrypted n) (Some v).

End Network.

(** [if current_network: networks.append(current_network)] *)
Definition flush (networks : list Network.t) (current : Network.t)
  : list Network.t :=
  if Network.truthy current then networks ++ [current] else networks.

(** The loop of [scan_networks] over the lines of the scan, and the
    statements after it. Taking the piece after the first double quote,
    and the first word after the first "=", raises [IndexError] when
    there is none. *)
Fixpoint scan_loop {S} (lines : list string) (networks : list Network.t)
    (current : Network.t) : Py S (list Network.t) :=
  match lines with
  | [] => mret (flush networks current)
  | line :: rest =>
      let line := PyStr.strip line in
      if PyStr.contains "Cell" line then
        scan_loop rest (flush networks current) Network.empty
      else if PyStr.contains "ESSID:" line then
        match PyStr.split_on PyStr.dquote line with
        | _ :: essid :: _ =>
            scan_loop rest networks (Network.set_ssid essid current)
        | _ => raise IndexError
        end
      else if PyStr.contains "Quality=" line then
        match PyStr.split_on "=" line with
        | _ :: after :: _ =>
            match PyStr.split after with
            | quality :: _ =>
                scan_loop rest networks (Network.set_quality quality current)
            | [] => raise IndexError
            end
        | _ => raise IndexError
        end
      else if PyStr.contains "Encryption key:" line then
        let encrypted := PyStr.contains "on" (PyStr.lower line) in
        scan_loop rest networks (Network.set_encrypted encrypted current)
      else if PyStr.contains "IE: IEEE 802.11i/WPA2" line then
        scan_loop rest networks (Network.set_security "WPA2" current)
      else if PyStr.contains "IE: WPA Version" line then
        scan_loop rest networks (Network.set_security "WPA" current)
      else scan_loop rest networks current
  end.

Definition scan_networks : Py (t * world) (list Network.t) :=
  o ← self;
  try_except
    (result ← on_world (run true ["iwlist"; interface o; "scan"]);
     scan_loop (PyStr.splitlines (stdout result)) [] Network.empty)
    is_CalledProcessError
    (fun _ => mret []).

(** [status.get("connected", False)]: the dictionary
    [get_connection_status] returns always has the key. *)
Definition is_connected : Py (t * world) bool :=
  status ← get_connection_status;
  mret (connected status).

(** The lines of a scan that open a cell. *)
Definition cells (lines : list string) : nat :=
  length
    (List.filter (fun l => PyStr.contains "Cell" (PyStr.strip l)) lines).

(** An entry as [scan_networks] reports it: it has a key, and it is not
    marked as open. *)
Definition reported (n : Network.t) : Prop :=
  Network.truthy n = true /\ Network.encrypted n <> Some false.

End ConnectionManager.

(* ===================================================================== *)
(** ** core/ap_service.py *)
(* ===================================================================== *)

Module APService.

Record t : Type := Make {
  interface : string;
  hostapd_conf_path : string;
  dnsmasq_conf_path : string;
  is_running : bool
}.

(** [APService(interface)] *)
Definition init (interface : string) : t :=
  {| interface := interface;
     hostapd_conf_path := "/tmp/hostapd.conf";
     dnsmasq_conf_path := "/tmp/dnsmasq.conf";
     is_running := false |}.

Definition set_is_running (b : bool) (o : t) : t :=
  {| interface := interface o;
     hostapd_conf_path := hostapd_conf_path o;
     dnsmasq_conf_path := dnsmasq_conf_path o;
     is_running := b |}.


(** The lines of the hostapd configuration. *)
Definition config_lines (o : t) (ssid : string) (password : option string)
    (channel : Z) (hw_mode : string) : list string :=
  ["interface=" +:+ interface o;
   "driver=nl80211";
   "ssid=" +:+ ssid;
   "hw_mode=" +:+ hw_mode;
   "channel=" +:+ pretty channel;
   "ctrl_interface=/var/run/hostapd";
   "ctrl_interface_group=0";
   "ignore_broadcast_ssid=0"]
  ++ (if PyStr.truthy password
      then ["wpa=2";
            "wpa_key_mgmt=WPA-PSK";
            "rsn_pairwise=CCMP";
            "wpa_passphrase=" +:+ default "" password]
      else []).

Definition configure_ap (ssid : string) (password : option string)
    (channel : Z) (hw_mode : string) : Py (t * world) (bool * message) :=
  o ← self;
  try_except
    (on_world (write_file (hostapd_conf_path o)
                 (PyStr.join_lines
                    (config_lines o ssid password channel hw_mode)));;
     mret (true, [Lit "AP configuration created successfully"]))
    any_Exception
    (fun e => mret (false, [StrOf e])).

Definition configure_dhcp (ip_range_start ip_range_end lease_time : string)
  : Py (t * world) (bool * message) :=
  o ← self;
  try_except
    (on_world (write_file (dnsmasq_conf_path o)
                 (PyStr.join_lines
                    ["interface=" +:+ interface o;
                     "bind-interfaces";
                     "server=8.8.8.8";
                     "domain-needed";
                     "bogus-priv";
                     "dhcp-range=" +:+ ip_range_start +:+ ","
                       +:+ ip_range_end +:+ "," +:+ lease_time]));;
     mret (true, [Lit "DHCP configuration created successfully"]))
    any_Exception
    (fun e => mret (false, [StrOf e])).

Definition stop : Py (t * world) (bool * message) :=
  o ← self;
  try_except
    (on_world (run false ["killall"; "hostapd"]);;
     on_world (run false ["killall"; "dnsmasq"]);;
     on_world (run true ["ip"; "addr"; "flush"; "dev"; interface o]);;
     there ← on_world (path_exists (hostapd_conf_path o));
     (if there : bool then on_world (remove (hostapd_conf_path o))
      else mret tt);;
     there ← on_world (path_exists (dnsmasq_conf_path o));
     (if there : bool then on_world (remove (dnsmasq_conf_path o))
      else mret tt);;
     set_self (set_is_running false);;
     mret (true, [Lit "Access point stopped successfully"]))
    any_Exception
    (fun e => mret (false, [StrOf e])).

(** The five commands of [start], in order. *)
Definition start_commands (o : t) : list command :=
  [["ip"; "addr"; "flush"; "dev"; interface o];
   ["ip"; "addr"; "add"; "192.168.4.1/24"; "dev"; interface o];
   ["ip"; "link"; "set"; interface o; "up"];
   ["hostapd"; "-B"; hostapd_conf_path o];
   ["dnsmasq"; "-C"; dnsmasq_conf_path o]].

Definition start : Py (t * world) (bool * message) :=
  o ← self;
  try_except
    (for_each (start_commands o)
       (fun cmd => on_world (run true cmd);; mret tt);;
     set_self (set_is_running true);;
     mret (true, [Lit "Access point started successfully"]))
    is_CalledProcessError
    (fun e => stop;; mret (false, [StrOf e])).

(** One entry of the list [get_connected_clients] returns; the key
    ["signal_strength"] is present only when it was set. *)
Record client : Type := Client {
  mac_address : string;
  ip_address : string;
  hostname : string;
  signal_strength : option string
}.

Definition leases_path : string := "/var/lib/misc/dnsmasq.leases".

(** The loop over the lines of the leases file. *)
Fixpoint lease_clients (lines : list string) : list client :=
  match lines with
  | [] => []
  | line :: rest =>
      match PyStr.split (PyStr.strip line) with
      | _ :: mac :: ip :: host :: _ :: _ =>
          Client mac ip host None :: lease_clients rest
      | _ => lease_clients rest
      end
  end.

(** [for client in clients: if client["mac_address"] == current_mac:
    client["signal_strength"] = signal; break] *)
Fixpoint set_signal (current_mac signal : string) (clients : list client)
  : list client :=
  match clients with
  | [] => []
  | c :: rest =>
      if String.eqb (mac_address c) current_mac
      then Client (mac_address c) (ip_address c) (hostname c) (Some signal)
             :: rest
      else c :: set_signal current_mac signal rest
  end.

(** The loop over the lines of the station dump. [line.split()[1]] raises
    [IndexError] on a line with ["Station"] and fewer than two words; the
    enclosing [try] catches it and the clients are returned as they are. *)
Fixpoint station_loop (lines : list string) (current_mac : option string)
    (clients : list client) : list client :=
  match lines with
  | [] => clients
  | line :: rest =>
      if PyStr.contains "Station" line then
        match PyStr.split line with
        | _ :: mac :: _ => station_loop rest (Some mac) clients
        | _ => clients
        end
      else if PyStr.contains "signal:" line && PyStr.truthy current_mac then
        let signal := PyStr.strip (nth 1 (PyStr.split_on ":" line) "") in
        station_loop rest current_mac
          (set_signal (default "" current_mac) signal clients)
      else station_loop rest current_mac clients
  end.

(** The clients read from the leases file, when there is one; a file
    that exists is taken to be readable. *)
Definition leased (w : world) : list client :=
  match files w !! leases_path with
  | Some text => lease_clients (PyStr.file_lines text)
  | None => []
  end.

Definition station_dump (o : t) : command :=
  ["iw"; "dev"; interface o; "station"; "dump"].

Definition get_connected_clients : Py (t * world) (list client) :=
  o ← self;
  w ← on_world get;
  let clients := leased w in
  try_except
    (result ← on_world (run false (station_dump o));
     if returncode result =? 0
     then mret (station_loop (PyStr.splitlines (stdout result)) None clients)
     else mret clients)
    any_Exception
    (fun _ => mret clients).

(** A client without its signal reading. *)
Definition erase_signal (c : client) : client :=
  Client (mac_address c) (ip_address c) (hostname c) None.

(** The station dump has a "Station" line whose second word is [mac]. *)
Definition announced (lines : list string) (mac : string) : Prop :=
  exists line,
    line ∈ lines /\ PyStr.contains "Station" line = true
    /\ PyStr.split line !! 1%nat = Some mac.

(** The station dump has a "signal:" line that reads [signal]. *)
Definition reading (lines : list string) (signal : string) : Prop :=
  exists line,
    line ∈ lines /\ PyStr.contains "signal:" line = true
    /\ signal = PyStr.strip (nth 1 (PyStr.split_on ":" line) "").

End APService.

(* ===================================================================== *)
(** ** core/bridge_service.py *)
(* ===================================================================== *)

Module BridgeService.

Record t : Type := Make {
  upstream_interface : string;
  ap_interface : string;
  bridge_name : string;
  is_running : bool;
  _iptables_rules : list command
}.

(** [BridgeService(upstream_interface, ap_interface)] *)
Definition init (upstream_interface ap_interface : string) : t :=
  {| upstream_interface := upstream_interface;
     ap_interface := ap_interface;
     bridge_name := "br0";
     is_running := false;
     _iptables_rules := [] |}.

Definition set_is_running (b : bool) (o : t) : t :=
  {| upstream_interface := upstream_interface o;
     ap_interface := ap_interface o;
     bridge_name := bridge_name o;
     is_running := b;
     _iptables_rules := _iptables_rules o |}.

Definition set_rules (rules : list command) (o : t) : t :=
  {| upstream_interface := upstream_interface o;
     ap_interface := ap_interface o;
     bridge_name := bridge_name o;
     is_running := is_running o;
     _iptables_rules := rules |}.

(** [self._iptables_rules.append(rule)] *)
Definition append_rule (rule : command) (o : t) : t :=
  set_rules (_iptables_rules o ++ [rule]) o.

Definition ip_forward : string := "/proc/sys/net/ipv4/ip_forward".

Definition setup_bridge : Py (t * world) (bool * message) :=
  o ← self;
  try_except
    (on_world (run true ["ip"; "link"; "add"; "name"; bridge_name o;
                         "type"; "bridge"]);;
     on_world (run true ["ip"; "link"; "set"; ap_interface o;
                         "master"; bridge_name o]);;
     on_world (run true ["ip"; "link"; "set"; bridge_name o; "up"]);;
     mret (true, [Lit "Bridge interface created successfully"]))
    is_CalledProcessError
    (fun e => mret (false, [StrOf e])).

(** The rules [setup_routing] installs, in order. *)
Definition rules (o : t) : list command :=
  [["iptables"; "-t"; "nat"; "-A"; "POSTROUTING"; "-o";
    upstream_interface o; "-j"; "MASQUERADE"];
   ["iptables"; "-A"; "FORWARD"; "-i"; ap_interface o; "-o";
    upstream_interface o; "-j"; "ACCEPT"];
   ["iptables"; "-A"; "FORWARD"; "-i"; upstream_interface o; "-o";
    ap_interface o; "-m"; "state"; "--state";
    "RELATED,ESTABLISHED"; "-j"; "ACCEPT"]].

(** The body of the loop of [setup_routing]. *)
Definition install_rule (rule : command) : Py (t * world) unit :=
  on_world (run true rule);;
  set_self (append_rule rule).

(** Both [except] clauses of the source return [(False, str(e))]. *)
Definition setup_routing : Py (t * world) (bool * message) :=
  o ← self;
  try_except
    (on_world (write_file ip_forward "1");;
     for_each (rules o) install_rule;;
     mret (true, [Lit "Routing rules configured successfully"]))
    any_Exception
    (fun e => mret (false, [StrOf e])).

Definition cleanup_bridge : Py (t * world) unit :=
  o ← self;
  try_except
    (on_world (run false ["ip"; "link"; "set"; ap_interface o; "nomaster"]);;
     on_world (run false ["ip"; "link"; "delete"; bridge_name o;
                          "type"; "bridge"]);;
     mret tt)
    is_CalledProcessError
    (fun _ => mret tt).

(** The two commands of [cleanup_bridge]. *)
Definition cleanup_commands (o : t) : list command :=
  [["ip"; "link"; "set"; ap_interface o; "nomaster"];
   ["ip"; "link"; "delete"; bridge_name o; "type"; "bridge"]].

(** The command [stop] runs for an installed rule: the rule with its
    fourth word replaced by "-D". *)
Definition removal (rule : command) : command := <[3%nat := "-D"]> rule.

(** [delete_rule = rule.copy(); delete_rule[3] = "-D"]: the assignment
    raises [IndexError] on a rule of fewer than four words. *)
Definition delete_rule {S} (rule : command) : Py S command :=
  if decide (3 < length rule)%nat
  then mret (removal rule)
  else raise IndexError.

(** The body of the loop of [stop]. *)
Definition remove_rule (rule : command) : Py (t * world) unit :=
  delete ← delete_rule rule;
  on_world (run false delete);;
  mret tt.

Definition stop : Py (t * world) (bool * message) :=
  o ← self;
  try_except
    (for_each (rev (_iptables_rules o)) remove_rule;;
     set_self (set_rules []);;
     on_world (write_file ip_forward "0");;
     cleanup_bridge;;
     set_self (set_is_running false);;
     mret (true, [Lit "Bridge and routing stopped successfully"]))
    any_Exception
    (fun e => mret (false, [StrOf e])).

Definition start : Py (t * world) (bool * message) :=
  try_except
    ('(bridge_success, bridge_message) ← setup_bridge;
     if negb bridge_success then
       mret (false, Lit "Bridge setup failed: " :: bridge_message)
     else
       '(routing_success, routing_message) ← setup_routing;
       if negb routing_success then
         cleanup_bridge;;
         mret (false, Lit "Routing setup failed: " :: routing_message)
       else
         set_self (set_is_running true);;
         mret (true, [Lit "Bridge and routing started successfully"]))
    any_Exception
    (fun e => stop;; mret (false, [StrOf e])).

(** The dictionary [get_bridge_status] returns; the key "bridge_active"
    is present only when it was set. *)
Module Status.

Record t : Type := Make {
  running : bool;
  bridge_interface : string;
  upstream_interface : string;
  ap_interface : string;
  forwarding_enabled : bool;
  nat_enabled : bool;
  bridge_active : option bool
}.

Definition set_forwarding_enabled (b : bool) (s : t) : t :=
  Make (running s) (bridge_interface s) (upstream_interface s)
    (ap_interface s) b (nat_enabled s) (bridge_active s).

Definition set_nat_enabled (b : bool) (s : t) : t :=
  Make (running s) (bridge_interface s) (upstream_interface s)
    (ap_interface s) (forwarding_enabled s) b (bridge_active s).

Definition set_bridge_active (b : bool) (s : t) : t :=
  Make (running s) (bridge_interface s) (upstream_interface s)
    (ap_interface s) (forwarding_enabled s) (nat_enabled s) (Some b).

End Status.

(** The dictionary [status] is the local variable of the body; an
    exception ends the body and the dictionary is returned with the keys
    set so far. *)
Definition get_bridge_status : Py (t * world) Status.t :=
  o ← self;
  with_local
    (Status.Make (is_running o) (bridge_name o) (upstream_interface o)
       (ap_interface o) false false None)
    (text ← on_world (on_world (read_file ip_forward));
     set_self (Status.set_forwarding_enabled
                 (String.eqb (PyStr.strip text) "1"));;
     result ← on_world (on_world
                 (run false ["iptables"; "-t"; "nat"; "-L"; "POSTROUTING";
                             "-n"]));
     set_self (Status.set_nat_enabled
                 (PyStr.contains (upstream_interface o) (stdout result)));;
     result ← on_world (on_world
                 (run false ["bridge"; "link"; "show"; bridge_name o]));
     set_self (Status.set_bridge_active (returncode result =? 0)))
    any_Exception.

End BridgeService.

(* ===================================================================== *)
(** ** core/wifi_detector.py *)
(* ===================================================================== *)

Module WiFiDetector.

(** One address of an interface as [netifaces] gives it: a dictionary
    with the key "addr" among others. *)
Definition address : Type := gmap string string.

(** What [netifaces.ifaddresses] returns: the addresses by family; a
    family the interface has no address of is missing. *)
Record addresses : Type := Addresses {
  AF_LINK : option (list address);
  AF_INET : option (list address)
}.

(** The machine the detector runs on: the operating system, and what
    [netifaces] answers once the commands so far have run.
    [netifaces.ifaddresses] raises [ValueError] for a name that is no
    interface: [None] here. *)
Record host : Type := Host {
  os : world;
  netifaces_interfaces : list command -> list string;
  netifaces_ifaddresses : list command -> string -> option addresses
}.

Definition set_os (w : world) (h : host) : host :=
  {| os := w; netifaces_interfaces := netifaces_interfaces h;
     netifaces_ifaddresses := netifaces_ifaddresses h |}.

(** The dictionary under the key "capabilities". *)
Record capabilities_dict : Type := Capabilities {
  modes : list string;
  supported_bands : list string;
  current_band : option string;
  max_speed : option string
}.

(** The dictionary [_get_interface_info] builds. *)
Record info_dict : Type := Info {
  name : string;
  supports_ap : bool;
  supports_managed : bool;
  current_mode : option string;
  mac_address : option string;
  driver : option string;
  capabilities : capabilities_dict
}.

Definition set_supports_ap (b : bool) (i : info_dict) : info_dict :=
  Info (name i) b (supports_managed i) (current_mode i) (mac_address i)
    (driver i) (capabilities i).

Definition set_supports_managed (b : bool) (i : info_dict) : info_dict :=
  Info (name i) (supports_ap i) b (current_mode i) (mac_address i)
    (driver i) (capabilities i).

(** A dictionary with string keys, in the order of insertion: [d.get(k)]
    and [d[k] = v], which keeps the place of a key that is there. *)
Fixpoint dict_get {V} (k : string) (d : list (string * V)) : option V :=
  match d with
  | [] => None
  | (k', v) :: d' => if String.eqb k' k then Some v else dict_get k d'
  end.

Fixpoint dict_set {V} (k : string) (v : V) (d : list (string * V))
  : list (string * V) :=
  match d with
  | [] => [(k, v)]
  | (k', v') :: d' =>
      if String.eqb k' k then (k, v) :: d' else (k', v') :: dict_set k v d'
  end.

Record t : Type := Make {
  interfaces : list (string * info_dict)
}.

(** A command run by a method of the detector. *)
Definition on_os {A} (m : Py world A) : Py (t * host) A :=
  fun '(d, h) =>
    match m (os h) with
    | (r, w') => (r, (d, set_os w' h))
    end.

(** [netifaces.interfaces()] *)
Definition interfaces_now : Py (t * host) (list string) :=
  fun '(d, h) =>
    (Returned (netifaces_interfaces h (executed (os h))), (d, h)).

(** [netifaces.ifaddresses(interface)] *)
Definition ifaddresses (interface : string) : Py (t * host) addresses :=
  fun '(d, h) =>
    match netifaces_ifaddresses h (executed (os h)) interface with
    | Some a => (Returned a, (d, h))
    | None =>
        (Raised (ValueError "You must specify a valid interface name."),
         (d, h))
    end.

(** [d[key]], [l[0]] *)
Definition item {S A} (key : string) (o : option A) : Py S A :=
  match o with
  | Some a => mret a
  | None => raise (KeyError key)
  end.

Definition first {S A} (l : list A) : Py S A :=
  match l with
  | a :: _ => mret a
  | [] => raise IndexError
  end.

Definition _is_wireless (interface : string) : Py (t * host) bool :=
  try_except
    (result ← on_os (run false ["iwconfig"; interface]);
     mret (negb (PyStr.contains "no wireless extensions" (stderr result))))
    is_CalledProcessError
    (fun _ => mret false).

Definition is_KeyError_or_IndexError (e : exn) : bool :=
  match e with
  | KeyError _ | IndexError => true
  | _ => false
  end.

(** [netifaces.AF_LINK] is 17 and [netifaces.AF_INET] is 2. *)
Definition _get_mac_address (interface : string)
  : Py (t * host) (option string) :=
  try_except
    (addrs ← ifaddresses interface;
     entries ← item "17" (AF_LINK addrs);
     entry ← first entries;
     mac ← item "addr" (entry !! "addr");
     mret (Some mac))
    is_KeyError_or_IndexError
    (fun _ => mret None).

(** The loop of [_get_driver_info]: the first line that starts with
    "driver:" decides. *)
Fixpoint driver_of {S} (lines : list string) : Py S (option string) :=
  match lines with
  | [] => mret None
  | line :: rest =>
      if String.prefix "driver:" line then
        match PyStr.split_on ":" line with
        | _ :: d :: _ => mret (Some (PyStr.strip d))
        | _ => raise IndexError
        end
      else driver_of rest
  end.

Definition _get_driver_info (interface : string)
  : Py (t * host) (option string) :=
  try_except
    (result ← on_os (run false ["ethtool"; "-i"; interface]);
     if returncode result =? 0
     then driver_of (PyStr.splitlines (stdout result))
     else mret None)
    is_CalledProcessError
    (fun _ => mret None).

(** [self.interfaces[interface][key] = True]: [KeyError] when the
    detector has no entry for [interface]. *)
Definition set_flag (interface : string) (f : info_dict -> info_dict)
  : Py (t * host) unit :=
  d ← self;
  entry ← item interface (dict_get interface (interfaces d));
  set_self (fun _ => Make (dict_set interface (f entry) (interfaces d))).

(** The inner loop of [_get_capabilities], over all the lines again. *)
Fixpoint mode_loop (interface : string) (lines : list string)
    (modes : list string) : Py (t * host) (list string) :=
  match lines with
  | [] => mret modes
  | mode_line :: rest =>
      if PyStr.contains "*" mode_line && negb (PyStr.contains ":" mode_line)
      then
        let mode :=
          PyStr.strip (PyStr.without "*"%char (PyStr.strip mode_line)) in
        (if String.eqb mode "AP"
         then set_flag interface (set_supports_ap true)
         else if String.eqb mode "managed"
         then set_flag interface (set_supports_managed true)
         else mret tt);;
        mode_loop interface rest (modes ++ [mode])
      else mode_loop interface rest modes
  end.

(** The outer loop: [modes] is what the key "modes" holds. *)
Fixpoint capability_loop (interface : string) (all lines : list string)
    (modes : list string) : Py (t * host) (list string) :=
  match lines with
  | [] => mret modes
  | line :: rest =>
      if PyStr.contains "Supported interface modes" line then
        modes' ← mode_loop interface all [];
        capability_loop interface all rest modes'
      else capability_loop interface all rest modes
  end.

Definition _get_capabilities (interface : string)
  : Py (t * host) capabilities_dict :=
  try_except
    (result ← on_os (run false ["iw"; interface; "info"]);
     if returncode result =? 0 then
       let lines := PyStr.splitlines (stdout result) in
       modes ← capability_loop interface lines lines [];
       mret (Capabilities modes [] None None)
     else mret (Capabilities [] [] None None))
    is_CalledProcessError
    (fun _ => mret (Capabilities [] [] None None)).

(** The values of the dictionary are computed in the order of its keys. *)
Definition _get_interface_info (interface : string)
  : Py (t * host) info_dict :=
  mac ← _get_mac_address interface;
  driver ← _get_driver_info interface;
  capabilities ← _get_capabilities interface;
  mret (Info interface false false None mac driver capabilities).

(** The body of the loop of [refresh_interfaces]. *)
Definition refresh (interface : string) : Py (t * host) unit :=
  wireless ← _is_wireless interface;
  if wireless : bool then
    info ← _get_interface_info interface;
    set_self (fun d => Make (dict_set interface info (interfaces d)))
  else mret tt.

Definition refresh_interfaces : Py (t * host) unit :=
  set_self (fun _ => Make []);;
  names ← interfaces_now;
  for_each names refresh.

(** [WiFiDetector()] *)
Definition init : Py (t * host) unit :=
  set_self (fun _ => Make []);;
  refresh_interfaces.

Definition get_suitable_interfaces (d : t) : list string :=
  map fst
    (List.filter (fun e => supports_ap (snd e) && supports_managed (snd e))
       (interfaces d)).

Definition set_active (b : bool) (s : status) : status :=
  Status b (connected s) (ssid s) (ip_address s) (mode s)
    (signal_quality s) (bit_rate s).

Definition set_connected (b : bool) (s : status) : status :=
  Status (active s) b (ssid s) (ip_address s) (mode s)
    (signal_quality s) (bit_rate s).

Definition set_ssid (v : option string) (s : status) : status :=
  Status (active s) (connected s) v (ip_address s) (mode s)
    (signal_quality s) (bit_rate s).

Definition set_ip_address (v : string) (s : status) : status :=
  Status (active s) (connected s) (ssid s) (Some v) (mode s)
    (signal_quality s) (bit_rate s).

Definition set_mode (v : string) (s : status) : status :=
  Status (active s) (connected s) (ssid s) (ip_address s) (Some v)
    (signal_quality s) (bit_rate s).

Definition caught_by_status (e : exn) : bool :=
  match e with
  | CalledProcessError _ _ | KeyError _ | IndexError => true
  | _ => false
  end.

(** The text between the first [ESSID:] followed by a double quote and
    the next double quote; [IndexError] when the output has no such
    opening. *)
Definition essid_of {S} (output : string) : Py S string :=
  match PyStr.split_on ("ESSID:" +:+ PyStr.dquote) output with
  | _ :: after :: _ => first (PyStr.split_on PyStr.dquote after)
  | _ => raise IndexError
  end.

(** [output.split("Mode:")[1].split()[0]] *)
Definition mode_of {S} (output : string) : Py S string :=
  match PyStr.split_on "Mode:" output with
  | _ :: after :: _ => first (PyStr.split after)
  | _ => raise IndexError
  end.

(** The body of the [try] of [get_interface_status], on the dictionary
    [status]. *)
Definition probe_interface (interface : string)
  : Py (status * (t * host)) unit :=
  addrs ← on_world (ifaddresses interface);
  set_self (set_active (bool_decide (is_Some (AF_INET addrs))));;
  status ← self;
  if active status then
    entries ← item "2" (AF_INET addrs);
    entry ← first entries;
    ip ← item "addr" (entry !! "addr");
    set_self (set_ip_address ip);;
    result ← on_world (on_os (run false ["iwconfig"; interface]));
    if returncode result =? 0 then
      let output := stdout result in
      (if PyStr.contains "ESSID:" output then
         ssid ← essid_of output;
         set_self (set_ssid (if String.eqb ssid "off/any" then None
                             else Some ssid))
       else mret tt);;
      (if PyStr.contains "Mode:" output then
         mode ← mode_of output;
         set_self (set_mode mode)
       else mret tt);;
      set_self (fun s => set_connected (bool_decide (is_Some (ssid s))) s)
    else mret tt
  else mret tt.

(** [{}] for an interface the detector has no entry of. *)
Definition get_interface_status (interface : string)
  : Py (t * host) probe :=
  d ← self;
  match dict_get interface (interfaces d) with
  | None => mret EmptyDict
  | Some _ =>
      status ← with_local (Status false false None None None None None)
                 (probe_interface interface) caught_by_status;
      mret (Dict status)
  end.

(** An entry none of whose two flags is set. *)
Definition flagless (e : string * info_dict) : Prop :=
  supports_ap (snd e) = false /\ supports_managed (snd e) = false.

(** The table of a detector between two turns of the loop of
    [refresh_interfaces]: no key twice, no flag set. *)
Definition plain (d : t) : Prop :=
  NoDup (interfaces d).*1 /\ Forall flagless (interfaces d).

(** The table while the entry of [i] is being built: a flag can be set
    under the key [i] only. *)
Definition plain_but (i : string) (d : t) : Prop :=
  NoDup (interfaces d).*1
  /\ Forall (fun e => fst e = i \/ flagless e) (interfaces d).

(** The method [m] keeps the property [Inv] of the table, whether it
    returns or raises. *)
Definition keeps (Inv : t -> Prop) {A} (m : Py (t * host) A) : Prop :=
  forall d h, Inv d -> Inv (fst (snd (m (d, h)))).

End WiFiDetector.

(* ===================================================================== *)
(** ** service/daemon.py *)
(* ===================================================================== *)

Module Daemon.

(** The configuration dictionary, as [start_services] reads it: a section
    or a key that is missing is [None]. *)
Record upstream_config : Type := Upstream {
  up_ssid : option string;
  up_password : option string
}.

Record ap_config : Type := Ap {
  ap_ssid : option string;
  ap_password : option string;
  ap_channel : option Z
}.

Record config_dict : Type := Config {
  upstream : option upstream_config;
  ap : option ap_config
}.

Definition empty_config : config_dict :=
  {| upstream := None; ap := None |}.

Inductive config_file : Type :=
| ConfigLoaded (c : config_dict)
| ConfigMissing
| ConfigError (e : exn).

(** The collaborators of the daemon: the constructors of the four classes
    of [core] and their methods, each method with the object it is called
    on, the detector, the configuration file and the signals. [W] is
    whatever the collaborators act on: the objects and the operating system
    for the classes of [core], the recorded answers of a mock in the test
    suite. *)
Record collaborators (W : Type) : Type := Collaborators {
  read_config : W -> config_file * W;
  signals : W -> list Z * W;
  get_suitable_interfaces : Py W (list string);
  new_connection_manager : string -> Py W unit;
  new_interface_manager : string -> Py W unit;
  new_ap_service : string -> Py W unit;
  new_bridge_service : string * string -> Py W unit;
  create_virtual_interface : string -> Py W (bool * message);
  delete_virtual_interface : string -> Py W (bool * message);
  connect_to_network :
    string -> string -> option string -> Py W (bool * message);
  disconnect : string -> Py W (bool * message);
  get_connection_status : string -> Py W (option bool);
  configure_ap :
    string -> string -> option string -> Z -> Py W (bool * message);
  configure_dhcp : string -> Py W (bool * message);
  ap_start : string -> Py W (bool * message);
  ap_stop : string -> Py W (bool * message);
  get_connected_clients : string -> Py W (list APService.client);
  bridge_start : string * string -> Py W (bool * message);
  bridge_stop : string * string -> Py W (bool * message)
}.
Arguments read_config {W} _.
Arguments signals {W} _.
Arguments get_suitable_interfaces {W} _.
Arguments new_connection_manager {W} _.
Arguments new_interface_manager {W} _.
Arguments new_ap_service {W} _.
Arguments new_bridge_service {W} _.
Arguments create_virtual_interface {W} _.
Arguments delete_virtual_interface {W} _.
Arguments connect_to_network {W} _.
Arguments disconnect {W} _.
Arguments get_connection_status {W} _.
Arguments configure_ap {W} _.
Arguments configure_dhcp {W} _.
Arguments ap_start {W} _.
Arguments ap_stop {W} _.
Arguments get_connected_clients {W} _.
Arguments bridge_start {W} _.
Arguments bridge_stop {W} _.

(** The calls the daemon makes on its collaborators. *)
Inductive call : Type :=
| GetSuitableInterfaces
| CreateVirtualInterface
| DeleteVirtualInterface
| ConnectToNetwork (ssid : string) (password : option string)
| Disconnect
| GetConnectionStatus
| ConfigureAp (ssid : string) (password : option string) (channel : Z)
| ConfigureDhcp
| ApStart
| ApStop
| GetConnectedClients
| BridgeStart
| BridgeStop.

#[global] Instance call_eq_dec : EqDecision call.
Proof. solve_decision. Defined.

Inductive level : Type := INFO | WARNING | ERROR.

(** What an observer of the daemon sees, in order: the calls on the
    collaborators, the lines logged, the sleeps. *)
Inductive event : Type :=
| Called (c : call)
| Logged (l : level) (m : message)
| Slept (seconds : Z).

(** The fields of [WiFiExtenderDaemon]. A collaborator that was created
    holds the arguments of its constructor. *)
Record t : Type := Make {
  interface : option string;
  connection_manager : option string;
  interface_manager : option string;
  ap_service : option string;
  bridge_service : option (string * string);
  running : bool;
  config : config_dict
}.

(** [WiFiExtenderDaemon()] *)
Definition init : t :=
  {| interface := None; connection_manager := None;
     interface_manager := None; ap_service := None;
     bridge_service := None; running := false; config := empty_config |}.

Definition set_running (b : bool) (d : t) : t :=
  {| interface := interface d; connection_manager := connection_manager d;
     interface_manager := interface_manager d; ap_service := ap_service d;
     bridge_service := bridge_service d; running := b;
     config := config d |}.

Definition set_config (c : config_dict) (d : t) : t :=
  {| interface := interface d; connection_manager := connection_manager d;
     interface_manager := interface_manager d; ap_service := ap_service d;
     bridge_service := bridge_service d; running := running d;
     config := c |}.

Definition set_interface (i : string) (d : t) : t :=
  {| interface := Some i; connection_manager := connection_manager d;
     interface_manager := interface_manager d; ap_service := ap_service d;
     bridge_service := bridge_service d; running := running d;
     config := config d |}.

Definition set_managers (i : string) (d : t) : t :=
  {| interface := interface d; connection_manager := Some i;
     interface_manager := Some i; ap_service := ap_service d;
     bridge_service := bridge_service d; running := running d;
     config := config d |}.

Definition set_services (i v : string) (d : t) : t :=
  {| interface := interface d; connection_manager := connection_manager d;
     interface_manager := interface_manager d; ap_service := Some v;
     bridge_service := Some (i, v); running := running d;
     config := config d |}.

Record state (W : Type) : Type := State {
  this : t;
  trace : list event;
  world : W
}.
Arguments State {W} _ _ _.
Arguments this {W} _.
Arguments trace {W} _.
Arguments world {W} _.

Section Methods.

Context {W : Type} (C : collaborators W).

Definition observe (e : event) : Py (state W) unit :=
  modify (fun st => State (this st) (trace st ++ [e]) (world st)).

Definition log (l : level) (m : message) : Py (state W) unit :=
  observe (Logged l m).

Definition sleep (seconds : Z) : Py (state W) unit :=
  observe (Slept seconds).

(** A call on a collaborator: it is observed, then it runs. *)
Definition invoke {A} (c : call) (m : Py W A) : Py (state W) A :=
  fun st =>
    match m (world st) with
    | (r, w') => (r, State (this st) (trace st ++ [Called c]) w')
    end.

(** A collaborator is constructed: no event, the collaborators move on. *)
Definition construct (m : Py W unit) : Py (state W) unit :=
  fun st =>
    match m (world st) with
    | (r, w') => (r, State (this st) (trace st) w')
    end.

Definition get_this : Py (state W) t :=
  fun st => (Returned (this st), st).

Definition set_this (f : t -> t) : Py (state W) unit :=
  modify (fun st => State (f (this st)) (trace st) (world st)).

(** [d[key]] *)
Definition item {A} (key : string) (o : option A) : Py (state W) A :=
  match o with
  | Some a => mret a
  | None => raise (KeyError key)
  end.

Definition load_config : Py (state W) unit :=
  fun st =>
    match read_config C (world st) with
    | (ConfigLoaded c, w') =>
        log INFO [Lit "Configuration loaded successfully"]
          (State (set_config c (this st)) (trace st) w')
    | (ConfigMissing, w') =>
        log WARNING [Lit "No configuration file found"]
          (State (set_config empty_config (this st)) (trace st) w')
    | (ConfigError e, w') =>
        log ERROR [Lit "Error loading configuration: "; StrOf e]
          (State (set_config empty_config (this st)) (trace st) w')
    end.

Definition initialize_services : Py (state W) bool :=
  try_except
    (interfaces ← invoke GetSuitableInterfaces (get_suitable_interfaces C);
     match interfaces with
     | [] =>
         log ERROR [Lit "No suitable WiFi interfaces found"];;
         mret false
     | i :: _ =>
         set_this (set_interface i);;
         log INFO [Lit ("Using interface: " +:+ i)];;
         construct (new_connection_manager C i);;
         construct (new_interface_manager C i);;
         set_this (set_managers i);;
         '(success, message) ←
           invoke CreateVirtualInterface (create_virtual_interface C i);
         if negb success then
           log ERROR (Lit "Failed to create virtual interface: "
                      :: message);;
           mret false
         else
           let virtual_interface := i +:+ "_ap0" in
           construct (new_ap_service C virtual_interface);;
           construct (new_bridge_service C (i, virtual_interface));;
           set_this (set_services i virtual_interface);;
           log INFO [Lit "Services initialized successfully"];;
           mret true
     end)
    any_Exception
    (fun e =>
       log ERROR [Lit "Error initializing services: "; StrOf e];;
       mret false).

(** The upstream step of [start_services]: [true] when the method goes
    on to the next step. *)
Definition start_upstream (d : t) (cm : string) : Py (state W) bool :=
  match upstream (config d) with
  | None => mret true
  | Some u =>
      ssid ← item "ssid" (up_ssid u);
      '(success, message) ←
        invoke (ConnectToNetwork ssid (up_password u))
          (connect_to_network C cm ssid (up_password u));
      if negb success then
        log ERROR (Lit "Failed to connect to upstream network: "
                   :: message);;
        mret false
      else mret true
  end.

(** The access-point step of [start_services]. *)
Definition start_ap (d : t) (aps : string) : Py (state W) bool :=
  match ap (config d) with
  | None => mret true
  | Some a =>
      ssid ← item "ssid" (ap_ssid a);
      let channel := default 6 (ap_channel a) in
      '(success, message) ←
        invoke (ConfigureAp ssid (ap_password a) channel)
          (configure_ap C aps ssid (ap_password a) channel);
      if negb success then
        log ERROR (Lit "Failed to configure AP: " :: message);;
        mret false
      else
        '(success, message) ← invoke ConfigureDhcp (configure_dhcp C aps);
        if negb success then
          log ERROR (Lit "Failed to configure DHCP: " :: message);;
          mret false
        else
          '(success, message) ← invoke ApStart (ap_start C aps);
          if negb success then
            log ERROR (Lit "Failed to start AP: " :: message);;
            mret false
          else mret true
  end.

Definition start_services : Py (state W) bool :=
  try_except
    (d ← get_this;
     match connection_manager d, ap_service d, bridge_service d with
     | Some cm, Some aps, Some br =>
         go_on ← start_upstream d cm;
         if negb go_on then mret false else
         go_on ← start_ap d aps;
         if negb go_on then mret false else
         '(success, message) ← invoke BridgeStart (bridge_start C br);
         if negb success then
           log ERROR (Lit "Failed to start bridge: " :: message);;
           invoke ApStop (ap_stop C aps);;
           mret false
         else
           log INFO [Lit "All services started successfully"];;
           mret true
     | _, _, _ =>
         log ERROR [Lit "Services not initialized"];;
         mret false
     end)
    any_Exception
    (fun e =>
       log ERROR [Lit "Error starting services: "; StrOf e];;
       mret false).

(** [if handle: m handle] *)
Definition when_present {A B} (handle : option A)
    (m : A -> Py (state W) B) : Py (state W) unit :=
  match handle with
  | Some a => m a;; mret tt
  | None => mret tt
  end.

Definition stop_services : Py (state W) unit :=
  try_except
    (d ← get_this;
     when_present (bridge_service d)
       (fun br => invoke BridgeStop (bridge_stop C br));;
     when_present (ap_service d)
       (fun aps => invoke ApStop (ap_stop C aps));;
     when_present (connection_manager d)
       (fun cm => invoke Disconnect (disconnect C cm));;
     when_present (interface_manager d)
       (fun im => invoke DeleteVirtualInterface
                    (delete_virtual_interface C im));;
     log INFO [Lit "All services stopped successfully"])
    any_Exception
    (fun e => log ERROR [Lit "Error stopping services: "; StrOf e]).

Definition handle_signal (signum : Z) : Py (state W) unit :=
  log INFO [Lit ("Received signal " +:+ pretty signum)];;
  set_this (set_running false).

(** The signals that arrived since the last look, each handled. *)
Definition deliver_signals : Py (state W) unit :=
  fun st =>
    match signals C (world st) with
    | (sigs, w') =>
        for_each sigs handle_signal (State (this st) (trace st) w')
    end.

(** One turn of the [while self.running] loop. *)
Definition loop_body : Py (state W) unit :=
  try_except
    (d ← get_this;
     when_present (connection_manager d)
       (fun cm =>
          status ← invoke GetConnectionStatus (get_connection_status C cm);
          if negb (default false status) then
            log WARNING [Lit "Upstream connection lost, reconnecting..."];;
            start_services;;
            mret tt
          else mret tt);;
     when_present (ap_service d)
       (fun aps =>
          clients ← invoke GetConnectedClients (get_connected_clients C aps);
          log INFO [Lit ("Connected clients: "
                         +:+ pretty (length clients))]);;
     sleep 30)
    any_Exception
    (fun e =>
       log ERROR [Lit "Error in service loop: "; StrOf e];;
       sleep 5).

(** The loop, for at most [turns] turns. A signal is seen where the loop
    reads [self.running]. The result is [true] when the loop was left
    and [false] when it is still going after [turns] turns. *)
Fixpoint service_loop (turns : nat) : Py (state W) bool :=
  match turns with
  | O => mret false
  | S turns' =>
      deliver_signals;;
      d ← get_this;
      if running d then loop_body;; service_loop turns'
      else mret true
  end.

(** [run()], its loop bounded as above: [true] when [run] returned. *)
Definition run (turns : nat) : Py (state W) bool :=
  set_this (set_running true);;
  log INFO [Lit "WiFi Extender service starting"];;
  left ← try_except
           (load_config;;
            ok ← initialize_services;
            if negb ok then
              log ERROR [Lit "Service initialization failed"];;
              mret true
            else
              ok ← start_services;
              if negb ok then
                log ERROR [Lit "Failed to start services"];;
                mret true
              else service_loop turns)
           any_Exception
           (fun e =>
              log ERROR [Lit "Critical error in service: "; StrOf e];;
              mret true);
  if left : bool then
    stop_services;;
    log INFO [Lit "WiFi Extender service stopped"];;
    mret true
  else mret false.

End Methods.

(** The calls of a trace, in order. *)
Definition calls (tr : list event) : list call :=
  omap (fun e => match e with Called c => Some c | _ => None end) tr.

(** How many calls of a trace satisfy [p]. *)
Definition times (p : call -> bool) (tr : list event) : nat :=
  length (List.filter p (calls tr)).

Definition is_connect (c : call) : bool :=
  match c with ConnectToNetwork _ _ => true | _ => false end.


(** The teardown calls [stop_services] makes on a daemon [d]: one for
    each collaborator that exists, bridge first. *)
Definition for_handle {A} (handle : option A) (c : call) : list call :=
  match handle with Some _ => [c] | None => [] end.

Definition teardown (d : t) : list call :=
  for_handle (bridge_service d) BridgeStop
  ++ for_handle (ap_service d) ApStop
  ++ for_handle (connection_manager d) Disconnect
  ++ for_handle (interface_manager d) DeleteVirtualInterface.

(** The calls of one turn of the loop while the upstream is down. *)
Definition turn_calls (u_ssid : string) (u_pw : option string)
  : list call :=
  [GetConnectionStatus; ConnectToNetwork u_ssid u_pw; GetConnectedClients].

(** A daemon in its loop: the collaborators exist, the configuration
    names the upstream network, [running] is set. *)
Record supervising (d : t) (u_ssid : string) (u_pw : option string)
    : Prop := {
  sup_cm : is_Some (connection_manager d);
  sup_ap : is_Some (ap_service d);
  sup_br : is_Some (bridge_service d);
  sup_upstream :
    upstream (config d) = Some (Upstream (Some u_ssid) u_pw);
  sup_running : running d = true
}.

Section Scenarios.

(** A scenario says how the collaborators answer as long as they are in
    one of the situations [I]; every answer leaves them in [I]. For a mock
    [I] is any situation; for the classes of [core] it is what the machine
    is taken to do, for instance that iptables fails and every other
    command succeeds. *)
Context {W : Type} (C : collaborators W) (I : W -> Prop).

(** The method returns; it returns success; it returns failure. *)
Definition returns {A} (m : Py W A) : Prop :=
  forall w, I w -> exists a w', m w = (Returned a, w') /\ I w'.


Definition fails (m : Py W (bool * message)) : Prop :=
  forall w, I w -> exists msg w', m w = (Returned (false, msg), w') /\ I w'.

(** Every teardown method of the collaborators returns, with success or
    with failure. *)
Record teardown_returns : Prop := {
  bridge_stop_returns : forall br, returns (bridge_stop C br);
  ap_stop_returns : forall aps, returns (ap_stop C aps);
  disconnect_returns : forall cm, returns (disconnect C cm);
  delete_returns : forall im, returns (delete_virtual_interface C im)
}.

(** The four constructors return. *)
Record constructors_return : Prop := {
  new_cm_returns : forall i, returns (new_connection_manager C i);
  new_im_returns : forall i, returns (new_interface_manager C i);
  new_ap_returns : forall v, returns (new_ap_service C v);
  new_br_returns : forall iv, returns (new_bridge_service C iv)
}.


(** The scenario of an upstream that stays down: no signal arrives,
    the status never shows the upstream connected, and connecting
    returns failure every time. Listing the clients may return or
    raise. *)
Record upstream_stays_down : Prop := {
  down_signals :
    forall w, I w -> exists w', signals C w = ([], w') /\ I w';
  down_status :
    forall cm w, I w ->
      exists v w',
        get_connection_status C cm w = (Returned v, w')
        /\ default false v = false /\ I w';
  down_connect : forall cm s p, fails (connect_to_network C cm s p);
  down_clients :
    forall aps w, I w -> I (snd (get_connected_clients C aps w))
}.

End Scenarios.

End Daemon.

(* ===================================================================== *)
(** ** The daemon with the classes of [core] as its collaborators *)
(* ===================================================================== *)

Module Wired.

(** The four objects the daemon creates, the operating system they run
    on, what the detector finds suitable, the configuration file, and the
    signals that arrive, grouped by the look at [running] that sees them.
    Before a constructor ran, its object is a placeholder no method is
    called on. *)
Record machine : Type := Machine {
  connection_manager : ConnectionManager.t;
  interface_manager : InterfaceManager.t;
  ap_service : APService.t;
  bridge_service : BridgeService.t;
  os : world;
  suitable : list string;
  on_disk : Daemon.config_file;
  inbox : list (list Z)
}.

Definition boot (w : world) (suitable : list string)
    (on_disk : Daemon.config_file) (inbox : list (list Z)) : machine :=
  {| connection_manager := ConnectionManager.init "";
     interface_manager := InterfaceManager.init "";
     ap_service := APService.init "";
     bridge_service := BridgeService.init "" "";
     os := w; suitable := suitable; on_disk := on_disk; inbox := inbox |}.

(** A method of one of the objects, run on the machine. *)
Definition on_cm {A} (m : Py (ConnectionManager.t * world) A)
  : Py machine A :=
  fun M =>
    match m (connection_manager M, os M) with
    | (r, (o, w)) =>
        (r, Machine o (interface_manager M) (ap_service M)
              (bridge_service M) w (suitable M) (on_disk M) (inbox M))
    end.

Definition on_im {A} (m : Py (InterfaceManager.t * world) A)
  : Py machine A :=
  fun M =>
    match m (interface_manager M, os M) with
    | (r, (o, w)) =>
        (r, Machine (connection_manager M) o (ap_service M)
              (bridge_service M) w (suitable M) (on_disk M) (inbox M))
    end.

Definition on_ap {A} (m : Py (APService.t * world) A) : Py machine A :=
  fun M =>
    match m (ap_service M, os M) with
    | (r, (o, w)) =>
        (r, Machine (connection_manager M) (interface_manager M) o
              (bridge_service M) w (suitable M) (on_disk M) (inbox M))
    end.

Definition on_br {A} (m : Py (BridgeService.t * world) A) : Py machine A :=
  fun M =>
    match m (bridge_service M, os M) with
    | (r, (o, w)) =>
        (r, Machine (connection_manager M) (interface_manager M)
              (ap_service M) o w (suitable M) (on_disk M) (inbox M))
    end.

Definition next_signals (M : machine) : list Z * machine :=
  (hd [] (inbox M),
   Machine (connection_manager M) (interface_manager M) (ap_service M)
     (bridge_service M) (os M) (suitable M) (on_disk M) (tl (inbox M))).

(** The collaborators as [daemon.py] imports them. The methods are called
    with the arguments the daemon gives and the defaults of the rest. *)
Definition real : Daemon.collaborators machine :=
  {| Daemon.read_config := fun M => (on_disk M, M);
     Daemon.signals := next_signals;
     Daemon.get_suitable_interfaces := fun M => (Returned (suitable M), M);
     Daemon.new_connection_manager := fun i =>
       on_cm (set_self (fun _ => ConnectionManager.init i));
     Daemon.new_interface_manager := fun i =>
       on_im (set_self (fun _ => InterfaceManager.init i));
     Daemon.new_ap_service := fun v =>
       on_ap (set_self (fun _ => APService.init v));
     Daemon.new_bridge_service := fun iv =>
       on_br (set_self (fun _ => BridgeService.init (fst iv) (snd iv)));
     Daemon.create_virtual_interface := fun _ =>
       on_im (InterfaceManager.create_virtual_interface "ap0");
     Daemon.delete_virtual_interface := fun _ =>
       on_im InterfaceManager.delete_virtual_interface;
     Daemon.connect_to_network := fun _ ssid password =>
       on_cm (ConnectionManager.connect_to_network ssid password);
     Daemon.disconnect := fun _ => on_cm ConnectionManager.disconnect;
     Daemon.get_connection_status := fun _ =>
       on_cm (status ← ConnectionManager.get_connection_status;
              mret (Some (connected status)));
     Daemon.configure_ap := fun _ ssid password channel =>
       on_ap (APService.configure_ap ssid password channel "g");
     Daemon.configure_dhcp := fun _ =>
       on_ap (APService.configure_dhcp "192.168.4.2" "192.168.4.20" "12h");
     Daemon.ap_start := fun _ => on_ap APService.start;
     Daemon.ap_stop := fun _ => on_ap APService.stop;
     Daemon.get_connected_clients := fun _ =>
       on_ap APService.get_connected_clients;
     Daemon.bridge_start := fun _ => on_br BridgeService.start;
     Daemon.bridge_stop := fun _ => on_br BridgeService.stop |}.

(** The same collaborators, with the detector [d] the daemon built in
    its constructor answering [get_suitable_interfaces]. *)
Definition with_detector (d : WiFiDetector.t)
  : Daemon.collaborators machine :=
  {| Daemon.read_config := Daemon.read_config real;
     Daemon.signals := Daemon.signals real;
     Daemon.get_suitable_interfaces := fun M =>
       (Returned (WiFiDetector.get_suitable_interfaces d), M);
     Daemon.new_connection_manager := Daemon.new_connection_manager real;
     Daemon.new_interface_manager := Daemon.new_interface_manager real;
     Daemon.new_ap_service := Daemon.new_ap_service real;
     Daemon.new_bridge_service := Daemon.new_bridge_service real;
     Daemon.create_virtual_interface := Daemon.create_virtual_interface real;
     Daemon.delete_virtual_interface := Daemon.delete_virtual_interface real;
     Daemon.connect_to_network := Daemon.connect_to_network real;
     Daemon.disconnect := Daemon.disconnect real;
     Daemon.get_connection_status := Daemon.get_connection_status real;
     Daemon.configure_ap := Daemon.configure_ap real;
     Daemon.configure_dhcp := Daemon.configure_dhcp real;
     Daemon.ap_start := Daemon.ap_start real;
     Daemon.ap_stop := Daemon.ap_stop real;
     Daemon.get_connected_clients := Daemon.get_connected_clients real;
     Daemon.bridge_start := Daemon.bridge_start real;
     Daemon.bridge_stop := Daemon.bridge_stop real |}.

(** The machine [M] runs on [w0] at some moment, and no signal is to
    come. *)
Definition powered (w0 : world) (M : machine) : Prop :=
  same_machine w0 (os M) /\ inbox M = [].

End Wired.

(* ===================================================================== *)
(** ** Concrete machines and collaborators *)
(* ===================================================================== *)

Module Fixtures.

(** A machine on which every command exits with status 0 and prints
    nothing, every file can be written, and the detector lists no
    interface. *)
Definition quiet : world :=
  {| respond := fun _ _ => Exits (Completed 0 "" "");
     detector := fun _ _ => EmptyDict;
     writable := fun _ => true;
     files := ∅;
     executed := [] |}.

(** [quiet], with the two configuration files another process left
    behind in /tmp. *)
Definition stale_tmp : world :=
  set_files
    (<["/tmp/hostapd.conf" := "interface=wlan0_ap0"]>
       (<["/tmp/dnsmasq.conf" := "interface=wlan0_ap0"]> ∅))
    quiet.

(** [quiet], but one command exits with status [rc]. *)
Definition failing (bad : command) (rc : Z) : world :=
  {| respond := fun _ c =>
       if decide (c = bad) then Exits (Completed rc "" "")
       else Exits (Completed 0 "" "");
     detector := fun _ _ => EmptyDict;
     writable := fun _ => true;
     files := ∅;
     executed := [] |}.

(** [quiet], with the detector reporting the interface associated to the
    network [name]. *)
Definition associated (name : string) : world :=
  {| respond := fun _ _ => Exits (Completed 0 "" "");
     detector := fun _ _ =>
       Dict (Status true true (Some name) (Some "192.168.1.100")
               (Some "Managed") None None);
     writable := fun _ => true;
     files := ∅;
     executed := [] |}.

(** [quiet], with a leases file and the output of the station dump. *)
Definition serving (leases dump : string) : world :=
  {| respond := fun _ _ => Exits (Completed 0 dump "");
     detector := fun _ _ => EmptyDict;
     writable := fun _ => true;
     files := {[ APService.leases_path := leases ]};
     executed := [] |}.

(** A bridge service on wlan0 whose three rules are installed. *)
Definition routed : BridgeService.t :=
  BridgeService.set_rules
    (BridgeService.rules (BridgeService.init "wlan0" "wlan0_ap0"))
    (BridgeService.set_is_running true
       (BridgeService.init "wlan0" "wlan0_ap0")).

(** Mocked collaborators, as the test suite sets them up: every method
    returns at once. [upstream_up] is what the status reports,
    [connect_ok] and [bridge_ok] are the results of connecting and of
    starting the bridge. *)
Record script : Type := Script {
  file : Daemon.config_file;
  upstream_up : bool;
  connect_ok : bool;
  bridge_ok : bool
}.

Definition answer {A} (a : A) : Py unit A := mret a.

Definition mock (s : script) : Daemon.collaborators unit :=
  {| Daemon.read_config := fun w => (file s, w);
     Daemon.signals := fun w => ([], w);
     Daemon.get_suitable_interfaces := answer ["wlan0"];
     Daemon.new_connection_manager := fun _ => answer tt;
     Daemon.new_interface_manager := fun _ => answer tt;
     Daemon.new_ap_service := fun _ => answer tt;
     Daemon.new_bridge_service := fun _ => answer tt;
     Daemon.create_virtual_interface := fun _ => answer (true, []);
     Daemon.delete_virtual_interface := fun _ => answer (true, []);
     Daemon.connect_to_network := fun _ _ _ => answer (connect_ok s, []);
     Daemon.disconnect := fun _ => answer (true, []);
     Daemon.get_connection_status := fun _ => answer (Some (upstream_up s));
     Daemon.configure_ap := fun _ _ _ _ => answer (true, []);
     Daemon.configure_dhcp := fun _ => answer (true, []);
     Daemon.ap_start := fun _ => answer (true, []);
     Daemon.ap_stop := fun _ => answer (true, []);
     Daemon.get_connected_clients := fun _ => answer [];
     Daemon.bridge_start := fun _ => answer (bridge_ok s, []);
     Daemon.bridge_stop := fun _ => answer (true, []) |}.

(** [quiet], but killall cannot be started. *)
Definition no_killall : world :=
  {| respond := fun _ c =>
       match c with
       | "killall" :: _ => CannotStart "No such file or directory"
       | _ => Exits (Completed 0 "" "")
       end;
     detector := fun _ _ => EmptyDict;
     writable := fun _ => true;
     files := ∅;
     executed := [] |}.

(** For a mock every situation is as good as another. *)
Definition any_situation : unit -> Prop := fun _ => True.

(** The configuration of the end-to-end scenario. *)
Definition home : Daemon.config_dict :=
  {| Daemon.upstream :=
       Some (Daemon.Upstream (Some "Home") (Some "secret123"));
     Daemon.ap := Some (Daemon.Ap (Some "Extend") None (Some 6)) |}.

(** Everything works. *)
Definition all_fine : script :=
  Script (Daemon.ConfigLoaded home) true true true.


(** [associated name], but every iptables command exits with status 1:
    the installation of the NAT rule fails. *)
Definition nat_fails (name : string) : world :=
  {| respond := fun _ c =>
       match c with
       | "iptables" :: _ => Exits (Completed 1 "" "")
       | _ => Exits (Completed 0 "" "")
       end;
     detector := fun _ _ =>
       Dict (Status true true (Some name) (Some "192.168.1.100")
               (Some "Managed") None None);
     writable := fun _ => true;
     files := ∅;
     executed := [] |}.

(** [quiet], with the detector reporting the interface up and associated
    to no network. *)
Definition offline : world :=
  {| respond := fun _ _ => Exits (Completed 0 "" "");
     detector := fun _ _ =>
       Dict (Status true false None (Some "169.254.7.7") (Some "Managed")
               None None);
     writable := fun _ => true;
     files := ∅;
     executed := [] |}.

(** A machine before the daemon starts: wlan0 is suitable, the
    configuration file holds [home], no signal will arrive. *)
Definition fresh (w : world) : Wired.machine :=
  Wired.boot w ["wlan0"] (Daemon.ConfigLoaded home) [].

(** A machine whose four objects exist on wlan0, the virtual interface
    created. *)
Definition brought_up (w : world) : Wired.machine :=
  {| Wired.connection_manager := ConnectionManager.init "wlan0";
     Wired.interface_manager :=
       InterfaceManager.Make "wlan0" (Some "wlan0_ap0");
     Wired.ap_service := APService.init "wlan0_ap0";
     Wired.bridge_service := BridgeService.init "wlan0" "wlan0_ap0";
     Wired.os := w;
     Wired.suitable := ["wlan0"];
     Wired.on_disk := Daemon.ConfigLoaded home;
     Wired.inbox := [] |}.

(** A daemon whose services were initialised on wlan0. *)
Definition initialised (running : bool) : Daemon.t :=
  {| Daemon.interface := Some "wlan0";
     Daemon.connection_manager := Some "wlan0";
     Daemon.interface_manager := Some "wlan0";
     Daemon.ap_service := Some "wlan0_ap0";
     Daemon.bridge_service := Some ("wlan0", "wlan0_ap0");
     Daemon.running := running;
     Daemon.config := home |}.

(** [quiet], with every command printing [out]. *)
Definition printing (out : string) : world :=
  {| respond := fun _ _ => Exits (Completed 0 out "");
     detector := fun _ _ => EmptyDict;
     writable := fun _ => true;
     files := ∅;
     executed := [] |}.

(** What iwlist prints for two cells: an open network and a WPA2 one. *)
Definition two_cells : string :=
  PyStr.join_lines
    ["wlan0     Scan completed :";
     "          Cell 01 - Address: AA:BB:CC:DD:EE:01";
     "                    Quality=70/70  Signal level=-30 dBm";
     "                    Encryption key:off";
     "                    ESSID:" +:+ PyStr.dquote +:+ "Cafe" +:+ PyStr.dquote;
     "          Cell 02 - Address: AA:BB:CC:DD:EE:02";
     "                    Quality=40/70  Signal level=-60 dBm";
     "                    Encryption key:on";
     "                    ESSID:" +:+ PyStr.dquote +:+ "Home" +:+ PyStr.dquote;
     "                    IE: IEEE 802.11i/WPA2 Version 1"].

(** The mocked collaborators of [all_fine], but the virtual interface
    cannot be created. *)
Definition no_virtual_interface : Daemon.collaborators unit :=
  {| Daemon.read_config := fun w => (Daemon.ConfigLoaded home, w);
     Daemon.signals := fun w => ([], w);
     Daemon.get_suitable_interfaces := answer ["wlan0"];
     Daemon.new_connection_manager := fun _ => answer tt;
     Daemon.new_interface_manager := fun _ => answer tt;
     Daemon.new_ap_service := fun _ => answer tt;
     Daemon.new_bridge_service := fun _ => answer tt;
     Daemon.create_virtual_interface := fun _ =>
       answer (false, [Lit "Operation not supported"]);
     Daemon.delete_virtual_interface := fun _ =>
       answer (false, [Lit "No virtual interface exists"]);
     Daemon.connect_to_network := fun _ _ _ => answer (true, []);
     Daemon.disconnect := fun _ => answer (true, []);
     Daemon.get_connection_status := fun _ => answer (Some true);
     Daemon.configure_ap := fun _ _ _ _ => answer (true, []);
     Daemon.configure_dhcp := fun _ => answer (true, []);
     Daemon.ap_start := fun _ => answer (true, []);
     Daemon.ap_stop := fun _ => answer (true, []);
     Daemon.get_connected_clients := fun _ => answer [];
     Daemon.bridge_start := fun _ => answer (true, []);
     Daemon.bridge_stop := fun _ => answer (true, []) |}.

(** [brought_up w], with SIGTERM (15) waiting at the first look of the
    loop. *)
Definition terminated (w : world) : Wired.machine :=
  {| Wired.connection_manager := ConnectionManager.init "wlan0";
     Wired.interface_manager :=
       InterfaceManager.Make "wlan0" (Some "wlan0_ap0");
     Wired.ap_service := APService.init "wlan0_ap0";
     Wired.bridge_service := BridgeService.init "wlan0" "wlan0_ap0";
     Wired.os := w;
     Wired.suitable := ["wlan0"];
     Wired.on_disk := Daemon.ConfigLoaded home;
     Wired.inbox := [[15]] |}.

(** What the tools print on a laptop with one wireless card. *)
Definition iwconfig_wlan0 : string :=
  "wlan0     IEEE 802.11  ESSID:" +:+ PyStr.dquote +:+ "Home"
  +:+ PyStr.dquote +:+ "  Mode:Managed  Frequency:2.437 GHz".

Definition iw_info : string :=
  PyStr.join_lines
    ["Interface wlan0"; "    ifindex 3"; "    type managed"; "    channel 6"].

(** The same, with the modes the card supports listed as [iw] lists
    them. *)
Definition iw_info_modes : string :=
  PyStr.join_lines
    ["Interface wlan0"; "    type managed";
     "    Supported interface modes:"; "         * managed"; "         * AP";
     "         * monitor"].

Definition tools (iw_output : string) : world :=
  {| respond := fun _ c =>
       match c with
       | ["iwconfig"; "wlan0"] => Exits (Completed 0 iwconfig_wlan0 "")
       | ["iwconfig"; i] =>
           Exits (Completed 0 "" (i +:+ "      no wireless extensions."))
       | ["ethtool"; "-i"; _] =>
           Exits (Completed 0 (PyStr.join_lines
                                 ["driver: iwlwifi"; "version: 6.1"]) "")
       | ["iw"; _; "info"] => Exits (Completed 0 iw_output "")
       | _ => Exits (Completed 0 "" "")
       end;
     detector := fun _ _ => EmptyDict;
     writable := fun _ => true;
     files := ∅;
     executed := [] |}.

(** A laptop: the loopback, a wired and a wireless interface, the
    wireless one with an address. *)
Definition laptop (iw_output : string) : WiFiDetector.host :=
  {| WiFiDetector.os := tools iw_output;
     WiFiDetector.netifaces_interfaces := fun _ => ["lo"; "eth0"; "wlan0"];
     WiFiDetector.netifaces_ifaddresses := fun _ i =>
       if String.eqb i "wlan0" then
         Some (WiFiDetector.Addresses
                 (Some [{[ "addr" := "00:11:22:33:44:55" ]}])
                 (Some [{[ "addr" := "192.168.1.100" ]}]))
       else if String.eqb i "eth0" || String.eqb i "lo" then
         Some (WiFiDetector.Addresses
                 (Some [{[ "addr" := "00:11:22:33:44:66" ]}]) None)
       else None |}.

(** A detector that lists wlan0. *)
Definition listing : WiFiDetector.t :=
  WiFiDetector.Make
    [("wlan0",
      WiFiDetector.Info "wlan0" false false None (Some "00:11:22:33:44:55")
        (Some "iwlwifi") (WiFiDetector.Capabilities [] [] None None))].

End Fixtures.

(* ===================================================================== *)
(** ** Reasoning about method bodies *)
(* ===================================================================== *)

Ltac py_unfold :=
  unfold mbind, Py_bind, bind, mret, Py_ret, ret, self, set_self, on_world,
    try_except, raise, get, put, modify.

(** A [try] whose handler takes every exception and returns, returns. *)
Lemma try_except_any {S A} (m : Py S A) (h : exn -> Py S A) (s : S) :
  (forall e s1, exists a s2, h e s1 = (Returned a, s2)) ->
  exists a s', try_except m any_Exception h s = (Returned a, s').
Proof.
  intros Hh. unfold try_except. destruct (m s) as [[a|e] s1]; [eauto|].
  apply Hh.
Qed.

Lemma run_world (check : bool) (cmd : command) (w : world) :
  snd (run check cmd w) = log_command cmd w.
Proof.
  unfold run. destruct (respond w (executed w) cmd) as [r|err]; [|done].
  destruct (check && negb (returncode r =? 0)%Z); done.
Qed.

(** One [subprocess.run] further: the command either returns or raises, and
    is recorded in both cases. *)
Ltac step_run :=
  match goal with
  | |- context [run ?c ?cmd ?w] =>
      let r := fresh "r" in
      let e := fresh "e" in
      let w' := fresh "w" in
      let H := fresh "Hrun" in
      let E := fresh "E" in
      destruct (run c cmd w) as [[r|e] w'] eqn:H;
      pose proof (run_world c cmd w) as E; rewrite H in E; simpl in E;
      subst w'; cbv beta iota zeta
  end.

(* ===================================================================== *)
(** ** InterfaceManager *)
(* ===================================================================== *)

Section InterfaceManagerFacts.

Import InterfaceManager.

(** C3 (as the code has it). With no virtual interface held,
    [delete_virtual_interface] runs no command, leaves the manager and the
    machine as they are, and reports failure with the message
    "No virtual interface exists". *)
Theorem delete_virtual_interface_absent (o : t) (w : world) :
  virtual_interface o = None ->
  delete_virtual_interface (o, w)
  = (Returned (false, [Lit "No virtual interface exists"]), (o, w)).
Proof.
  intros Hnone. unfold delete_virtual_interface. py_unfold.
  rewrite Hnone. reflexivity.
Qed.

Lemma delete_virtual_interface_absent_witness :
  delete_virtual_interface (init "wlan0", Fixtures.quiet)
  = (Returned (false, [Lit "No virtual interface exists"]),
     (init "wlan0", Fixtures.quiet)).
Proof.
  apply (delete_virtual_interface_absent (init "wlan0") Fixtures.quiet).
  reflexivity.
Defined.

(** C3, the claim as stated, fails: on a fresh manager the call does not
    return success. *)
Lemma delete_virtual_interface_absent_not_success :
  virtual_interface (init "wlan0") = None
  /\ ~ exists m st,
         delete_virtual_interface (init "wlan0", Fixtures.quiet)
         = (Returned (true, m), st).
Proof.
  split; [reflexivity|].
  intros (m & st & H). vm_compute in H. discriminate H.
Qed.

(** With an interface held and the command succeeding, the handle is
    dropped and success reported. *)
Lemma delete_virtual_interface_held (physical v : string) (w : world)
    (out err : string) :
  v <> "" ->
  respond w (executed w) ["iw"; "dev"; v; "del"]
  = Exits (Completed 0 out err) ->
  delete_virtual_interface (Make physical (Some v), w)
  = (Returned (true, [Lit "Successfully deleted virtual interface"]),
     (Make physical None, log_command ["iw"; "dev"; v; "del"] w)).
Proof.
  intros Hv Hrun. unfold delete_virtual_interface. py_unfold.
  cbn. destruct (String.eqb_spec v ""); [done|].
  cbn. unfold run. rewrite Hrun. reflexivity.
Qed.

End InterfaceManagerFacts.

(* ===================================================================== *)
(** ** ConnectionManager *)
(* ===================================================================== *)

Section ConnectionManagerFacts.

Import ConnectionManager.

(** The status probe leaves the manager as it is, and what it returns
    agrees with the detector on [connected] and [ssid]. *)
Lemma get_connection_status_cases (o : t) (w : world) :
  (exists e w', get_connection_status (o, w) = (Raised e, (o, w')))
  \/ (exists s0 s w',
        detector w (executed w) (interface o) = Dict s0
        /\ get_connection_status (o, w) = (Returned s, (o, w'))
        /\ connected s = connected s0 /\ ssid s = ssid s0).
Proof.
  unfold get_connection_status, get_interface_status, word_after.
  py_unfold. cbn.
  destruct (detector w (executed w) (interface o)) as [|s0|e] eqn:Hd;
    [left; eauto | | left; eauto].
  destruct (connected s0) eqn:Hc; [|right; eauto 10].
  unfold run.
  destruct (respond w (executed w) ["iwconfig"; interface o]) as [r|err];
    [|left; eauto].
  cbn. destruct (negb (returncode r =? 0)%Z); [right; eauto 10|].
  destruct (PyStr.contains "Link Quality=" (stdout r));
    destruct (PyStr.contains "Bit Rate=" (stdout r));
    repeat (case_match; simplify_eq/=);
    first [ by left; eauto | by right; eauto 10 ].
Qed.

(** The two ways [connect_to_network] ends. It never raises; it reports
    success only after the probe that follows its three commands showed
    the interface connected to the requested network, and only then does
    it touch [current_connection]. *)
Lemma connect_to_network_cases (o : t) (w : world) (name : string)
    (password : option string) :
  (exists s0 s w',
      detector w (executed w ++ connect_commands o) (interface o) = Dict s0
      /\ connected s0 = true /\ ssid s0 = Some name
      /\ connected s = true /\ ssid s = Some name
      /\ connect_to_network name password (o, w)
         = (Returned (true, [Lit ("Successfully connected to " +:+ name)]),
            (set_current_connection (Some s) o, w')))
  \/ (exists m w',
        connect_to_network name password (o, w)
        = (Returned (false, m), (o, w'))).
Proof.
  unfold connect_to_network, write_file. py_unfold.
  destruct (writable w wpa_supplicant_conf); [|right; eauto].
  set (w0 := set_files _ w).
  step_run; [|right; eauto].
  step_run; [|right; eauto].
  step_run; [|right; eauto].
  match goal with
  | |- context [get_connection_status (o, ?w3)] =>
      destruct (get_connection_status_cases o w3)
        as [(e & w' & ->)|(s0 & s & w' & Hd & -> & Hc & Hs)]
  end; [right; eauto|].
  destruct (connected s) eqn:Hcs; [|right; eauto].
  destruct (bool_decide (ssid s = Some name)) eqn:Hn; [|right; eauto].
  apply bool_decide_eq_true in Hn. left. exists s0, s, w'.
  simpl in Hd. rewrite <- !app_assoc in Hd. simpl in Hd.
  repeat split; try congruence. exact Hd.
Qed.


(** When everything up to the probe went through and the probe shows the
    interface not connected, the failure is the verification failure
    "Failed to connect to <ssid>". *)
Lemma connect_to_network_unverified (o : t) (w : world) (name : string)
    (password : option string) (s : status) :
  writable w wpa_supplicant_conf = true ->
  (forall h c, exists out err, respond w h c = Exits (Completed 0 out err)) ->
  (forall h, detector w h (interface o) = Dict s) ->
  connected s = false ->
  exists w',
    connect_to_network name password (o, w)
    = (Returned (false, [Lit ("Failed to connect to " +:+ name)]), (o, w'))
    /\ same_machine w w'.
Proof.
  intros Hw Hr Hd Hc.
  unfold connect_to_network, write_file. py_unfold. rewrite Hw.
  set (w0 := set_files _ w).
  assert (Hok : forall c cmd w1, respond w1 = respond w ->
            exists r, run c cmd w1 = (Returned r, log_command cmd w1)).
  { intros c cmd w1 E. unfold run. rewrite E.
    destruct (Hr (executed w1) cmd) as (out & err & ->). simpl.
    rewrite andb_false_r. eauto. }
  destruct (Hok false ["killall"; "wpa_supplicant"] w0 eq_refl) as [r1 ->].
  cbv beta iota zeta.
  destruct (Hok true ["wpa_supplicant"; "-B"; "-i"; interface o; "-c";
                      wpa_supplicant_conf]
              (log_command ["killall"; "wpa_supplicant"] w0) eq_refl)
    as [r2 ->].
  cbv beta iota zeta.
  match goal with
  | |- context [run true ["dhclient"; ?a; ?b] ?w2] =>
      destruct (Hok true ["dhclient"; a; b] w2 eq_refl) as [r3 ->]
  end.
  cbv beta iota zeta.
  unfold get_connection_status, get_interface_status. py_unfold. cbn.
  rewrite Hd, Hc. cbn. rewrite Hc. cbn. eexists. split; [reflexivity|].
  by repeat split.
Qed.

(** C9. A call that fails leaves the manager, and so
    [current_connection], exactly as it was; a call that succeeds stores
    the verified status. Nothing else changes the field. *)
Theorem connect_to_network_current_connection (o : t) (w : world)
    (name : string) (password : option string) :
  exists b m o' w',
    connect_to_network name password (o, w) = (Returned (b, m), (o', w'))
    /\ (b = false -> o' = o)
    /\ (b = true ->
        interface o' = interface o
        /\ exists s, current_connection o' = Some s
                     /\ connected s = true /\ ssid s = Some name).
Proof.
  destruct (connect_to_network_cases o w name password)
    as [(s0 & s & w' & _ & _ & _ & Hc & Hs & ->)|(m & w' & ->)].
  - eexists true, _, _, _. split; [reflexivity|].
    split; [discriminate|]. intros _. split; [reflexivity|]. eauto.
  - eexists false, _, _, _. split; [reflexivity|].
    split; [done|discriminate].
Qed.

(** A manager associated to "Home" asks for "Other" on a machine that
    stays on "Home": the call fails and the old snapshot is still held. *)
Example connect_to_network_keeps_snapshot :
  let w := Fixtures.associated "Home" in
  let '(r1, st1) := connect_to_network "Home" (Some "secret123")
                      (init "wlan0", w) in
  let '(r2, st2) := connect_to_network "Other" None st1 in
  r1 = Returned (true, [Lit "Successfully connected to Home"])
  /\ r2 = Returned (false, [Lit "Failed to connect to Other"])
  /\ (ssid <$> current_connection (fst st2)) = Some (Some "Home").
Proof. vm_compute. done. Qed.

End ConnectionManagerFacts.

(* ===================================================================== *)
(** ** APService *)
(* ===================================================================== *)

Section APServiceFacts.

Import APService.

Lemma executed_log_commands (cs : list command) (w : world) :
  executed (log_commands cs w) = executed w ++ cs.
Proof.
  unfold log_commands. revert w.
  induction cs as [|c cs IH]; intros w; simpl.
  - by rewrite app_nil_r.
  - rewrite IH. simpl. by rewrite <- app_assoc.
Qed.

(** A command that exits with status 0 returns, whatever [check] is. *)
Lemma run_exit_0 (check : bool) (cmd : command) (w : world) :
  (exists out err,
      respond w (executed w) cmd = Exits (Completed 0 out err)) ->
  exists r, run check cmd w = (Returned r, log_command cmd w).
Proof.
  intros (out & err & E). unfold run. rewrite E. simpl.
  rewrite andb_false_r. eauto.
Qed.

(** C4 (as the code has it). [start] checks no configuration: on any
    service object, configured or not, and whatever files exist, when its
    five commands exit with status 0 it has run all of them, hostapd and
    dnsmasq included, it sets [is_running] and returns success. *)
Theorem start_checks_no_configuration (o : t) (w : world) :
  (forall h c, c ∈ start_commands o ->
     exists out err, respond w h c = Exits (Completed 0 out err)) ->
  start (o, w)
  = (Returned (true, [Lit "Access point started successfully"]),
     (set_is_running true o, log_commands (start_commands o) w)).
Proof.
  intros Hok. unfold start. py_unfold.
  assert (Hrun : forall cmd w1, cmd ∈ start_commands o ->
            respond w1 = respond w ->
            exists r, run true cmd w1 = (Returned r, log_command cmd w1)).
  { intros cmd w1 Hin E. apply run_exit_0. rewrite E. by apply Hok. }
  unfold start_commands in *. simpl. py_unfold.
  repeat
    match goal with
    | |- context [run true ?cmd ?w1] =>
        let r := fresh "r" in
        destruct (Hrun cmd w1) as [r ->];
        [ solve [repeat constructor] | reflexivity | cbv beta iota zeta ]
    end.
  reflexivity.
Qed.

(** C4, the claim as stated, fails: a service object on which nothing
    was configured starts hostapd and dnsmasq and returns success. *)
Lemma start_unconfigured_succeeds :
  let '(r, (o', w')) := start (init "wlan0_ap0", Fixtures.stale_tmp) in
  r = Returned (true, [Lit "Access point started successfully"])
  /\ is_running o' = true
  /\ executed w'
     = [["ip"; "addr"; "flush"; "dev"; "wlan0_ap0"];
        ["ip"; "addr"; "add"; "192.168.4.1/24"; "dev"; "wlan0_ap0"];
        ["ip"; "link"; "set"; "wlan0_ap0"; "up"];
        ["hostapd"; "-B"; "/tmp/hostapd.conf"];
        ["dnsmasq"; "-C"; "/tmp/dnsmasq.conf"]].
Proof. vm_compute. done. Qed.

(** What a checked command raises: [CalledProcessError] with its own
    words and a status other than 0, or [OSError]. *)
Lemma run_raises (cmd : command) (w w' : world) (e : exn) :
  run true cmd w = (Raised e, w') ->
  (exists rc, rc <> 0 /\ e = CalledProcessError cmd rc)
  \/ (exists err, e = OSError err).
Proof.
  unfold run. destruct (respond w (executed w) cmd) as [r|err].
  - simpl. destruct (returncode r =? 0) eqn:E; simpl; [done|].
    intros [= <- _]. left. exists (returncode r). split; [|done].
    by apply Z.eqb_neq.
  - intros [= <- _]. right. by exists err.
Qed.

(** [stop] catches every exception: it always returns a pair. *)
Lemma stop_returns (st : t * world) :
  exists r st', stop st = (Returned r, st').
Proof.
  destruct st as [o w]. unfold stop, mbind, Py_bind, bind, self.
  apply try_except_any. intros e s1. by eexists _, _.
Qed.

(** When [start] returns failure, the failure is that of one of its five
    commands, which exited with a status other than 0; there is no other
    way for it to return failure. *)
Lemma start_failure_is_a_command_failure (o : t) (w : world) (m : message)
    (st' : t * world) :
  start (o, w) = (Returned (false, m), st') ->
  exists c rc,
    c ∈ start_commands o /\ rc <> 0
    /\ m = [StrOf (CalledProcessError c rc)].
Proof.
  unfold start. py_unfold. unfold start_commands. simpl for_each.
  py_unfold.
  repeat
    match goal with
    | |- context [run true ?cmd ?w1] =>
        let H := fresh "Hrun" in
        let r := fresh "r" in
        let e := fresh "e" in
        let w2 := fresh "w" in
        let rc := fresh "rc" in
        let Hrc := fresh "Hrc" in
        let err := fresh "err" in
        destruct (run true cmd w1) as [[r|e] w2] eqn:H;
        cbv beta iota zeta;
        [| apply run_raises in H as [(rc & Hrc & ->)|(err & ->)];
           cbn [is_CalledProcessError];
           [ match goal with
             | |- context [stop ?s] =>
                 destruct (stop_returns s) as (r' & s'' & ->)
             end;
             let Heq := fresh "Heq" in
             intros Heq; inversion Heq; subst; exists cmd, rc;
             split; [solve [repeat constructor]|done]
           | discriminate ] ]
    end.
  discriminate.
Qed.

(** hostapd exits with status 1: [start] stops what it started and
    returns failure with the error of that command. *)
Example start_hostapd_fails :
  let hostapd := ["hostapd"; "-B"; "/tmp/hostapd.conf"] in
  let '(r, (o', w')) :=
    start (init "wlan0_ap0", Fixtures.failing hostapd 1) in
  r = Returned (false, [StrOf (CalledProcessError hostapd 1)])
  /\ is_running o' = false
  /\ drop 4 (executed w')
     = [["killall"; "hostapd"]; ["killall"; "dnsmasq"];
        ["ip"; "addr"; "flush"; "dev"; "wlan0_ap0"]].
Proof. vm_compute. done. Qed.

Lemma start_checks_no_configuration_witness :
  start (init "wlan0_ap0", Fixtures.stale_tmp)
  = (Returned (true, [Lit "Access point started successfully"]),
     (set_is_running true (init "wlan0_ap0"),
      log_commands (start_commands (init "wlan0_ap0")) Fixtures.stale_tmp)).
Proof.
  apply (start_checks_no_configuration (init "wlan0_ap0") Fixtures.stale_tmp).
  intros h c _. exists "", "". reflexivity.
Defined.

Lemma lease_clients_erased (lines : list string) :
  map erase_signal (lease_clients lines) = lease_clients lines.
Proof.
  induction lines as [|line rest IH]; simpl; [done|].
  repeat case_match; cbn; rewrite ?IH; done.
Qed.

Lemma set_signal_erased (m s : string) (cl : list client) :
  map erase_signal (set_signal m s cl) = map erase_signal cl.
Proof.
  induction cl as [|c cl IH]; simpl; [done|].
  destruct (String.eqb (mac_address c) m); simpl; [done|].
  by rewrite IH.
Qed.

Lemma station_loop_erased (lines : list string) :
  forall cur cl,
    map erase_signal (station_loop lines cur cl) = map erase_signal cl.
Proof.
  induction lines as [|line rest IH]; intros cur cl; simpl; [done|].
  repeat case_match; rewrite ?IH, ?set_signal_erased; done.
Qed.

(** An entry of the updated list is an old entry, or the entry of [m]
    with the signal just read. *)
Lemma set_signal_elem (m s : string) (cl : list client) (c : client) :
  c ∈ set_signal m s cl ->
  c ∈ cl \/ (mac_address c = m /\ signal_strength c = Some s).
Proof.
  induction cl as [|c0 cl IH]; simpl; [by left|].
  destruct (String.eqb_spec (mac_address c0) m) as [E|N].
  - intros [->|Hin]%elem_of_cons; [by right|].
    left. by apply list_elem_of_further.
  - intros [->|Hin]%elem_of_cons; [left; by apply list_elem_of_here|].
    destruct (IH Hin) as [?|?]; [left; by apply list_elem_of_further|by right].
Qed.

(** No signal is made up. The loop over the station dump only stores a
    signal that a "signal:" line reads, and only on the client a
    "Station" line announced. [A] and [R] collect the addresses and the
    readings the lines may give. *)
Lemma station_loop_sound (A R : string -> Prop) (lines : list string) :
  (forall line mac, line ∈ lines -> PyStr.contains "Station" line = true ->
     PyStr.split line !! 1%nat = Some mac -> A mac) ->
  (forall line, line ∈ lines -> PyStr.contains "signal:" line = true ->
     R (PyStr.strip (nth 1 (PyStr.split_on ":" line) ""))) ->
  forall cur cl,
    (forall m, cur = Some m -> A m) ->
    (forall c s, c ∈ cl -> signal_strength c = Some s ->
       A (mac_address c) /\ R s) ->
    forall c s, c ∈ station_loop lines cur cl ->
      signal_strength c = Some s -> A (mac_address c) /\ R s.
Proof.
  induction lines as [|line rest IH]; intros HA HR cur cl Hcur Hcl; simpl;
    [exact Hcl|].
  assert (HA' : forall l mac, l ∈ rest -> PyStr.contains "Station" l = true ->
            PyStr.split l !! 1%nat = Some mac -> A mac).
  { intros l mac Hl. apply HA. by apply list_elem_of_further. }
  assert (HR' : forall l, l ∈ rest -> PyStr.contains "signal:" l = true ->
            R (PyStr.strip (nth 1 (PyStr.split_on ":" l) ""))).
  { intros l Hl. apply HR. by apply list_elem_of_further. }
  destruct (PyStr.contains "Station" line) eqn:HS.
  - destruct (PyStr.split line) as [|w0 [|mac ws]] eqn:Hsp; try exact Hcl.
    apply (IH HA' HR'); [|exact Hcl].
    intros m [= <-]. apply (HA line); [apply list_elem_of_here|done|].
    by rewrite Hsp.
  - destruct (PyStr.contains "signal:" line) eqn:Hsig; simpl;
      [|by apply (IH HA' HR')].
    destruct (PyStr.truthy cur) eqn:Ht; [|by apply (IH HA' HR')].
    apply (IH HA' HR'); [exact Hcur|].
    intros c s [Hin|[Hm Hs]]%set_signal_elem Hsome; [by apply Hcl|].
    destruct cur as [m|]; [|done]. simpl in Hm. subst.
    rewrite Hs in Hsome. injection Hsome as <-. split.
    + by apply Hcur.
    + apply HR; [apply list_elem_of_here|done].
Qed.

Lemma lease_clients_unsigned (lines : list string) (c : client) :
  c ∈ lease_clients lines -> signal_strength c = None.
Proof.
  induction lines as [|line rest IH]; simpl; [by intros ?%elem_of_nil|].
  repeat case_match; try exact IH.
  intros [->|Hin]%elem_of_cons; [done|by apply IH].
Qed.

(** Listing the clients leaves the service as it is and runs the station
    dump, whatever comes of it. *)
Lemma get_connected_clients_state (o : t) (w : world) :
  snd (get_connected_clients (o, w)) = (o, log_command (station_dump o) w).
Proof.
  unfold get_connected_clients. py_unfold.
  pose proof (run_world false (station_dump o) w) as E.
  destruct (run false (station_dump o) w) as [[r|e] w1]; simpl in E; subst;
    [|done].
  by destruct (returncode r =? 0).
Qed.

(** C5 (as the code has it). [get_connected_clients] always returns. Its
    result is the list of the lease records, one client per line of at
    least five words, in the order of the file, each possibly with a
    signal added: a client with a lease and no station entry appears with
    no signal, and a station with no lease does not appear. A signal is
    only ever one that the station dump reads, stored on a client the
    dump announces. *)
Theorem get_connected_clients_lease_records (o : t) (w : world) :
  exists clients w',
    get_connected_clients (o, w) = (Returned clients, (o, w'))
    /\ map erase_signal clients = leased w
    /\ forall c s, c ∈ clients -> signal_strength c = Some s ->
         exists r,
           respond w (executed w) (station_dump o) = Exits r
           /\ returncode r = 0
           /\ announced (PyStr.splitlines (stdout r)) (mac_address c)
           /\ reading (PyStr.splitlines (stdout r)) s.
Proof.
  assert (Hplain : forall c s, c ∈ leased w ->
            signal_strength c = Some s -> False).
  { unfold leased. intros c s Hin Hs. destruct (files w !! leases_path).
    - apply lease_clients_unsigned in Hin. congruence.
    - by apply elem_of_nil in Hin. }
  assert (Herased : map erase_signal (leased w) = leased w).
  { unfold leased. destruct (files w !! leases_path); [|done].
    apply lease_clients_erased. }
  unfold get_connected_clients. py_unfold. unfold run.
  destruct (respond w (executed w) (station_dump o)) as [r|err] eqn:Hr.
  - simpl. destruct (returncode r =? 0) eqn:Hrc.
    + eexists _, _. split; [reflexivity|]. split.
      * by rewrite station_loop_erased.
      * intros c s Hin Hs. exists r. apply Z.eqb_eq in Hrc.
        split; [done|]. split; [done|].
        revert c s Hin Hs. apply station_loop_sound.
        -- intros line mac ? ? ?. by exists line.
        -- intros line ? ?. by exists line.
        -- discriminate.
        -- intros c s Hin Hs. destruct (Hplain c s Hin Hs).
    + eexists _, _. split; [reflexivity|]. split; [done|].
      intros c s Hin Hs. destruct (Hplain c s Hin Hs).
  - eexists _, _. split; [reflexivity|]. split; [done|].
    intros c s Hin Hs. destruct (Hplain c s Hin Hs).
Qed.

(** C5, the claim as stated, fails: a station the radio reports, with a
    signal, that holds no lease is not in the result. (The client that
    holds a lease and is not in the dump is there, without a signal.) *)
Lemma station_without_lease_is_missing :
  let nl := String (ascii_of_nat 10) EmptyString in
  let dump := "Station aa:bb:cc:dd:ee:ff (on wlan0_ap0)" +:+ nl
              +:+ "    signal: -65 dBm" in
  let w := Fixtures.serving
             "1645000000 00:11:22:33:44:55 192.168.4.2 android-phone *" dump in
  announced (PyStr.splitlines dump) "aa:bb:cc:dd:ee:ff"
  /\ fst (get_connected_clients (init "wlan0_ap0", w))
     = Returned [Client "00:11:22:33:44:55" "192.168.4.2" "android-phone"
                   None].
Proof.
  split.
  - exists "Station aa:bb:cc:dd:ee:ff (on wlan0_ap0)".
    split; [|split]; [vm_compute; apply list_elem_of_here|reflexivity..].
  - vm_compute. reflexivity.
Qed.

(** The test suite's scenario: both clients hold a lease and are in the
    dump; each gets its signal. *)
Example get_connected_clients_both_sources :
  let nl := String (ascii_of_nat 10) EmptyString in
  let leases :=
    "1645000000 00:11:22:33:44:55 192.168.4.2 android-phone 01:23" +:+ nl
    +:+ "1645000001 aa:bb:cc:dd:ee:ff 192.168.4.3 laptop *" in
  let dump :=
    "Station 00:11:22:33:44:55 (on wlo1)" +:+ nl
    +:+ "    signal: -50 dBm" +:+ nl
    +:+ "Station aa:bb:cc:dd:ee:ff (on wlo1)" +:+ nl
    +:+ "    signal: -65 dBm" in
  fst (get_connected_clients (init "wlo1", Fixtures.serving leases dump))
  = Returned
      [Client "00:11:22:33:44:55" "192.168.4.2" "android-phone"
         (Some "-50 dBm");
       Client "aa:bb:cc:dd:ee:ff" "192.168.4.3" "laptop" (Some "-65 dBm")].
Proof. vm_compute. reflexivity. Qed.

End APServiceFacts.

(* ===================================================================== *)
(** ** Credentials *)
(* ===================================================================== *)

Section CredentialFacts.



(** When the file can be written, what [configure_ap] writes is the lines
    of [config_lines]. *)
Lemma configure_ap_writes (a : APService.t) (w : world) (name : string)
    (password : option string) (channel : Z) (hw_mode : string) :
  writable w (APService.hostapd_conf_path a) = true ->
  APService.configure_ap name password channel hw_mode (a, w)
  = (Returned (true, [Lit "AP configuration created successfully"]),
     (a, set_files
           (<[APService.hostapd_conf_path a :=
                PyStr.join_lines
                  (APService.config_lines a name password channel hw_mode)]>
              (files w)) w)).
Proof.
  intros Hw. unfold APService.configure_ap, write_file. py_unfold.
  by rewrite Hw.
Qed.


End CredentialFacts.

(* ===================================================================== *)
(** ** BridgeService *)
(* ===================================================================== *)

Section BridgeServiceFacts.

Import BridgeService.

Lemma commands_start_log (c : command) (w : world) :
  commands_start w -> commands_start (log_command c w).
Proof. intros H h c'. apply H. Qed.

Lemma respond_log_commands (cs : list command) (w : world) :
  respond (log_commands cs w) = respond w.
Proof.
  unfold log_commands. revert w.
  induction cs as [|c cs IH]; intros w; [done|]. simpl. by rewrite IH.
Qed.


Lemma writable_log_commands (cs : list command) (w : world) :
  writable (log_commands cs w) = writable w.
Proof.
  unfold log_commands. revert w.
  induction cs as [|c cs IH]; intros w; [done|]. simpl. by rewrite IH.
Qed.

Lemma run_unchecked (cmd : command) (w : world) :
  commands_start w ->
  exists r, run false cmd w = (Returned r, log_command cmd w).
Proof.
  intros H. unfold run. destruct (H (executed w) cmd) as [r ->]. eauto.
Qed.

Lemma remove_rule_runs (rule : command) (o : t) (w : world) :
  (3 < length rule)%nat ->
  commands_start w ->
  remove_rule rule (o, w)
  = (Returned tt, (o, log_command (removal rule) w)).
Proof.
  intros Hlen Hst. unfold remove_rule, delete_rule. py_unfold.
  destruct (decide (3 < length rule)%nat); [|done].
  by destruct (run_unchecked (removal rule) w Hst) as [r ->].
Qed.

(** The loop of [stop] over the rules: with rules of at least four words
    and commands that start, every rule has its removal command run, in
    the order of the list, whatever the earlier ones exited with. *)
Lemma removal_loop (rs : list command) :
  forall (o : t) (w : world),
    Forall (fun rule => 3 < length rule)%nat rs ->
    commands_start w ->
    for_each rs remove_rule (o, w)
    = (Returned tt, (o, log_commands (map removal rs) w)).
Proof.
  induction rs as [|rule rs IH]; intros o w Hlen Hst; [reflexivity|].
  apply Forall_cons in Hlen as [Hrule Hlen].
  simpl. unfold bind. rewrite (remove_rule_runs rule o w Hrule Hst).
  apply (IH o (log_command (removal rule) w) Hlen
           (commands_start_log _ _ Hst)).
Qed.

Lemma cleanup_bridge_runs (o : t) (w : world) :
  commands_start w ->
  cleanup_bridge (o, w)
  = (Returned tt, (o, log_commands (cleanup_commands o) w)).
Proof.
  intros Hst. unfold cleanup_bridge. py_unfold.
  destruct (run_unchecked ["ip"; "link"; "set"; ap_interface o; "nomaster"]
              w Hst) as [r1 ->].
  cbv beta iota zeta.
  match goal with
  | |- context [run false ?c ?w1] =>
      destruct (run_unchecked c w1 (commands_start_log _ _ Hst)) as [r2 ->]
  end.
  reflexivity.
Qed.



(** Every rule [setup_routing] installs has more than three words. *)
Lemma rules_long (o : t) :
  Forall (fun rule => 3 < length rule)%nat (rules o).
Proof.
  repeat (apply Forall_cons; split; [simpl; lia|]). constructor.
Qed.

(** [setup_routing] appends to the stack, in order, the rules whose
    command succeeded: the stack grows by a prefix of [rules]. *)
Lemma setup_routing_appends (o : t) (w : world) :
  exists r k w',
    setup_routing (o, w)
    = (Returned r, (set_rules (_iptables_rules o ++ take k (rules o)) o, w')).
Proof.
  unfold setup_routing, write_file. py_unfold.
  destruct (writable w ip_forward).
  - simpl for_each. unfold install_rule, bind. py_unfold.
    step_run; [|exists (false, [StrOf e]), 0%nat; eexists;
                rewrite app_nil_r; by destruct o].
    step_run; [|exists (false, [StrOf e]), 1%nat; eexists; reflexivity].
    step_run; [|exists (false, [StrOf e]), 2%nat; eexists; simpl;
                unfold append_rule, set_rules; simpl;
                by rewrite <- app_assoc].
    eexists _, 3%nat, _. simpl. unfold append_rule, set_rules. simpl.
    by rewrite <- !app_assoc.
  - eexists _, 0%nat, _. rewrite app_nil_r. by destruct o.
Qed.

(** Install [A; B; C], then stop: the removal commands run for C, B, A. *)
Example start_then_stop_order :
  let '(_, st) := start (init "wlan0" "wlan0_ap0", Fixtures.quiet) in
  let '(_, (o', w')) := stop st in
  _iptables_rules (fst st) = rules (init "wlan0" "wlan0_ap0")
  /\ _iptables_rules o' = []
  /\ drop 6 (executed w')
     = map removal (rev (rules (init "wlan0" "wlan0_ap0")))
       ++ cleanup_commands (init "wlan0" "wlan0_ap0").
Proof. vm_compute. done. Qed.

(** What the removal command is. For the NAT rule the fourth word is
    "-A" and the command is the rule's deletion; for the two FORWARD
    rules the fourth word is "-i", so the command keeps "-A" and has
    "-D" where "-i" stood. *)
Lemma removal_commands (o : t) :
  map removal (rules o)
  = [["iptables"; "-t"; "nat"; "-D"; "POSTROUTING"; "-o";
      upstream_interface o; "-j"; "MASQUERADE"];
     ["iptables"; "-A"; "FORWARD"; "-D"; ap_interface o; "-o";
      upstream_interface o; "-j"; "ACCEPT"];
     ["iptables"; "-A"; "FORWARD"; "-D"; upstream_interface o; "-o";
      ap_interface o; "-m"; "state"; "--state";
      "RELATED,ESTABLISHED"; "-j"; "ACCEPT"]].
Proof. reflexivity. Qed.

End BridgeServiceFacts.

(* ===================================================================== *)
(** ** The daemon *)
(* ===================================================================== *)

Section DaemonFacts.

Import Daemon.

Context {W : Type} (C : collaborators W) (I : W -> Prop).

Lemma calls_app (tr1 tr2 : list event) :
  calls (tr1 ++ tr2) = calls tr1 ++ calls tr2.
Proof. apply omap_app. Qed.

Lemma times_app (p : call -> bool) (tr1 tr2 : list event) :
  times p (tr1 ++ tr2) = (times p tr1 + times p tr2)%nat.
Proof.
  unfold times. by rewrite calls_app, List.filter_app, length_app.
Qed.

Lemma calls_Called (l : list call) : calls (map Called l) = l.
Proof. induction l as [|c l IH]; [done|]. simpl. by rewrite IH. Qed.

(** A call that returns: one more event, the collaborators move on. *)
Lemma invoke_returns {A} (c : call) (m : Py W A) (st : state W) :
  returns I m ->
  I (world st) ->
  exists a w',
    invoke c m st
    = (Returned a, State (this st) (trace st ++ [Called c]) w')
    /\ I w'.
Proof.
  intros H HI. unfold invoke.
  destruct (H (world st) HI) as (a & w' & -> & HI'). eauto.
Qed.


Lemma invoke_fails (c : call) (m : Py W (bool * message)) (st : state W) :
  fails I m ->
  I (world st) ->
  exists msg w',
    invoke c m st
    = (Returned (false, msg), State (this st) (trace st ++ [Called c]) w')
    /\ I w'.
Proof.
  intros H HI. unfold invoke.
  destruct (H (world st) HI) as (a & w' & -> & HI'). eauto.
Qed.

Lemma construct_returns (m : Py W unit) (st : state W) :
  returns I m ->
  I (world st) ->
  exists w',
    construct m st = (Returned tt, State (this st) (trace st) w') /\ I w'.
Proof.
  intros H HI. unfold construct.
  destruct (H (world st) HI) as ([] & w' & -> & HI'). eauto.
Qed.

Lemma when_present_invoke {A B} (handle : option A) (c : call)
    (m : A -> Py W B) (st : state W) :
  (forall a, returns I (m a)) ->
  I (world st) ->
  exists w',
    when_present handle (fun a => invoke c (m a)) st
    = (Returned tt,
       State (this st)
         (trace st ++ map Called (for_handle handle c)) w')
    /\ I w'.
Proof.
  intros H HI. destruct handle as [a|]; simpl.
  - py_unfold.
    destruct (invoke_returns c (m a) st (H a) HI) as (b & w' & -> & HI').
    eauto.
  - py_unfold. exists (world st). rewrite app_nil_r. by destruct st.
Qed.

Ltac reduce := cbv beta iota zeta delta [negb this trace world].

(** One call further, by what the scenario says of the method. *)
Ltac step_invoke lem :=
  reduce;
  match goal with
  | |- context [invoke ?c ?m ?st] =>
      let msg := fresh "msg" in
      let w' := fresh "w" in
      let HI := fresh "HI" in
      destruct (lem c m st) as (msg & w' & -> & HI);
      [ solve [eauto] | assumption | reduce ]
  end.


(** [stop_services] when every teardown method returns: the calls are
    those of [teardown], in its order, and the daemon's own fields are
    what they were. *)
Lemma stop_services_trace (st : state W) :
  teardown_returns C I ->
  I (world st) ->
  exists w',
    stop_services C st
    = (Returned tt,
       State (this st)
         (trace st ++ map Called (teardown (this st))
          ++ [Logged INFO [Lit "All services stopped successfully"]])
         w')
    /\ I w'.
Proof.
  intros [Hb Ha Hd Hv] HI. unfold stop_services, get_this. py_unfold.
  destruct (when_present_invoke (bridge_service (this st)) BridgeStop
              (bridge_stop C) st Hb HI) as (w1 & -> & HI1).
  cbv beta iota zeta.
  match goal with
  | |- context [when_present (ap_service _) _ ?s] =>
      destruct (when_present_invoke (ap_service (this st)) ApStop
                  (ap_stop C) s Ha HI1) as (w2 & -> & HI2)
  end.
  cbv beta iota zeta.
  match goal with
  | |- context [when_present (connection_manager _) _ ?s] =>
      destruct (when_present_invoke (connection_manager (this st))
                  Disconnect (disconnect C) s Hd HI2) as (w3 & -> & HI3)
  end.
  cbv beta iota zeta.
  match goal with
  | |- context [when_present (interface_manager _) _ ?s] =>
      destruct (when_present_invoke (interface_manager (this st))
                  DeleteVirtualInterface (delete_virtual_interface C) s Hv
                  HI3)
        as (w4 & -> & HI4)
  end.
  cbv beta iota zeta. unfold log, observe. py_unfold. simpl.
  exists w4. split; [|done]. do 2 f_equal. unfold teardown.
  destruct (bridge_service (this st)), (ap_service (this st)),
    (connection_manager (this st)), (interface_manager (this st));
    simpl; by rewrite <- ?app_assoc.
Qed.

(** C8 (as the code has it). From every state of the daemon, when each
    teardown method returns, with success or with failure,
    [stop_services] returns after calling, for the collaborators that
    exist, [BridgeService.stop], [APService.stop],
    [ConnectionManager.disconnect] and
    [InterfaceManager.delete_virtual_interface], in this order, each
    once. It changes none of the daemon's fields: the collaborators stay
    and [running] keeps its value. *)
Theorem stop_services_reverse_order (st : state W) :
  teardown_returns C I ->
  I (world st) ->
  exists st',
    stop_services C st = (Returned tt, st')
    /\ this st' = this st
    /\ calls (trace st') = calls (trace st) ++ teardown (this st).
Proof.
  intros H HI. destruct (stop_services_trace st H HI) as (w' & -> & _).
  eexists. split; [reflexivity|]. split; [reflexivity|]. simpl.
  rewrite !calls_app, calls_Called. simpl. by rewrite app_nil_r.
Qed.





Lemma start_services_connect_fails (st : state W) (u_ssid : string)
    (u_pw : option string) :
  upstream_stays_down C I ->
  supervising (this st) u_ssid u_pw ->
  I (world st) ->
  exists tr w',
    start_services C st
    = (Returned false, State (this st) (trace st ++ tr) w')
    /\ calls tr = [ConnectToNetwork u_ssid u_pw]
    /\ I w'.
Proof.
  intros [_ _ Hconn _] [[cm Hcm] [aps Haps] [br Hbr] Hup _] HI.
  destruct st as [d tr0 w0]. simpl in *.
  unfold start_services, get_this, start_upstream, item.
  py_unfold. reduce. rewrite Hcm, Haps, Hbr, Hup. simpl.
  step_invoke invoke_fails.
  unfold log, observe. py_unfold. reduce.
  rewrite <- !app_assoc. simpl. eexists _, _.
  split; [reflexivity|]. split; [reflexivity|assumption].
Qed.

(** One turn: the status is read, the whole of [start_services] is
    entered again, the clients are listed. The daemon's fields are what
    they were. *)
Lemma loop_body_reconnects (st : state W) (u_ssid : string)
    (u_pw : option string) :
  upstream_stays_down C I ->
  supervising (this st) u_ssid u_pw ->
  I (world st) ->
  exists tr w',
    loop_body C st = (Returned tt, State (this st) (trace st ++ tr) w')
    /\ calls tr = turn_calls u_ssid u_pw
    /\ I w'.
Proof.
  intros Hdown Hsup HI.
  pose proof Hsup as [[cm Hcm] [aps Haps] _ _ _].
  pose proof Hdown as [_ Hstatus _ Hclients].
  destruct st as [d tr0 w0]. simpl in *.
  unfold loop_body, get_this, when_present. py_unfold. reduce.
  rewrite Hcm, Haps. unfold invoke at 1. simpl.
  destruct (Hstatus cm w0 HI) as (v & w1 & -> & -> & HI1). reduce.
  unfold log at 1, observe. py_unfold. reduce.
  match goal with
  | |- context [start_services C ?s] =>
      destruct (start_services_connect_fails s u_ssid u_pw Hdown Hsup HI1)
        as (tr1 & w2 & -> & Hc1 & HI2)
  end.
  reduce. unfold invoke, sleep, log, observe. py_unfold. reduce.
  pose proof (Hclients aps w2 HI2) as HI3.
  destruct (get_connected_clients C aps w2) as [[clients|e] w3]; reduce;
    eexists _, _; rewrite <- !app_assoc;
    (split; [reflexivity|]);
    rewrite !calls_app, Hc1; (split; [reflexivity|exact HI3]).
Qed.

(** However many turns are allowed, the loop is still going after them,
    and every one of them made the same three calls. *)
Lemma service_loop_keeps_reconnecting (n : nat) :
  forall (st : state W) (u_ssid : string) (u_pw : option string),
    upstream_stays_down C I ->
    supervising (this st) u_ssid u_pw ->
    I (world st) ->
    exists tr w',
      service_loop C n st
      = (Returned false, State (this st) (trace st ++ tr) w')
      /\ calls tr = concat (replicate n (turn_calls u_ssid u_pw)).
Proof.
  induction n as [|n IH]; intros st u_ssid u_pw Hdown Hsup HI.
  - exists [], (world st). simpl. py_unfold. rewrite app_nil_r.
    by destruct st.
  - pose proof Hdown as [Hsig _ _ _].
    pose proof Hsup as [_ _ _ _ Hrun].
    destruct st as [d tr0 w0]. simpl in *.
    unfold get_this, deliver_signals. py_unfold. reduce.
    destruct (Hsig w0 HI) as (w1 & -> & HI1).
    simpl for_each. py_unfold. reduce.
    rewrite Hrun.
    destruct (loop_body_reconnects (State d tr0 w1) u_ssid u_pw Hdown Hsup
                HI1)
      as (tr1 & w2 & -> & Hc1 & HI2).
    reduce.
    destruct (IH (State d (tr0 ++ tr1) w2) u_ssid u_pw Hdown Hsup HI2)
      as (tr2 & w3 & -> & Hc2).
    exists (tr1 ++ tr2), w3. simpl. rewrite <- app_assoc.
    split; [reflexivity|]. by rewrite calls_app, Hc1, Hc2.
Qed.

Lemma times_connect_turns (n : nat) (u_ssid : string)
    (u_pw : option string) (tr : list event) :
  calls tr = concat (replicate n (turn_calls u_ssid u_pw)) ->
  times is_connect tr = n.
Proof.
  unfold times. intros ->. induction n as [|n IH]; [done|].
  simpl. by rewrite IH.
Qed.

(** C2 (as the code has it). While the upstream stays down and every
    reconnection fails, the loop never gives up: for every number [n] of
    turns, after [n] turns the loop is still going, [running] is still
    set, and [connect_to_network] was called once in each of the [n]
    turns. There is no count of failed attempts and no failed state. *)
Theorem reconnects_without_bound (n : nat) (st : state W)
    (u_ssid : string) (u_pw : option string) :
  upstream_stays_down C I ->
  supervising (this st) u_ssid u_pw ->
  I (world st) ->
  exists st',
    service_loop C n st = (Returned false, st')
    /\ running (this st') = true
    /\ times is_connect (trace st')
       = (times is_connect (trace st) + n)%nat.
Proof.
  intros Hdown Hsup HI.
  destruct (service_loop_keeps_reconnecting n st u_ssid u_pw Hdown Hsup HI)
    as (tr & w' & -> & Hc).
  eexists. split; [reflexivity|]. split.
  - simpl. by destruct Hsup.
  - simpl. rewrite times_app. f_equal.
    by apply times_connect_turns with (u_ssid := u_ssid) (u_pw := u_pw).
Qed.

End DaemonFacts.

(* ===================================================================== *)
(** ** The daemon in concrete scenarios *)
(* ===================================================================== *)

Section DaemonScenarios.

Import Daemon.

(** [disconnect] catches [CalledProcessError] only: when killall cannot
    be started it raises. *)
Lemma disconnect_raises :
  fst (ConnectionManager.disconnect
         (ConnectionManager.init "wlan0", Fixtures.no_killall))
  = Raised (OSError "No such file or directory").
Proof. reflexivity. Qed.

Lemma mock_teardown_returns (s : Fixtures.script) :
  teardown_returns (Fixtures.mock s) Fixtures.any_situation.
Proof. split; intros h w _; by eexists _, _. Qed.

(** The test suite's [test_start_services]: every collaborator succeeds,
    [start_services] returns True after these calls. *)
Example start_services_all_fine :
  let started :=
    start_services (Fixtures.mock Fixtures.all_fine)
      (State (Fixtures.initialised true) [] tt) in
  fst started = Returned true
  /\ calls (trace (snd started))
     = [ConnectToNetwork "Home" (Some "secret123");
        ConfigureAp "Extend" None 6; ConfigureDhcp; ApStart; BridgeStart].
Proof. vm_compute. done. Qed.


Lemma initialised_supervising :
  supervising (Fixtures.initialised true) "Home" (Some "secret123").
Proof. split; try reflexivity; by eexists. Qed.

(** The end-to-end scenario with the classes of [core]: the machine is
    associated to "Home" and every iptables command fails, so the
    installation of the NAT rule fails. The calls of [run] on its
    collaborators, and the commands the machine has run at the end. *)
Example run_nat_rule_fails :
  let ran := run Wired.real 0
               (State init [] (Fixtures.fresh (Fixtures.nat_fails "Home"))) in
  fst ran = Returned true
  /\ calls (trace (snd ran))
     = [GetSuitableInterfaces; CreateVirtualInterface;
        ConnectToNetwork "Home" (Some "secret123");
        ConfigureAp "Extend" None 6; ConfigureDhcp; ApStart; BridgeStart;
        ApStop; BridgeStop; ApStop; Disconnect; DeleteVirtualInterface]
  /\ executed (Wired.os (world (snd ran)))
     = [["iw"; "dev"; "wlan0"; "interface"; "add"; "wlan0_ap0"; "type";
         "__ap"];
        ["killall"; "wpa_supplicant"];
        ["wpa_supplicant"; "-B"; "-i"; "wlan0"; "-c";
         "/tmp/wpa_supplicant.conf"];
        ["dhclient"; "-v"; "wlan0"]; ["iwconfig"; "wlan0"];
        ["ip"; "addr"; "flush"; "dev"; "wlan0_ap0"];
        ["ip"; "addr"; "add"; "192.168.4.1/24"; "dev"; "wlan0_ap0"];
        ["ip"; "link"; "set"; "wlan0_ap0"; "up"];
        ["hostapd"; "-B"; "/tmp/hostapd.conf"];
        ["dnsmasq"; "-C"; "/tmp/dnsmasq.conf"];
        ["ip"; "link"; "add"; "name"; "br0"; "type"; "bridge"];
        ["ip"; "link"; "set"; "wlan0_ap0"; "master"; "br0"];
        ["ip"; "link"; "set"; "br0"; "up"];
        ["iptables"; "-t"; "nat"; "-A"; "POSTROUTING"; "-o"; "wlan0"; "-j";
         "MASQUERADE"];
        ["ip"; "link"; "set"; "wlan0_ap0"; "nomaster"];
        ["ip"; "link"; "delete"; "br0"; "type"; "bridge"];
        ["killall"; "hostapd"]; ["killall"; "dnsmasq"];
        ["ip"; "addr"; "flush"; "dev"; "wlan0_ap0"];
        ["ip"; "link"; "set"; "wlan0_ap0"; "nomaster"];
        ["ip"; "link"; "delete"; "br0"; "type"; "bridge"];
        ["killall"; "hostapd"]; ["killall"; "dnsmasq"];
        ["ip"; "addr"; "flush"; "dev"; "wlan0_ap0"];
        ["killall"; "wpa_supplicant"]; ["dhclient"; "-r"; "wlan0"];
        ["iw"; "dev"; "wlan0_ap0"; "del"]].
Proof. vm_compute. done. Qed.



(** The classes of [core] on a machine that is associated to no network
    are in the scenario of an upstream that stays down: the status shows
    the upstream not connected, and [connect_to_network] fails its
    verification, every time. *)
Lemma real_upstream_down :
  upstream_stays_down Wired.real (Wired.powered Fixtures.offline).
Proof.
  split.
  - intros [cm im aps br w su od ib] [Hm Hib]. simpl in *. subst ib.
    eexists. split; [reflexivity|]. by split.
  - intros h [cm im aps br w su od ib] [(Hr & Hd & Hw) Hib]. simpl in *.
    unfold Wired.on_cm, ConnectionManager.get_connection_status,
      get_interface_status. py_unfold. simpl. rewrite Hd. simpl.
    eexists _, _. split; [reflexivity|]. split; [done|]. by repeat split.
  - intros h name password [cm im aps br w su od ib] [(Hr & Hd & Hw) Hib].
    simpl in *. unfold Wired.on_cm. simpl.
    destruct (connect_to_network_unverified cm w name password
                (Status true false None (Some "169.254.7.7")
                   (Some "Managed") None None))
      as (w' & -> & (Hr' & Hd' & Hw')).
    + by rewrite Hw.
    + intros hist c. rewrite Hr. by eexists _, _.
    + intros hist. by rewrite Hd.
    + done.
    + eexists _, _. split; [reflexivity|].
      unfold Wired.powered, same_machine. simpl.
      by rewrite Hr', Hd', Hw'.
  - intros h [cm im aps br w su od ib] [(Hr & Hd & Hw) Hib]. simpl in *.
    unfold Wired.on_ap. simpl.
    pose proof (get_connected_clients_state aps w) as E.
    destruct (APService.get_connected_clients (aps, w)) as [r [o' w']].
    simpl in E. injection E as -> ->. simpl. by repeat split.
Qed.

(** C2, the claim as stated, fails, on the classes of [core]: no number
    bounds the reconnection attempts. On a machine that stays associated
    to no network, the calls to [connect_to_network] in [n] turns of the
    loop are [n], for every [n]. *)
Lemma no_bound_on_reconnections :
  ~ exists N : nat,
      forall n,
        (times is_connect
           (trace (snd (service_loop Wired.real n
                          (State (Fixtures.initialised true) []
                             (Fixtures.brought_up Fixtures.offline)))))
         <= N)%nat.
Proof.
  intros [N H]. specialize (H (S N)).
  destruct (service_loop_keeps_reconnecting
              Wired.real (Wired.powered Fixtures.offline) (S N)
              (State (Fixtures.initialised true) []
                 (Fixtures.brought_up Fixtures.offline))
              "Home" (Some "secret123")
              real_upstream_down initialised_supervising)
    as (tr & w' & E & Hc); [by repeat split|].
  rewrite E in H. cbn [snd trace app] in H.
  rewrite (times_connect_turns (S N) "Home" (Some "secret123") tr Hc) in H.
  lia.
Qed.

Lemma reconnects_without_bound_witness :
  exists st',
    service_loop Wired.real 3
      (State (Fixtures.initialised true) []
         (Fixtures.brought_up Fixtures.offline))
    = (Returned false, st')
    /\ running (this st') = true
    /\ times is_connect (trace st')
       = (times is_connect
            (trace (State (Fixtures.initialised true) []
                      (Fixtures.brought_up Fixtures.offline))) + 3)%nat.
Proof.
  apply (reconnects_without_bound Wired.real
           (Wired.powered Fixtures.offline) 3
           (State (Fixtures.initialised true) []
              (Fixtures.brought_up Fixtures.offline))
           "Home" (Some "secret123")).
  - exact real_upstream_down.
  - exact initialised_supervising.
  - by repeat split.
Defined.

(** Three turns on that machine: the calls of the daemon. *)
Example three_turns_offline :
  calls (trace (snd (service_loop Wired.real 3
                       (State (Fixtures.initialised true) []
                          (Fixtures.brought_up Fixtures.offline)))))
  = turn_calls "Home" (Some "secret123")
    ++ turn_calls "Home" (Some "secret123")
    ++ turn_calls "Home" (Some "secret123").
Proof. vm_compute. done. Qed.

(** C8, the claim as stated, fails, on the classes of [core]. On a
    machine where killall cannot be started, [disconnect] raises, and
    [delete_virtual_interface] is not attempted: the virtual interface is
    still held. And where every teardown succeeds, [running] is still set
    after [stop_services]: the daemon is in no stopped state. *)
Lemma stop_services_skips_and_keeps_running :
  let broken :=
    snd (stop_services Wired.real
           (State (Fixtures.initialised true) []
              (Fixtures.brought_up Fixtures.no_killall))) in
  let fine :=
    snd (stop_services Wired.real
           (State (Fixtures.initialised true) []
              (Fixtures.brought_up Fixtures.quiet))) in
  calls (trace broken) = [BridgeStop; ApStop; Disconnect]
  /\ InterfaceManager.virtual_interface
       (Wired.interface_manager (world broken)) = Some "wlan0_ap0"
  /\ calls (trace fine)
     = [BridgeStop; ApStop; Disconnect; DeleteVirtualInterface]
  /\ running (this fine) = true.
Proof. vm_compute. done. Qed.

Lemma stop_services_reverse_order_witness :
  exists st',
    stop_services (Fixtures.mock Fixtures.all_fine)
      (State (Fixtures.initialised true) [] tt)
    = (Returned tt, st')
    /\ this st' = this (State (Fixtures.initialised true) [] tt)
    /\ calls (trace st')
       = calls (trace (State (Fixtures.initialised true) [] tt))
         ++ teardown (this (State (Fixtures.initialised true) [] tt)).
Proof.
  apply (stop_services_reverse_order (Fixtures.mock Fixtures.all_fine)
           Fixtures.any_situation
           (State (Fixtures.initialised true) [] tt)).
  - by apply mock_teardown_returns.
  - exact I.
Defined.

End DaemonScenarios.

(* ===================================================================== *)
(** ** InterfaceManager: the handle, and the mode of an interface *)
(* ===================================================================== *)

Section InterfaceModes.

Import InterfaceManager.

(** X1. The three ways [create_virtual_interface] returns. It returns
    success after the command [iw dev <physical> interface add ...]
    exited with status 0, and only then holds the new name. It returns
    failure without running anything when a name is held already. It
    returns failure after the command exited with another status, and
    the message is then that of the [CalledProcessError]: the text
    "Failed to create virtual interface" with the standard error of the
    command is never returned. *)
Theorem create_virtual_interface_cases (suffix : string) (o o' : t)
    (w w' : world) (ok : bool) (msg : message) :
  create_virtual_interface suffix (o, w) = (Returned (ok, msg), (o', w')) ->
  let v := physical_interface o +:+ "_" +:+ suffix in
  let cmd := ["iw"; "dev"; physical_interface o; "interface"; "add"; v;
              "type"; "__ap"] in
  (ok = true /\ PyStr.truthy (virtual_interface o) = false
   /\ o' = set_virtual_interface (Some v) o /\ w' = log_command cmd w)
  \/ (ok = false /\ PyStr.truthy (virtual_interface o) = true
      /\ o' = o /\ w' = w)
  \/ (ok = false /\ PyStr.truthy (virtual_interface o) = false
      /\ o' = o /\ w' = log_command cmd w
      /\ exists rc, rc <> 0 /\ msg = [StrOf (CalledProcessError cmd rc)]).
Proof.
  unfold create_virtual_interface. py_unfold.
  destruct (PyStr.truthy (virtual_interface o)) eqn:Ht.
  - intros [= <- <- <- <-]. right. left. done.
  - unfold run.
    destruct (respond w (executed w) _) as [r|err]; simpl; [|done].
    destruct (returncode r =? 0) eqn:Hrc; simpl.
    + rewrite Hrc. intros [= <- <- <- <-]. left. done.
    + intros [= <- <- <- <-]. right. right. repeat split; try done.
      exists (returncode r). split; [|done]. by apply Z.eqb_neq.
Qed.

Lemma create_virtual_interface_cases_witness :
  let o := init "wlan0" in
  let w := Fixtures.failing
             ["iw"; "dev"; "wlan0"; "interface"; "add"; "wlan0_ap0";
              "type"; "__ap"] 161 in
  let cmd := ["iw"; "dev"; "wlan0"; "interface"; "add"; "wlan0_ap0";
              "type"; "__ap"] in
  let msg := [StrOf (CalledProcessError cmd 161)] in
  create_virtual_interface "ap0" (o, w)
  = (Returned (false, msg), (o, log_command cmd w))
  /\ ((false = true /\ PyStr.truthy (virtual_interface o) = false
       /\ o = set_virtual_interface (Some "wlan0_ap0") o
       /\ log_command cmd w = log_command cmd w)
      \/ (false = false /\ PyStr.truthy (virtual_interface o) = true
          /\ o = o /\ log_command cmd w = w)
      \/ (false = false /\ PyStr.truthy (virtual_interface o) = false
          /\ o = o /\ log_command cmd w = log_command cmd w
          /\ exists rc,
               rc <> 0 /\ msg = [StrOf (CalledProcessError cmd rc)])).
Proof.
  intros o w cmd msg. split; [reflexivity|].
  apply (create_virtual_interface_cases "ap0" o o w (log_command cmd w)
           false msg).
  reflexivity.
Defined.

(** X2. The three ways [delete_virtual_interface] returns. The handle is
    dropped only after [iw dev <name> del] exited with status 0; when the
    command exits with another status the manager keeps the name, and the
    message is that of the [CalledProcessError]. *)
Theorem delete_virtual_interface_cases (o o' : t) (w w' : world) (ok : bool)
    (msg : message) :
  delete_virtual_interface (o, w) = (Returned (ok, msg), (o', w')) ->
  let cmd := ["iw"; "dev"; default "" (virtual_interface o); "del"] in
  (ok = true /\ PyStr.truthy (virtual_interface o) = true
   /\ o' = set_virtual_interface None o /\ w' = log_command cmd w)
  \/ (ok = false /\ PyStr.truthy (virtual_interface o) = false
      /\ o' = o /\ w' = w)
  \/ (ok = false /\ PyStr.truthy (virtual_interface o) = true
      /\ o' = o /\ w' = log_command cmd w
      /\ exists rc, rc <> 0 /\ msg = [StrOf (CalledProcessError cmd rc)]).
Proof.
  unfold delete_virtual_interface. py_unfold.
  destruct (PyStr.truthy (virtual_interface o)) eqn:Ht; simpl.
  - unfold run.
    destruct (respond w (executed w) _) as [r|err]; simpl; [|done].
    destruct (returncode r =? 0) eqn:Hrc; simpl.
    + rewrite Hrc. intros [= <- <- <- <-]. left. done.
    + intros [= <- <- <- <-]. right. right. repeat split; try done.
      exists (returncode r). split; [|done]. by apply Z.eqb_neq.
  - intros [= <- <- <- <-]. right. left. done.
Qed.

Lemma delete_virtual_interface_cases_witness :
  let o := Make "wlan0" (Some "wlan0_ap0") in
  let cmd := ["iw"; "dev"; "wlan0_ap0"; "del"] in
  let w := Fixtures.failing cmd 237 in
  let msg := [StrOf (CalledProcessError cmd 237)] in
  delete_virtual_interface (o, w)
  = (Returned (false, msg), (o, log_command cmd w))
  /\ ((false = true /\ PyStr.truthy (virtual_interface o) = true
       /\ o = set_virtual_interface None o
       /\ log_command cmd w = log_command cmd w)
      \/ (false = false /\ PyStr.truthy (virtual_interface o) = false
          /\ o = o /\ log_command cmd w = w)
      \/ (false = false /\ PyStr.truthy (virtual_interface o) = true
          /\ o = o /\ log_command cmd w = log_command cmd w
          /\ exists rc,
               rc <> 0 /\ msg = [StrOf (CalledProcessError cmd rc)])).
Proof.
  intros o cmd w msg. split; [reflexivity|].
  apply (delete_virtual_interface_cases o o w (log_command cmd w) false msg).
  reflexivity.
Defined.

(** X3. Creating the virtual interface and deleting it again, both
    commands exiting with status 0, gives back the manager one started
    from: the name that was stored is the one the deletion is run for, and
    no name is held afterwards. *)
Theorem create_then_delete (suffix : string) (o : t) (w : world)
    (r1 r2 : completed) :
  let v := physical_interface o +:+ "_" +:+ suffix in
  let add := ["iw"; "dev"; physical_interface o; "interface"; "add"; v;
              "type"; "__ap"] in
  let del := ["iw"; "dev"; v; "del"] in
  virtual_interface o = None ->
  respond w (executed w) add = Exits r1 -> returncode r1 = 0 ->
  respond w (executed w ++ [add]) del = Exits r2 -> returncode r2 = 0 ->
  (create_virtual_interface suffix;; delete_virtual_interface) (o, w)
  = (Returned (true, [Lit "Successfully deleted virtual interface"]),
     (o, log_commands [add; del] w)).
Proof.
  intros v add del Hnone Hadd Hrc1 Hdel Hrc2.
  assert (run true add w = (Returned r1, log_command add w)) as E1.
  { unfold run. by rewrite Hadd, Hrc1. }
  assert (run true del (log_command add w)
          = (Returned r2, log_command del (log_command add w))) as E2.
  { unfold run.
    change (respond (log_command add w) (executed (log_command add w)) del)
      with (respond w (executed w ++ [add]) del).
    by rewrite Hdel, Hrc2. }
  assert (PyStr.truthy (Some v) = true) as Hv.
  { simpl. subst v. by destruct (physical_interface o). }
  unfold create_virtual_interface, delete_virtual_interface. py_unfold.
  rewrite Hnone. cbv beta iota zeta delta [PyStr.truthy].
  fold v. fold add. rewrite E1. cbv beta iota zeta. rewrite Hrc1.
  cbv beta iota zeta delta [set_virtual_interface virtual_interface Z.eqb].
  fold (PyStr.truthy (Some v)). rewrite Hv.
  cbv beta iota zeta delta [negb default id]. fold del. rewrite E2.
  cbv beta iota zeta. rewrite Hrc2. cbv beta iota zeta delta [Z.eqb].
  destruct o as [p vi]. simpl in *. by subst vi.
Qed.

Lemma create_then_delete_witness :
  (create_virtual_interface "ap0";; delete_virtual_interface)
    (init "wlan0", Fixtures.quiet)
  = (Returned (true, [Lit "Successfully deleted virtual interface"]),
     (init "wlan0",
      log_commands
        [["iw"; "dev"; "wlan0"; "interface"; "add"; "wlan0_ap0"; "type";
          "__ap"];
         ["iw"; "dev"; "wlan0_ap0"; "del"]]
        Fixtures.quiet)).
Proof.
  apply (create_then_delete "ap0" (init "wlan0") Fixtures.quiet
           (Completed 0 "" "") (Completed 0 "" ""));
    reflexivity.
Defined.

(** X4. [set_interface_mode] runs [ip link set <i> down],
    [iwconfig <i> mode <m>] and [ip link set <i> up] in this order and
    stops at the first that does not exit with status 0: [k] commands
    ran. It leaves the manager as it is. It returns success only after
    all three; when the mode command fails ([k = 2]) it returns the
    [CalledProcessError] and the interface is not brought up again. None
    of the messages carries the standard error of a command, and the only
    exception that escapes is the [OSError] of a command that cannot be
    started. *)
Theorem set_interface_mode_cases (interface mode : string) (o : t)
    (w : world) (r : outcome (bool * message)) (st : t * world) :
  set_interface_mode interface mode (o, w) = (r, st) ->
  let down := ["ip"; "link"; "set"; interface; "down"] in
  let iwconfig := ["iwconfig"; interface; "mode"; mode] in
  let up := ["ip"; "link"; "set"; interface; "up"] in
  exists k,
    st = (o, log_commands (take k (mode_commands interface mode)) w)
    /\ match r with
       | Returned (true, msg) =>
           k = 3%nat
           /\ msg = [Lit ("Successfully set " +:+ interface +:+ " to mode "
                          +:+ mode)]
       | Returned (false, msg) =>
           exists rc,
             rc <> 0
             /\ (k = 1%nat
                 /\ msg = [Lit "Failed to set interface DOWN: ";
                           StrOf (CalledProcessError down rc)]
                 \/ k = 2%nat
                    /\ msg = [StrOf (CalledProcessError iwconfig rc)]
                 \/ k = 3%nat
                    /\ msg = [Lit "Failed to set interface UP: ";
                              StrOf (CalledProcessError up rc)])
       | Raised e => (1 <= k <= 3)%nat /\ exists err, e = OSError err
       end.
Proof.
  unfold set_interface_mode, set_interface_down, set_interface_up.
  py_unfold. unfold run at 1.
  destruct (respond w (executed w) _) as [r1|err1]; simpl.
  2:{ intros [= <- <-]. exists 1%nat. split; [done|]. split; [lia|eauto]. }
  destruct (returncode r1 =? 0) eqn:H1; simpl.
  2:{ intros [= <- <-]. exists 1%nat. split; [done|].
      exists (returncode r1). split; [by apply Z.eqb_neq|]. by left. }
  rewrite H1. simpl. unfold run at 1.
  destruct (respond (log_command _ w) _ _) as [r2|err2]; simpl.
  2:{ intros [= <- <-]. exists 2%nat. split; [done|]. split; [lia|eauto]. }
  destruct (returncode r2 =? 0) eqn:H2; simpl.
  2:{ intros [= <- <-]. exists 2%nat. split; [done|].
      exists (returncode r2). split; [by apply Z.eqb_neq|]. right. by left. }
  rewrite H2. simpl. unfold run at 1.
  destruct (respond (log_command _ (log_command _ w)) _ _) as [r3|err3]; simpl.
  2:{ intros [= <- <-]. exists 3%nat. split; [done|]. split; [lia|eauto]. }
  destruct (returncode r3 =? 0) eqn:H3; simpl.
  2:{ intros [= <- <-]. exists 3%nat. split; [done|].
      exists (returncode r3). split; [by apply Z.eqb_neq|]. right. by right. }
  rewrite H3. simpl. intros [= <- <-]. exists 3%nat. done.
Qed.

(** On a machine where iwconfig refuses the mode, the interface was
    taken down, the mode command ran, and nothing else. *)
Lemma set_interface_mode_cases_witness :
  let iwconfig := ["iwconfig"; "wlan0"; "mode"; "monitor"] in
  let w := Fixtures.failing iwconfig 250 in
  let msg := [StrOf (CalledProcessError iwconfig 250)] in
  let st :=
    (init "wlan0",
     log_commands [["ip"; "link"; "set"; "wlan0"; "down"]; iwconfig] w) in
  set_interface_mode "wlan0" "monitor" (init "wlan0", w)
  = (Returned (false, msg), st)
  /\ exists k,
       st = (init "wlan0",
             log_commands (take k (mode_commands "wlan0" "monitor")) w)
       /\ exists rc,
            rc <> 0
            /\ (k = 1%nat
                /\ msg = [Lit "Failed to set interface DOWN: ";
                          StrOf (CalledProcessError
                                   ["ip"; "link"; "set"; "wlan0"; "down"]
                                   rc)]
                \/ k = 2%nat
                   /\ msg = [StrOf (CalledProcessError iwconfig rc)]
                \/ k = 3%nat
                   /\ msg = [Lit "Failed to set interface UP: ";
                             StrOf (CalledProcessError
                                      ["ip"; "link"; "set"; "wlan0"; "up"]
                                      rc)]).
Proof.
  intros iwconfig w msg st. split; [reflexivity|].
  apply (set_interface_mode_cases "wlan0" "monitor" (init "wlan0") w
           (Returned (false, msg)) st).
  reflexivity.
Defined.

End InterfaceModes.

(* ===================================================================== *)
(** ** ConnectionManager: scanning, and the state of the connection *)
(* ===================================================================== *)

Section Text.

Lemma prefix_lower (n h : string) :
  String.prefix n h = true ->
  String.prefix (PyStr.lower n) (PyStr.lower h) = true.
Proof.
  revert h. induction n as [|a n IH]; intros h; [by destruct h|].
  destruct h as [|b h]; [done|]. simpl.
  destruct (Ascii.ascii_dec a b) as [->|]; [|done].
  intros H. destruct (Ascii.ascii_dec _ _); [|done]. by apply IH.
Qed.

Lemma contains_lower (n h : string) :
  PyStr.contains n h = true ->
  PyStr.contains (PyStr.lower n) (PyStr.lower h) = true.
Proof.
  induction h as [|b h IH]; simpl.
  - rewrite orb_false_r. intros H. rewrite orb_false_r.
    by apply (prefix_lower n "").
  - intros [H|H]%orb_true_iff; apply orb_true_iff.
    + left. by apply (prefix_lower n (String b h)).
    + right. by apply IH.
Qed.

Lemma prefix_trans (a b c : string) :
  String.prefix a b = true -> String.prefix b c = true ->
  String.prefix a c = true.
Proof.
  revert b c. induction a as [|x a IH]; intros b c; [by destruct c|].
  destruct b as [|y b]; [done|]. destruct c as [|z c]; [done|]. simpl.
  destruct (Ascii.ascii_dec x y) as [->|]; [|done].
  destruct (Ascii.ascii_dec y z) as [->|]; [|done].
  destruct (Ascii.ascii_dec z z); [|done]. apply IH.
Qed.

Lemma contains_prefix (a b c : string) :
  PyStr.contains a b = true -> String.prefix b c = true ->
  PyStr.contains a c = true.
Proof.
  revert c. induction b as [|y b IH]; intros c.
  - simpl. rewrite orb_false_r. intros Ha _.
    destruct a; [|done]. by destruct c.
  - destruct c as [|z c]; [done|]. simpl.
    destruct (Ascii.ascii_dec y z) as [->|]; [|done].
    intros [H|H]%orb_true_iff Hp; apply orb_true_iff.
    + left. apply (prefix_trans a (String z b) (String z c)); [done|].
      simpl. by destruct (Ascii.ascii_dec z z).
    + right. by apply IH.
Qed.

Lemma contains_trans (a b c : string) :
  PyStr.contains a b = true -> PyStr.contains b c = true ->
  PyStr.contains a c = true.
Proof.
  intros Hab. induction c as [|z c IH]; simpl.
  - rewrite orb_false_r. intros H. by apply (contains_prefix a b "").
  - intros [H|H]%orb_true_iff.
    + by apply (contains_prefix a b (String z c)).
    + apply orb_true_iff. right. by apply IH.
Qed.

(** A line that holds "Encryption key:" holds "on" once it is in lower
    case: the word "encryption" ends with it. *)
Lemma encryption_holds_on (line : string) :
  PyStr.contains "Encryption key:" line = true ->
  PyStr.contains "on" (PyStr.lower line) = true.
Proof.
  intros H. apply contains_trans with (b := "encryption key:"); [done|].
  by apply (contains_lower "Encryption key:" line).
Qed.

End Text.

Section Scanning.

Import ConnectionManager.

Lemma flush_reported (networks : list Network.t) (current : Network.t) :
  Forall reported networks ->
  Network.encrypted current <> Some false ->
  Forall reported (flush networks current).
Proof.
  intros Hn Hc. unfold flush.
  destruct (Network.truthy current) eqn:Ht; [|done].
  apply Forall_app. split; [done|]. by repeat constructor.
Qed.

Lemma flush_length (networks : list Network.t) (current : Network.t) :
  (length (flush networks current) <= S (length networks))%nat.
Proof.
  unfold flush. destruct (Network.truthy current); [|lia].
  rewrite length_app. simpl. lia.
Qed.

(** The loop keeps what was collected well formed, and collects at most
    one entry for each line that opens a cell, and one at the end. *)
Lemma scan_loop_reported {St} (lines : list string) :
  forall (networks : list Network.t) (current : Network.t) (s s' : St)
         (nets : list Network.t),
    scan_loop lines networks current s = (Returned nets, s') ->
    Forall reported networks ->
    Network.encrypted current <> Some false ->
    Forall reported nets
    /\ (length nets <= length networks + S (cells lines))%nat.
Proof.
  induction lines as [|line rest IH]; intros networks current s s' nets.
  - simpl. intros [= <- <-] Hn Hc. split; [by apply flush_reported|].
    pose proof (flush_length networks current).
    change (cells []) with 0%nat. lia.
  - assert (cells (line :: rest)
            = ((if PyStr.contains "Cell" (PyStr.strip line) then 1 else 0)
               + cells rest)%nat) as ->.
    { unfold cells. simpl. by destruct (PyStr.contains _ _). }
    simpl.
    destruct (PyStr.contains "Cell" (PyStr.strip line)) eqn:Hcell.
    { intros H Hn Hc.
      apply IH in H as [H1 H2]; [|by apply flush_reported|done].
      split; [done|]. pose proof (flush_length networks current). lia. }
    destruct (PyStr.contains "ESSID:" (PyStr.strip line)).
    { destruct (PyStr.split_on PyStr.dquote (PyStr.strip line))
        as [|? [|essid ?]]; try done.
      intros H Hn Hc. by apply IH in H. }
    destruct (PyStr.contains "Quality=" (PyStr.strip line)).
    { destruct (PyStr.split_on "=" (PyStr.strip line))
        as [|? [|after ?]]; try done.
      destruct (PyStr.split after) as [|quality ?]; try done.
      intros H Hn Hc. by apply IH in H. }
    destruct (PyStr.contains "Encryption key:" (PyStr.strip line)) eqn:He.
    { rewrite (encryption_holds_on _ He).
      intros H Hn Hc. by apply IH in H. }
    destruct (PyStr.contains "IE: IEEE 802.11i/WPA2" (PyStr.strip line)).
    { intros H Hn Hc. by apply IH in H. }
    destruct (PyStr.contains "IE: WPA Version" (PyStr.strip line)).
    { intros H Hn Hc. by apply IH in H. }
    intros H Hn Hc. by apply IH in H.
Qed.

(** The loop changes nothing outside its two variables, and what it
    raises is [IndexError]. *)
Lemma scan_loop_state {St} (lines : list string) :
  forall (networks : list Network.t) (current : Network.t) (s : St),
    snd (scan_loop lines networks current s) = s
    /\ forall e, fst (scan_loop lines networks current s) = Raised e ->
                 e = IndexError.
Proof.
  induction lines as [|line rest IH]; intros networks current s.
  - done.
  - simpl. repeat case_match; try apply IH; by split; [|intros ? [= <-]].
Qed.

(** X5. Every entry [scan_networks] returns has at least one key: a
    cell none of whose lines is recognised is dropped. And every entry
    that has the key "encrypted" has it set to [True]: the value is
    whether "on" occurs in the lower-cased line, and the line holds the
    word "Encryption", so that "Encryption key:off" gives [True] too. *)
Theorem scan_networks_reported (o : t) (w : world)
    (nets : list Network.t) (st : t * world) :
  scan_networks (o, w) = (Returned nets, st) ->
  Forall (fun n => Network.truthy n = true
                   /\ Network.encrypted n <> Some false) nets.
Proof.
  unfold scan_networks. py_unfold.
  destruct (run true _ w) as [[res|e] w1]; simpl.
  - destruct (scan_loop _ _ _ _) as [[nets'|e] s'] eqn:H; simpl.
    + intros [= <- <-].
      by destruct (scan_loop_reported _ _ _ _ _ _ H) as [H1 _];
        [constructor|..].
    + destruct (is_CalledProcessError e); [|done].
      intros [= <- <-]. constructor.
  - destruct (is_CalledProcessError e); [|done].
    intros [= <- <-]. constructor.
Qed.

(** The scan of two cells, the first an open network: both are returned
    as encrypted. *)
Lemma scan_networks_reported_witness :
  let s := (init "wlan0", Fixtures.printing Fixtures.two_cells) in
  let nets :=
    [Network.Make (Some "Cafe") (Some "70/70") (Some true) None;
     Network.Make (Some "Home") (Some "40/70") (Some true) (Some "WPA2")] in
  scan_networks s = (Returned nets, snd (scan_networks s))
  /\ Forall (fun n => Network.truthy n = true
                      /\ Network.encrypted n <> Some false) nets.
Proof.
  intros s nets. split; [vm_compute; reflexivity|].
  apply (scan_networks_reported (init "wlan0")
           (Fixtures.printing Fixtures.two_cells) nets
           (snd (scan_networks s))).
  vm_compute. reflexivity.
Defined.

(** X6. [scan_networks] runs [iwlist <interface> scan] and nothing else,
    and leaves the manager as it is. When iwlist exits with a status
    other than 0 the result is the empty list. When it exits with 0, the
    method returns at most one entry for each line that holds "Cell" and
    one more, or it raises [IndexError]: a line with "ESSID:" and no
    double quote, or with "Quality=" and nothing after it, is not
    caught. When iwlist cannot be started the [OSError] escapes. *)
Theorem scan_networks_cases (o : t) (w : world)
    (r : outcome (list Network.t)) (st : t * world) :
  scan_networks (o, w) = (r, st) ->
  let cmd := ["iwlist"; interface o; "scan"] in
  st = (o, log_command cmd w)
  /\ match respond w (executed w) cmd with
     | CannotStart err => r = Raised (OSError err)
     | Exits res =>
         if returncode res =? 0 then
           match r with
           | Returned nets =>
               (length nets <= S (cells (PyStr.splitlines (stdout res))))%nat
           | Raised e => e = IndexError
           end
         else r = Returned []
     end.
Proof.
  unfold scan_networks. py_unfold. unfold run.
  destruct (respond w (executed w) _) as [res|err]; simpl.
  2:{ by intros [= <- <-]. }
  destruct (returncode res =? 0) eqn:Hrc; simpl.
  2:{ by intros [= <- <-]. }
  pose proof (scan_loop_state (PyStr.splitlines (stdout res)) []
                Network.empty
                (o, log_command ["iwlist"; interface o; "scan"] w))
    as [Hs He].
  destruct (scan_loop _ _ _ _) as [[nets|e] s'] eqn:H; simpl in *.
  - intros [= <- <-]. split; [done|].
    by destruct (scan_loop_reported _ _ _ _ _ _ H) as [_ H1];
      [constructor|..].
  - rewrite (He e eq_refl). simpl. by intros [= <- <-].
Qed.

(** A scan that iwlist refuses (the interface is down): no network. *)
Lemma scan_networks_cases_witness :
  let o := init "wlan0" in
  let cmd := ["iwlist"; "wlan0"; "scan"] in
  let w := Fixtures.failing cmd 255 in
  let r : outcome (list Network.t) := Returned [] in
  scan_networks (o, w) = (r, (o, log_command cmd w))
  /\ (o, log_command cmd w) = (o, log_command cmd w)
  /\ match respond w (executed w) cmd with
     | CannotStart err => r = Raised (OSError err)
     | Exits res =>
         if returncode res =? 0 then
           match r with
           | Returned nets =>
               (length nets <= S (cells (PyStr.splitlines (stdout res))))%nat
           | Raised e => e = IndexError
           end
         else r = Returned []
     end.
Proof.
  intros o cmd w r. split; [reflexivity|].
  apply (scan_networks_cases o w r (o, log_command cmd w)).
  reflexivity.
Defined.

(** A line that names the network and has no double quote ends the scan
    with [IndexError]. *)
Example scan_networks_raises :
  fst (scan_networks
         (init "wlan0",
          Fixtures.printing
            (PyStr.join_lines ["   Cell 01 - Address: AA"; "   ESSID:off"])))
  = Raised IndexError.
Proof. vm_compute. reflexivity. Qed.

End Scanning.

Section Connection.

Import ConnectionManager.

(** X7. [is_connected] never changes the manager. It returns the flag
    "connected" of the dictionary the detector gave. For an interface
    the detector does not list the dictionary is empty, and the call
    raises [KeyError] without running a command: reading
    [status["connected"]] in [get_connection_status] comes before the
    [status.get("connected", False)] of [is_connected], whose default is
    never used. *)
Theorem is_connected_cases (o : t) (w : world) (r : outcome bool)
    (st : t * world) :
  is_connected (o, w) = (r, st) ->
  fst st = o
  /\ (detector w (executed w) (interface o) = EmptyDict ->
      r = Raised (KeyError "connected") /\ snd st = w)
  /\ (forall b, r = Returned b ->
        exists s, detector w (executed w) (interface o) = Dict s
                  /\ connected s = b).
Proof.
  intros H. split; [|split].
  - revert H. unfold is_connected. py_unfold.
    destruct (get_connection_status_cases o w)
      as [(e & w' & ->)|(s0 & s & w' & _ & -> & _)];
      by intros [= <- <-].
  - intros Hd. revert H.
    unfold is_connected, get_connection_status, get_interface_status.
    py_unfold. rewrite Hd. simpl. by intros [= <- <-].
  - intros b ->. revert H. unfold is_connected. py_unfold.
    destruct (get_connection_status_cases o w)
      as [(e & w' & ->)|(s0 & s & w' & Hd & -> & Hc & _)]; [done|].
    intros [= <- <-]. eauto.
Qed.

Lemma is_connected_cases_witness :
  let o := init "wlan9" in
  let w := Fixtures.quiet in
  let r : outcome bool := Raised (KeyError "connected") in
  is_connected (o, w) = (r, (o, w))
  /\ fst (o, w) = o
  /\ (detector w (executed w) (interface o) = EmptyDict ->
      r = Raised (KeyError "connected") /\ snd (o, w) = w)
  /\ (forall b, r = Returned b ->
        exists s, detector w (executed w) (interface o) = Dict s
                  /\ connected s = b).
Proof.
  intros o w r. split; [reflexivity|].
  apply (is_connected_cases o w r (o, w)). reflexivity.
Defined.

(** X8. The ways [disconnect] returns. It returns success after
    [killall wpa_supplicant] and [dhclient -r <interface>] both exited
    with status 0, and [current_connection] is then [None]. When killall
    exits with another status, as it does when no wpa_supplicant runs,
    the lease is not released; in both failures the manager, and so
    [current_connection], is what it was. *)
Theorem disconnect_cases (o o' : t) (w w' : world) (ok : bool)
    (msg : message) :
  disconnect (o, w) = (Returned (ok, msg), (o', w')) ->
  let killall := ["killall"; "wpa_supplicant"] in
  let release := ["dhclient"; "-r"; interface o] in
  (ok = true /\ o' = set_current_connection None o
   /\ w' = log_commands [killall; release] w)
  \/ (ok = false /\ o' = o
      /\ exists rc,
           rc <> 0
           /\ (w' = log_commands [killall] w
               /\ msg = [StrOf (CalledProcessError killall rc)]
               \/ w' = log_commands [killall; release] w
                  /\ msg = [StrOf (CalledProcessError release rc)])).
Proof.
  unfold disconnect. py_unfold. unfold run at 1.
  destruct (respond w (executed w) _) as [r1|err1]; simpl; [|done].
  destruct (returncode r1 =? 0) eqn:H1; simpl.
  2:{ intros [= <- <- <- <-]. right. split; [done|]. split; [done|].
      exists (returncode r1). split; [by apply Z.eqb_neq|]. by left. }
  unfold run at 1.
  destruct (respond (log_command _ w) _ _) as [r2|err2]; simpl; [|done].
  destruct (returncode r2 =? 0) eqn:H2; simpl.
  2:{ intros [= <- <- <- <-]. right. split; [done|]. split; [done|].
      exists (returncode r2). split; [by apply Z.eqb_neq|]. by right. }
  intros [= <- <- <- <-]. by left.
Qed.

(** No wpa_supplicant runs: killall exits with 1, the snapshot of the
    connection stays. *)
Lemma disconnect_cases_witness :
  let s := Status true true (Some "Home") (Some "192.168.1.100")
             (Some "Managed") None None in
  let o := Make "wlan0" (Some s) in
  let killall := ["killall"; "wpa_supplicant"] in
  let release := ["dhclient"; "-r"; "wlan0"] in
  let w := Fixtures.failing killall 1 in
  let msg := [StrOf (CalledProcessError killall 1)] in
  disconnect (o, w) = (Returned (false, msg), (o, log_commands [killall] w))
  /\ ((false = true /\ o = set_current_connection None o
       /\ log_commands [killall] w = log_commands [killall; release] w)
      \/ (false = false /\ o = o
          /\ exists rc,
               rc <> 0
               /\ (log_commands [killall] w = log_commands [killall] w
                   /\ msg = [StrOf (CalledProcessError killall rc)]
                   \/ log_commands [killall] w
                      = log_commands [killall; release] w
                      /\ msg = [StrOf (CalledProcessError release rc)]))).
Proof.
  intros s o killall release w msg. split; [reflexivity|].
  apply (disconnect_cases o o w (log_commands [killall] w) false msg).
  reflexivity.
Defined.

End Connection.

(* ===================================================================== *)
(** ** APService: the configuration files *)
(* ===================================================================== *)

Section AccessPointFiles.

Import APService.







End AccessPointFiles.

(* ===================================================================== *)
(** ** BridgeService: the status, and what start and stop leave behind *)
(* ===================================================================== *)

Section BridgeStatus.

Import BridgeService.

(** What [get_bridge_status] returns, by the file that holds the
    forwarding switch. *)
Lemma get_bridge_status_spec (o : t) (w : world) :
  exists s w',
    get_bridge_status (o, w) = (Returned s, (o, w'))
    /\ files w' = files w
    /\ Status.running s = is_running o
    /\ Status.bridge_interface s = bridge_name o
    /\ Status.upstream_interface s = upstream_interface o
    /\ Status.ap_interface s = ap_interface o
    /\ Status.forwarding_enabled s
       = match files w !! ip_forward with
         | Some text => String.eqb (PyStr.strip text) "1"
         | None => false
         end
    /\ (files w !! ip_forward = None ->
        w' = w /\ Status.nat_enabled s = false
        /\ Status.bridge_active s = None).
Proof.
  unfold get_bridge_status, with_local, read_file. py_unfold.
  destruct (files w !! ip_forward) as [text|] eqn:Hf; simpl.
  2:{ eexists _, _. split; [reflexivity|]. simpl. done. }
  unfold run at 1.
  destruct (respond w (executed w) _) as [r1|err1]; simpl.
  2:{ eexists _, _. split; [reflexivity|]. simpl. done. }
  unfold run at 1.
  destruct (respond (log_command _ w) _ _) as [r2|err2]; simpl.
  2:{ eexists _, _. split; [reflexivity|]. simpl. done. }
  eexists _, _. split; [reflexivity|]. simpl. done.
Qed.

(** X11. [get_bridge_status] always returns a dictionary, whatever the
    commands and the file do: every exception is caught. It changes
    neither the object nor any file, and the keys "running",
    "bridge_interface", "upstream_interface" and "ap_interface" are the
    fields of the object. When the file of the forwarding switch cannot
    be read, no command is run, forwarding and NAT are reported disabled
    and the key "bridge_active" is missing. *)
Theorem get_bridge_status_returns (o : t) (w : world) :
  exists s w',
    get_bridge_status (o, w) = (Returned s, (o, w'))
    /\ files w' = files w
    /\ Status.running s = is_running o
    /\ Status.bridge_interface s = bridge_name o
    /\ Status.upstream_interface s = upstream_interface o
    /\ Status.ap_interface s = ap_interface o
    /\ (files w !! ip_forward = None ->
        w' = w /\ Status.forwarding_enabled s = false
        /\ Status.nat_enabled s = false
        /\ Status.bridge_active s = None).
Proof.
  destruct (get_bridge_status_spec o w)
    as (s & w' & E & Hf & H1 & H2 & H3 & H4 & H5 & H6).
  exists s, w'. repeat (split; [done|]). intros Hnone.
  destruct (H6 Hnone) as (-> & ? & ?). rewrite Hnone in H5. done.
Qed.

Lemma install_loop_files (rs : list command) :
  forall (o o' : t) (w w' : world) (r : outcome unit),
    for_each rs install_rule (o, w) = (r, (o', w')) ->
    files w' = files w
    /\ is_running o' = is_running o
    /\ rules o' = rules o
    /\ (r = Returned tt -> _iptables_rules o' = _iptables_rules o ++ rs).
Proof.
  induction rs as [|rule rs IH]; intros o o' w w' r.
  - simpl. intros [= <- <- <-]. by rewrite app_nil_r.
  - simpl. unfold bind. unfold install_rule at 1. py_unfold.
    step_run; [|by intros [= <- <- <-]].
    intros H. apply IH in H as (Hf & Hr & Hn & Hrules). simpl in *.
    split; [done|]. split; [done|]. split; [done|]. intros Hret.
    rewrite (Hrules Hret). by rewrite <- app_assoc.
Qed.

Lemma setup_bridge_files (o o' : t) (w w' : world)
    (r : outcome (bool * message)) :
  setup_bridge (o, w) = (r, (o', w')) -> o' = o /\ files w' = files w.
Proof.
  unfold setup_bridge. py_unfold.
  step_run; [|destruct (is_CalledProcessError e); by intros [= <- <- <-]].
  step_run; [|destruct (is_CalledProcessError e); by intros [= <- <- <-]].
  step_run; [|destruct (is_CalledProcessError e); by intros [= <- <- <-]].
  by intros [= <- <- <-].
Qed.

Lemma cleanup_bridge_files (o o' : t) (w w' : world) (r : outcome unit) :
  cleanup_bridge (o, w) = (r, (o', w')) -> o' = o /\ files w' = files w.
Proof.
  unfold cleanup_bridge. py_unfold.
  step_run; [|destruct (is_CalledProcessError e); by intros [= <- <- <-]].
  step_run; [|destruct (is_CalledProcessError e); by intros [= <- <- <-]].
  by intros [= <- <- <-].
Qed.

Lemma setup_routing_state (o o' : t) (w w' : world) (ok : bool)
    (msg : message) :
  setup_routing (o, w) = (Returned (ok, msg), (o', w')) ->
  is_running o' = is_running o
  /\ rules o' = rules o
  /\ (ok = true ->
      _iptables_rules o' = _iptables_rules o ++ rules o
      /\ files w' = <[ip_forward := "1"]> (files w)).
Proof.
  unfold setup_routing, write_file. py_unfold.
  destruct (writable w ip_forward); [|by intros [= <- <- <- <-]].
  destruct (for_each (rules o) install_rule _) as [[[]|e] [o1 w1]] eqn:Hl;
    apply install_loop_files in Hl as (Hf & Hr & Hn & Hrules);
    intros [= <- <- <- <-]; [|done].
  split; [done|]. split; [done|]. intros _. split; [by apply Hrules|done].
Qed.

Lemma bridge_start_state (o o' : t) (w w' : world) (msg : message) :
  start (o, w) = (Returned (true, msg), (o', w')) ->
  is_running o' = true
  /\ rules o' = rules o
  /\ _iptables_rules o' = _iptables_rules o ++ rules o
  /\ files w' = <[ip_forward := "1"]> (files w).
Proof.
  unfold start. py_unfold.
  destruct (setup_bridge (o, w)) as [[[b1 m1]|e1] [o1 w1]] eqn:Hb;
    apply setup_bridge_files in Hb as [-> Hf1].
  2:{ simpl. by destruct (stop _) as [[?|?] ?]. }
  destruct b1; simpl; [|done].
  destruct (setup_routing (o, w1)) as [[[b2 m2]|e2] [o2 w2]] eqn:Hr.
  2:{ simpl. by destruct (stop _) as [[?|?] ?]. }
  apply setup_routing_state in Hr as (Hrun & Hn & Hok).
  destruct b2; simpl.
  - intros [= <- <- <-]. destruct (Hok eq_refl) as [Hrules Hf2].
    simpl. split; [done|]. split; [done|]. split; [done|].
    by rewrite Hf2, Hf1.
  - destruct (cleanup_bridge (o2, w2)) as [[[]|e3] [o3 w3]]; simpl; [done|].
    by destruct (stop _) as [[?|?] ?].
Qed.

(** X12. After [start] returned success, [get_bridge_status] reports the
    bridge running and IP forwarding enabled: the "1" that
    [setup_routing] wrote is what the status reads back. *)
Theorem status_after_start (o : t) (w : world) (msg : message)
    (st : t * world) :
  start (o, w) = (Returned (true, msg), st) ->
  exists s st',
    get_bridge_status st = (Returned s, st')
    /\ Status.running s = true
    /\ Status.forwarding_enabled s = true.
Proof.
  destruct st as [o' w']. intros H.
  apply bridge_start_state in H as (Hrun & _ & _ & Hf).
  destruct (get_bridge_status_spec o' w')
    as (s & w2 & E & _ & H1 & _ & _ & _ & H5 & _).
  exists s, (o', w2). split; [done|]. split; [congruence|].
  rewrite H5, Hf, lookup_insert. by destruct (decide _).
Qed.

Lemma status_after_start_witness :
  let o := init "wlan0" "wlan0_ap0" in
  let w := Fixtures.quiet in
  let msg := [Lit "Bridge and routing started successfully"] in
  let st := snd (start (o, w)) in
  start (o, w) = (Returned (true, msg), st)
  /\ exists s st',
       get_bridge_status st = (Returned s, st')
       /\ Status.running s = true
       /\ Status.forwarding_enabled s = true.
Proof.
  intros o w msg st. split; [vm_compute; reflexivity|].
  apply (status_after_start o w msg st). vm_compute. reflexivity.
Defined.

Lemma removal_loop_files (rs : list command) :
  forall (o o' : t) (w w' : world) (r : outcome unit),
    for_each rs remove_rule (o, w) = (r, (o', w')) ->
    o' = o /\ files w' = files w /\ writable w' = writable w.
Proof.
  induction rs as [|rule rs IH]; intros o o' w w' r.
  - simpl. by intros [= <- <- <-].
  - simpl. unfold bind. unfold remove_rule at 1, delete_rule. py_unfold.
    destruct (decide (3 < length rule)%nat); [|by intros [= <- <- <-]].
    step_run; [|by intros [= <- <- <-]].
    intros H. by apply IH in H as (-> & -> & ->).
Qed.

Lemma bridge_stop_state (o o' : t) (w w' : world) (msg : message) :
  stop (o, w) = (Returned (true, msg), (o', w')) ->
  is_running o' = false
  /\ _iptables_rules o' = []
  /\ files w' = <[ip_forward := "0"]> (files w).
Proof.
  unfold stop. py_unfold.
  destruct (for_each _ remove_rule _) as [[[]|e] [o1 w1]] eqn:Hl;
    apply removal_loop_files in Hl as (-> & Hf & Hw); [|done].
  unfold write_file. destruct (writable w1 ip_forward); [|done].
  destruct (cleanup_bridge _) as [[[]|e] [o2 w2]] eqn:Hc;
    apply cleanup_bridge_files in Hc as [-> Hf2]; [|done].
  intros [= <- <- <-]. simpl. split; [done|]. split; [done|].
  rewrite Hf2. simpl. by rewrite Hf.
Qed.

(** X13. After [stop] returned success, [get_bridge_status] reports the
    bridge not running and IP forwarding disabled: the status reads back
    the "0" that [stop] wrote. *)
Theorem status_after_stop (o : t) (w : world) (msg : message)
    (st : t * world) :
  stop (o, w) = (Returned (true, msg), st) ->
  exists s st',
    get_bridge_status st = (Returned s, st')
    /\ Status.running s = false
    /\ Status.forwarding_enabled s = false.
Proof.
  destruct st as [o' w']. intros H.
  apply bridge_stop_state in H as (Hrun & _ & Hf).
  destruct (get_bridge_status_spec o' w')
    as (s & w2 & E & _ & H1 & _ & _ & _ & H5 & _).
  exists s, (o', w2). split; [done|]. split; [congruence|].
  rewrite H5, Hf, lookup_insert. by destruct (decide _).
Qed.

Lemma status_after_stop_witness :
  let o := Fixtures.routed in
  let w := Fixtures.quiet in
  let msg := [Lit "Bridge and routing stopped successfully"] in
  let st := snd (stop (o, w)) in
  stop (o, w) = (Returned (true, msg), st)
  /\ exists s st',
       get_bridge_status st = (Returned s, st')
       /\ Status.running s = false
       /\ Status.forwarding_enabled s = false.
Proof.
  intros o w msg st. split; [vm_compute; reflexivity|].
  apply (status_after_stop o w msg st). vm_compute. reflexivity.
Defined.

Lemma run_started (cmd : command) (w : world) :
  commands_start w ->
  (exists r, run true cmd w = (Returned r, log_command cmd w))
  \/ (exists rc,
        rc <> 0
        /\ run true cmd w
           = (Raised (CalledProcessError cmd rc), log_command cmd w)).
Proof.
  intros Hst. unfold run. destruct (Hst (executed w) cmd) as [r ->].
  simpl.
  destruct (returncode r =? 0) eqn:Hrc; simpl; [by eauto|].
  right. exists (returncode r). split; [by apply Z.eqb_neq|done].
Qed.

(** One command further on a machine where every command can be
    started: it returns, or it was checked and exited with a status other
    than 0. *)
Ltac step_started Hst :=
  match goal with
  | |- context [run false ?cmd ?w] =>
      let r := fresh "r" in
      let Hs := fresh "Hs" in
      assert (commands_start w) as Hs by (intros ? ?; apply Hst);
      destruct (run_unchecked cmd w Hs) as [r ->];
      clear Hs; cbv beta iota zeta
  | |- context [run true ?cmd ?w] =>
      let r := fresh "r" in
      let rc := fresh "rc" in
      let Hrc := fresh "Hrc" in
      let Hs := fresh "Hs" in
      assert (commands_start w) as Hs by (intros ? ?; apply Hst);
      destruct (run_started cmd w Hs) as [[r ->]|(rc & Hrc & ->)];
      clear Hs; cbv beta iota zeta
  end.

(** X14. A start that fails undoes the bridge and nothing else. On a
    machine where every command can be started, when [start] returns
    failure [is_running] is what it was, the rules whose installation
    succeeded before the failing one (at most two) are still on the
    stack, for a later [stop] to remove, and the forwarding switch, if it
    was written, still holds "1". *)
Theorem start_failure_keeps_rules (o o' : t) (w w' : world)
    (msg : message) :
  commands_start w ->
  start (o, w) = (Returned (false, msg), (o', w')) ->
  is_running o' = is_running o
  /\ (files w' = files w \/ files w' = <[ip_forward := "1"]> (files w))
  /\ exists k,
       (k < 3)%nat
       /\ _iptables_rules o' = _iptables_rules o ++ take k (rules o).
Proof.
  intros Hst. unfold start, setup_bridge, setup_routing, cleanup_bridge.
  unfold write_file. py_unfold.
  assert (_iptables_rules o = _iptables_rules o ++ take 0 (rules o)) as H0
    by (by rewrite app_nil_r).
  step_started Hst; [|intros [= <- <- <-]; eauto 10 with lia].
  step_started Hst; [|intros [= <- <- <-]; eauto 10 with lia].
  step_started Hst; [|intros [= <- <- <-]; eauto 10 with lia].
  simpl. destruct (writable w ip_forward); simpl.
  2:{ step_started Hst. step_started Hst.
      intros [= <- <- <-]. eauto 10 with lia. }
  unfold install_rule. py_unfold.
  step_started Hst.
  2:{ simpl. step_started Hst. step_started Hst.
      intros [= <- <- <-]. simpl. eauto 10 with lia. }
  step_started Hst.
  2:{ simpl. step_started Hst. step_started Hst.
      intros [= <- <- <-]. simpl. split; [done|]. split; [by right|].
      exists 1%nat. split; [lia|done]. }
  step_started Hst.
  2:{ simpl. step_started Hst. step_started Hst.
      intros [= <- <- <-]. simpl. split; [done|]. split; [by right|].
      exists 2%nat. split; [lia|]. by rewrite <- app_assoc. }
  simpl. done.
Qed.

(** The second rule cannot be installed: the NAT rule stays on the
    stack and forwarding stays enabled. *)
Lemma start_failure_keeps_rules_witness :
  let o := init "wlan0" "wlan0_ap0" in
  let bad := ["iptables"; "-A"; "FORWARD"; "-i"; "wlan0_ap0"; "-o"; "wlan0";
              "-j"; "ACCEPT"] in
  let w := Fixtures.failing bad 2 in
  let msg := [Lit "Routing setup failed: ";
              StrOf (CalledProcessError bad 2)] in
  let o' := fst (snd (start (o, w))) in
  let w' := snd (snd (start (o, w))) in
  commands_start w
  /\ start (o, w) = (Returned (false, msg), (o', w'))
  /\ _iptables_rules o' = take 1 (rules o)
  /\ files w' !! ip_forward = Some "1"
  /\ is_running o' = is_running o
  /\ (files w' = files w \/ files w' = <[ip_forward := "1"]> (files w))
  /\ exists k,
       (k < 3)%nat
       /\ _iptables_rules o' = _iptables_rules o ++ take k (rules o).
Proof.
  intros o bad w msg o' w'.
  assert (commands_start w) as Hst.
  { intros h c. simpl. destruct (decide (c = bad)); eexists; reflexivity. }
  split; [exact Hst|]. split; [vm_compute; reflexivity|].
  split; [vm_compute; reflexivity|]. split; [vm_compute; reflexivity|].
  apply (start_failure_keeps_rules o o' w w' msg Hst).
  vm_compute. reflexivity.
Defined.

(** X15. The commands [stop] runs for the three rules [setup_routing]
    installs. The fourth word of a rule is replaced by "-D". For the NAT
    rule that word is "-A" and the command deletes the rule. For the two
    FORWARD rules it is "-i": the command that is run still says "-A",
    with "-D" where "-i" stood, and no command deletes a FORWARD rule. *)
Theorem stop_commands_for_installed_rules (o : t) (w : world) :
  commands_start w ->
  writable w ip_forward = true ->
  _iptables_rules o = rules o ->
  exists o' w',
    stop (o, w)
    = (Returned (true, [Lit "Bridge and routing stopped successfully"]),
       (o', w'))
    /\ executed w'
       = executed w
         ++ [["iptables"; "-A"; "FORWARD"; "-D"; upstream_interface o; "-o";
              ap_interface o; "-m"; "state"; "--state";
              "RELATED,ESTABLISHED"; "-j"; "ACCEPT"];
             ["iptables"; "-A"; "FORWARD"; "-D"; ap_interface o; "-o";
              upstream_interface o; "-j"; "ACCEPT"];
             ["iptables"; "-t"; "nat"; "-D"; "POSTROUTING"; "-o";
              upstream_interface o; "-j"; "MASQUERADE"];
             ["ip"; "link"; "set"; ap_interface o; "nomaster"];
             ["ip"; "link"; "delete"; bridge_name o; "type"; "bridge"]].
Proof.
  intros Hst Hw Hrules. unfold stop, write_file. py_unfold.
  rewrite Hrules.
  rewrite (removal_loop (rev (rules o)) o w);
    [|apply Forall_rev, rules_long|done].
  cbv beta iota zeta. rewrite writable_log_commands, Hw.
  match goal with
  | |- context [cleanup_bridge (?o1, ?w1)] =>
      rewrite (cleanup_bridge_runs o1 w1)
        by (intros h c; simpl; rewrite ?respond_log_commands; apply Hst)
  end.
  eexists _, _. split; [reflexivity|].
  rewrite executed_log_commands. simpl.
  rewrite ?executed_log_commands. simpl. by rewrite <- ?app_assoc.
Qed.

Lemma stop_commands_for_installed_rules_witness :
  let o := Fixtures.routed in
  let w := Fixtures.quiet in
  exists o' w',
    stop (o, w)
    = (Returned (true, [Lit "Bridge and routing stopped successfully"]),
       (o', w'))
    /\ executed w'
       = executed w
         ++ [["iptables"; "-A"; "FORWARD"; "-D"; upstream_interface o; "-o";
              ap_interface o; "-m"; "state"; "--state";
              "RELATED,ESTABLISHED"; "-j"; "ACCEPT"];
             ["iptables"; "-A"; "FORWARD"; "-D"; ap_interface o; "-o";
              upstream_interface o; "-j"; "ACCEPT"];
             ["iptables"; "-t"; "nat"; "-D"; "POSTROUTING"; "-o";
              upstream_interface o; "-j"; "MASQUERADE"];
             ["ip"; "link"; "set"; ap_interface o; "nomaster"];
             ["ip"; "link"; "delete"; bridge_name o; "type"; "bridge"]].
Proof.
  intros o w. apply (stop_commands_for_installed_rules o w).
  - intros h c. eexists. reflexivity.
  - reflexivity.
  - reflexivity.
Defined.

(** X16. [start] appends its three rules to the stack whatever the
    stack holds: after two starts that returned success, with no stop in
    between, every rule is on the stack twice. *)
Theorem start_twice_doubles_rules (o o1 o2 : t) (w w1 w2 : world)
    (m1 m2 : message) :
  start (o, w) = (Returned (true, m1), (o1, w1)) ->
  start (o1, w1) = (Returned (true, m2), (o2, w2)) ->
  _iptables_rules o2 = _iptables_rules o ++ rules o ++ rules o.
Proof.
  intros (_ & Hn1 & Hr1 & _)%bridge_start_state.
  intros (_ & _ & Hr2 & _)%bridge_start_state.
  by rewrite Hr2, Hr1, Hn1, <- app_assoc.
Qed.

Lemma start_twice_doubles_rules_witness :
  let o := init "wlan0" "wlan0_ap0" in
  let w := Fixtures.quiet in
  let msg := [Lit "Bridge and routing started successfully"] in
  let s1 := snd (start (o, w)) in
  let s2 := snd (start s1) in
  start (o, w) = (Returned (true, msg), s1)
  /\ start s1 = (Returned (true, msg), s2)
  /\ _iptables_rules (fst s2) = _iptables_rules o ++ rules o ++ rules o.
Proof.
  intros o w msg s1 s2.
  assert (start (o, w) = (Returned (true, msg), (fst s1, snd s1))) as H1
    by (vm_compute; reflexivity).
  assert (start (fst s1, snd s1) = (Returned (true, msg), (fst s2, snd s2)))
    as H2 by (vm_compute; reflexivity).
  split; [vm_compute; reflexivity|]. split; [vm_compute; reflexivity|].
  exact (start_twice_doubles_rules o (fst s1) (fst s2) w (snd s1) (snd s2)
           msg msg H1 H2).
Defined.

End BridgeStatus.

(* ===================================================================== *)
(** ** WiFiDetector: the table of interfaces *)
(* ===================================================================== *)

Section Detector.

Import WiFiDetector.

Lemma dict_set_keys {V} (k : string) (v : V) (l : list (string * V))
    (x : string) :
  x ∈ (dict_set k v l).*1 -> x = k \/ x ∈ l.*1.
Proof.
  induction l as [|[k' v'] l IH]; simpl.
  - intros ->%list_elem_of_singleton. by left.
  - destruct (String.eqb_spec k' k) as [->|Hne]; simpl.
    + intros [->|H]%elem_of_cons; [by left|]. right. by right.
    + intros [->|H]%elem_of_cons; [right; by left|].
      destruct (IH H) as [->|?]; [by left|]. right. by right.
Qed.

Lemma dict_set_NoDup {V} (k : string) (v : V) (l : list (string * V)) :
  NoDup (l.*1) -> NoDup ((dict_set k v l).*1).
Proof.
  induction l as [|[k' v'] l IH]; simpl.
  - intros _. apply NoDup_singleton.
  - intros [Hk' Hl]%NoDup_cons.
    destruct (String.eqb_spec k' k) as [->|Hne]; simpl.
    + by apply NoDup_cons.
    + apply NoDup_cons. split; [|by apply IH].
      intros [->|H]%dict_set_keys; done.
Qed.

Lemma dict_set_but {V} (R : string * V -> Prop) (k : string) (v : V)
    (l : list (string * V)) :
  Forall (fun e => fst e = k \/ R e) l ->
  Forall (fun e => fst e = k \/ R e) (dict_set k v l).
Proof.
  induction l as [|[k' v'] l IH]; simpl.
  - intros _. apply Forall_cons. split; [by left|constructor].
  - intros [H Hl]%Forall_cons.
    destruct (String.eqb_spec k' k) as [->|Hne].
    + apply Forall_cons. split; [by left|done].
    + apply Forall_cons. split; [done|by apply IH].
Qed.

Lemma dict_set_all {V} (R : string * V -> Prop) (k : string) (v : V)
    (l : list (string * V)) :
  NoDup (l.*1) ->
  Forall (fun e => fst e = k \/ R e) l ->
  R (k, v) ->
  Forall R (dict_set k v l).
Proof.
  intros Hnd Hl Hv. induction l as [|[k' v'] l IH]; simpl.
  - by repeat constructor.
  - apply NoDup_cons in Hnd as [Hk' Hnd].
    apply Forall_cons in Hl as [H Hl].
    destruct (String.eqb_spec k' k) as [->|Hne].
    + apply Forall_cons. split; [done|].
      apply Forall_forall. intros [k1 v1] Hin.
      rewrite Forall_forall in Hl. destruct (Hl _ Hin) as [Hk|?]; [|done].
      simpl in Hk. subst k1. exfalso. apply Hk'.
      apply list_elem_of_fmap. by exists (k, v1).
    + apply Forall_cons. split; [|by apply IH].
      destruct H as [?|?]; [|done]. simpl in *. congruence.
Qed.

Lemma keeps_ret (Inv : t -> Prop) {A} (a : A) : keeps Inv (ret a).
Proof. by intros d h. Qed.

Lemma keeps_raise (Inv : t -> Prop) {A} (e : exn) :
  keeps Inv (raise (A := A) e).
Proof. by intros d h. Qed.

Lemma keeps_bind (Inv : t -> Prop) {A B} (m : Py (t * host) A)
    (k : A -> Py (t * host) B) :
  keeps Inv m -> (forall a, keeps Inv (k a)) -> keeps Inv (bind m k).
Proof.
  intros Hm Hk d h HI. unfold bind. specialize (Hm d h HI).
  destruct (m (d, h)) as [[a|e] [d1 h1]]; simpl in *; [|done].
  by apply Hk.
Qed.

Lemma keeps_try (Inv : t -> Prop) {A} (m : Py (t * host) A)
    (sel : exn -> bool) (handler : exn -> Py (t * host) A) :
  keeps Inv m -> (forall e, keeps Inv (handler e)) ->
  keeps Inv (try_except m sel handler).
Proof.
  intros Hm Hh d h HI. unfold try_except. specialize (Hm d h HI).
  destruct (m (d, h)) as [[a|e] [d1 h1]]; simpl in *; [done|].
  destruct (sel e); [|done]. by apply Hh.
Qed.

Lemma keeps_on_os (Inv : t -> Prop) {A} (m : Py world A) :
  keeps Inv (on_os m).
Proof. intros d h HI. unfold on_os. by destruct (m (os h)). Qed.

Lemma keeps_ifaddresses (Inv : t -> Prop) (interface : string) :
  keeps Inv (ifaddresses interface).
Proof.
  intros d h HI. unfold ifaddresses. by destruct (netifaces_ifaddresses _ _ _).
Qed.

(** The steps that leave the detector as it is. *)
Ltac keeps_step :=
  match goal with
  | |- keeps _ (mbind _ _) => unfold mbind, Py_bind
  | |- keeps _ (mret _) => unfold mret, Py_ret
  | |- keeps _ (bind _ _) => apply keeps_bind; [|intros ?]
  | |- keeps _ (try_except _ _ _) => apply keeps_try; [|intros ?]
  | |- keeps _ (ret _) => apply keeps_ret
  | |- keeps _ (raise _) => apply keeps_raise
  | |- keeps _ (on_os _) => apply keeps_on_os
  | |- keeps _ (ifaddresses _) => apply keeps_ifaddresses
  | |- keeps _ (item _ ?o) => unfold item; destruct o
  | |- keeps _ (first ?l) => unfold first; destruct l
  | |- keeps _ (if ?b then _ else _) => destruct b
  | |- keeps _ (match ?x with _ => _ end) => destruct x
  end.

Lemma keeps_is_wireless (Inv : t -> Prop) (interface : string) :
  keeps Inv (_is_wireless interface).
Proof. unfold _is_wireless. repeat keeps_step. Qed.

Lemma keeps_get_mac_address (Inv : t -> Prop) (interface : string) :
  keeps Inv (_get_mac_address interface).
Proof. unfold _get_mac_address. repeat keeps_step. Qed.

Lemma keeps_driver_of (Inv : t -> Prop) (lines : list string) :
  keeps Inv (driver_of lines).
Proof.
  induction lines as [|line rest IH]; simpl; repeat keeps_step; done.
Qed.

Lemma keeps_get_driver_info (Inv : t -> Prop) (interface : string) :
  keeps Inv (_get_driver_info interface).
Proof.
  unfold _get_driver_info. repeat keeps_step; apply keeps_driver_of.
Qed.

Lemma keeps_set_flag (interface : string) (f : info_dict -> info_dict) :
  keeps (plain_but interface) (set_flag interface f).
Proof.
  intros d h [Hnd Hall]. unfold set_flag, item. py_unfold.
  destruct (dict_get interface (interfaces d)) as [entry|]; simpl; [|done].
  split; [by apply dict_set_NoDup|by apply dict_set_but].
Qed.

Lemma keeps_mode_loop (interface : string) (lines : list string) :
  forall modes, keeps (plain_but interface) (mode_loop interface lines modes).
Proof.
  induction lines as [|line rest IH]; intros modes; simpl;
    repeat keeps_step; try apply keeps_set_flag; apply IH.
Qed.

Lemma keeps_capability_loop (interface : string) (all lines : list string) :
  forall modes,
    keeps (plain_but interface) (capability_loop interface all lines modes).
Proof.
  induction lines as [|line rest IH]; intros modes; simpl;
    repeat keeps_step; try apply keeps_mode_loop; apply IH.
Qed.

Lemma keeps_get_capabilities (interface : string) :
  keeps (plain_but interface) (_get_capabilities interface).
Proof.
  unfold _get_capabilities. repeat keeps_step.
  apply keeps_capability_loop.
Qed.

Lemma keeps_get_interface_info (interface : string) :
  keeps (plain_but interface) (_get_interface_info interface).
Proof.
  unfold _get_interface_info. repeat keeps_step.
  - apply keeps_get_mac_address.
  - apply keeps_get_driver_info.
  - apply keeps_get_capabilities.
Qed.

Lemma get_interface_info_flags (interface : string) (s s' : t * host)
    (info : info_dict) :
  _get_interface_info interface s = (Returned info, s') ->
  supports_ap info = false /\ supports_managed info = false.
Proof.
  unfold _get_interface_info. py_unfold.
  destruct (_get_mac_address interface s) as [[?|?] ?]; [|done].
  destruct (_get_driver_info interface _) as [[?|?] ?]; [|done].
  destruct (_get_capabilities interface _) as [[?|?] ?]; [|done].
  by intros [= <- <-].
Qed.

Lemma plain_plain_but (interface : string) (d : t) :
  plain d -> plain_but interface d.
Proof.
  intros [Hnd Hall]. split; [done|].
  eapply Forall_impl; [done|]. intros e He. by right.
Qed.

Lemma refresh_plain (interface : string) (d d' : t) (h h' : host) :
  refresh interface (d, h) = (Returned tt, (d', h')) ->
  plain d -> plain d'.
Proof.
  intros H Hd. revert H. unfold refresh. py_unfold.
  pose proof (keeps_is_wireless plain interface d h Hd) as H1.
  destruct (_is_wireless interface (d, h)) as [[b|e] [d1 h1]]; [|done].
  simpl in H1. destruct b; [|by intros [= <- <-]].
  pose proof (keeps_get_interface_info interface d1 h1
                (plain_plain_but interface d1 H1)) as H2.
  destruct (_get_interface_info interface (d1, h1))
    as [[info|e] [d2 h2]] eqn:Hi; [|done].
  apply get_interface_info_flags in Hi. simpl in H2. destruct H2 as [Hnd Hall].
  intros [= <- <-]. split; simpl.
  - by apply dict_set_NoDup.
  - by apply dict_set_all.
Qed.

Lemma refresh_loop_plain (names : list string) :
  forall (d d' : t) (h h' : host),
    for_each names refresh (d, h) = (Returned tt, (d', h')) ->
    plain d -> plain d'.
Proof.
  induction names as [|i names IH]; intros d d' h h'.
  - simpl. by intros [= <- <-].
  - simpl. unfold bind at 1.
    destruct (refresh i (d, h)) as [[[]|e] [d1 h1]] eqn:Hr; [|done].
    intros H Hd. apply (IH _ _ _ _ H). by apply (refresh_plain i d d1 h h1).
Qed.

Lemma plain_unsuitable (d : t) : plain d -> get_suitable_interfaces d = [].
Proof.
  intros [_ Hall]. unfold get_suitable_interfaces.
  induction (interfaces d) as [|e l IH]; [done|].
  apply Forall_cons in Hall as [[Ha Hm] Hall]. simpl.
  rewrite Ha. simpl. by apply IH.
Qed.

(** X17. A detector never finds a suitable interface. Whenever
    [refresh_interfaces], or the constructor, returns, no entry of the
    table has "supports_ap" or "supports_managed" set, and
    [get_suitable_interfaces] is the empty list: [_get_capabilities] sets
    the flags in the entry the table holds under the name, which does not
    exist yet or is the one about to be replaced, and the entry that is
    stored afterwards is the new dictionary, built with both flags
    [False]. *)
Theorem refresh_interfaces_finds_nothing (d d' : t) (h h' : host) :
  refresh_interfaces (d, h) = (Returned tt, (d', h'))
  \/ init (d, h) = (Returned tt, (d', h')) ->
  get_suitable_interfaces d' = [].
Proof.
  assert (refresh_interfaces (d, h) = (Returned tt, (d', h')) -> plain d')
    as Hr.
  { unfold refresh_interfaces, interfaces_now. py_unfold.
    intros H. apply refresh_loop_plain in H; [done|].
    split; simpl; constructor. }
  intros [H|H]; apply plain_unsuitable; [by apply Hr|].
  apply Hr. revert H. unfold init, refresh_interfaces. py_unfold. done.
Qed.

(** On a laptop whose iw lists no mode, the constructor returns, the
    table holds the wireless interface, and nothing is suitable. *)
Lemma refresh_interfaces_finds_nothing_witness :
  let h := Fixtures.laptop Fixtures.iw_info in
  let d' := fst (snd (init (Make [], h))) in
  let h' := snd (snd (init (Make [], h))) in
  init (Make [], h) = (Returned tt, (d', h'))
  /\ (interfaces d').*1 = ["wlan0"]
  /\ get_suitable_interfaces d' = [].
Proof.
  intros h d' h'. split; [vm_compute; reflexivity|].
  split; [vm_compute; reflexivity|].
  apply (refresh_interfaces_finds_nothing (Make []) d' h h').
  right. vm_compute. reflexivity.
Defined.

(** When iw lists the modes, with AP and managed among them, the
    constructor raises. *)
Example init_raises_on_a_capable_card :
  fst (init (Make [], Fixtures.laptop Fixtures.iw_info_modes))
  = Raised (KeyError "wlan0").
Proof. vm_compute. reflexivity. Qed.

Lemma set_flag_missing (interface : string) (f : info_dict -> info_dict)
    (d : t) (h : host) :
  dict_get interface (interfaces d) = None ->
  set_flag interface f (d, h) = (Raised (KeyError interface), (d, h)).
Proof. intros H. unfold set_flag, item. py_unfold. by rewrite H. Qed.

Lemma mode_loop_missing (interface : string) (lines : list string) :
  forall (modes : list string) (d : t) (h : host),
    dict_get interface (interfaces d) = None ->
    "AP" ∉ modes -> "managed" ∉ modes ->
    (exists ms, mode_loop interface lines modes (d, h)
                = (Returned ms, (d, h))
                /\ ("AP" ∉ ms) /\ ("managed" ∉ ms))
    \/ mode_loop interface lines modes (d, h)
       = (Raised (KeyError interface), (d, h)).
Proof.
  induction lines as [|line rest IH]; intros modes d h Hd Hap Hm; simpl.
  - left. by exists modes.
  - destruct (_ && _); [|by apply IH].
    set (mode := PyStr.strip _). py_unfold.
    destruct (String.eqb_spec mode "AP") as [E|Hne1].
    { rewrite set_flag_missing by done. by right. }
    destruct (String.eqb_spec mode "managed") as [E|Hne2].
    { rewrite set_flag_missing by done. by right. }
    apply IH; [done|..]; rewrite elem_of_app, list_elem_of_singleton;
      intros [?|?]; congruence.
Qed.

Lemma capability_loop_missing (interface : string) (all lines : list string) :
  forall (modes : list string) (d : t) (h : host),
    dict_get interface (interfaces d) = None ->
    "AP" ∉ modes -> "managed" ∉ modes ->
    (exists ms, capability_loop interface all lines modes (d, h)
                = (Returned ms, (d, h))
                /\ ("AP" ∉ ms) /\ ("managed" ∉ ms))
    \/ capability_loop interface all lines modes (d, h)
       = (Raised (KeyError interface), (d, h)).
Proof.
  induction lines as [|line rest IH]; intros modes d h Hd Hap Hm; simpl.
  - left. by exists modes.
  - destruct (PyStr.contains _ line); [|by apply IH]. py_unfold.
    destruct (mode_loop_missing interface all [] d h Hd)
      as [(ms & -> & H1 & H2)| ->]; [by intros ?%elem_of_nil..| |by right].
    by apply IH.
Qed.

(** X18. For an interface the table has no entry of, as is the case
    while its entry is being built, [_get_capabilities] leaves the
    detector as it is, and returns only modes other than "AP" and
    "managed": meeting one of these two it raises [KeyError] with the
    name of the interface, which nothing in the class catches. The only
    other exception is the [OSError] of iw not starting. *)
Theorem get_capabilities_before_entry (interface : string) (d : t)
    (h : host) (r : outcome capabilities_dict) (st : t * host) :
  dict_get interface (interfaces d) = None ->
  _get_capabilities interface (d, h) = (r, st) ->
  fst st = d
  /\ match r with
     | Returned c => ("AP" ∉ modes c) /\ ("managed" ∉ modes c)
     | Raised e => e = KeyError interface \/ exists err, e = OSError err
     end.
Proof.
  intros Hd. unfold _get_capabilities, on_os. py_unfold. unfold run.
  destruct (respond (os h) (executed (os h)) _) as [res|err]; simpl.
  2:{ intros [= <- <-]. split; [done|]. right. by exists err. }
  destruct (returncode res =? 0).
  2:{ simpl. intros [= <- <-]. split; [done|].
      split; by intros ?%elem_of_nil. }
  match goal with
  | |- context [capability_loop interface ?all ?lines [] (d, ?h1)] =>
      destruct (capability_loop_missing interface all lines [] d h1 Hd)
        as [(ms & -> & H1 & H2)| ->]; [by intros ?%elem_of_nil..| |]
  end; simpl; intros [= <- <-]; (split; [done|]); [done|by left].
Qed.

Lemma get_capabilities_before_entry_witness :
  let d := Make [] in
  let h := Fixtures.laptop Fixtures.iw_info_modes in
  let r : outcome capabilities_dict := Raised (KeyError "wlan0") in
  let st := snd (_get_capabilities "wlan0" (d, h)) in
  dict_get "wlan0" (interfaces d) = None
  /\ _get_capabilities "wlan0" (d, h) = (r, st)
  /\ fst st = d
  /\ (KeyError "wlan0" = KeyError "wlan0"
      \/ exists err, KeyError "wlan0" = OSError err).
Proof.
  intros d h r st. split; [reflexivity|]. split; [vm_compute; reflexivity|].
  apply (get_capabilities_before_entry "wlan0" d h r st).
  - reflexivity.
  - vm_compute. reflexivity.
Defined.

(** X19. What [get_interface_status] returns. It never changes the
    detector. For an interface the table has no entry of it returns the
    empty dictionary and does nothing. Otherwise it returns a dictionary
    without the keys "signal_quality" and "bit_rate"; when "active" is
    [False] every other key has its initial value and no command was run;
    when "connected" is [True] the interface is active, has an address,
    and has a network name other than "off/any". [KeyError] and
    [IndexError] never escape; [ValueError] (the name is no interface)
    and [OSError] (iwconfig cannot be started) do. *)
Theorem get_interface_status_cases (interface : string) (d : t) (h : host)
    (r : outcome probe) (st : t * host) :
  get_interface_status interface (d, h) = (r, st) ->
  fst st = d
  /\ match r with
     | Returned EmptyDict =>
         dict_get interface (interfaces d) = None /\ st = (d, h)
     | Returned (Dict s) =>
         is_Some (dict_get interface (interfaces d))
         /\ signal_quality s = None /\ bit_rate s = None
         /\ (active s = false ->
             s = Status false false None None None None None /\ st = (d, h))
         /\ (connected s = true ->
             active s = true /\ is_Some (ip_address s)
             /\ is_Some (ssid s) /\ ssid s <> Some "off/any")
     | Returned (ProbeRaises _) => False
     | Raised e =>
         (exists err, e = OSError err) \/ (exists m, e = ValueError m)
     end.
Proof.
  unfold get_interface_status. py_unfold.
  destruct (dict_get interface (interfaces d)) as [entry|] eqn:Hd; simpl.
  2:{ by intros [= <- <-]. }
  unfold with_local, probe_interface, ifaddresses, on_os, item, first.
  py_unfold.
  destruct (netifaces_ifaddresses h _ interface) as [[link inet]|]; simpl.
  2:{ intros [= <- <-]. split; [done|]. right. eauto. }
  destruct inet as [entries|]; simpl.
  2:{ intros [= <- <-]. split; [done|]. repeat split; eauto; done. }
  destruct entries as [|addr entries]; simpl.
  { intros [= <- <-]. split; [done|]. repeat split; eauto; done. }
  destruct (addr !! "addr") as [ip|]; simpl.
  2:{ intros [= <- <-]. split; [done|]. repeat split; eauto; done. }
  unfold run. destruct (respond (os h) _ _) as [res|err]; simpl.
  2:{ intros [= <- <-]. split; [done|]. left. eauto. }
  destruct (returncode res =? 0); simpl.
  2:{ intros [= <- <-]. split; [done|]. repeat split; eauto; done. }
  unfold essid_of, mode_of, first. py_unfold.
  destruct (PyStr.contains "ESSID:" (stdout res)); simpl.
  - destruct (PyStr.split_on _ (stdout res)) as [|? [|after ?]]; simpl;
      try (intros [= <- <-]; split; [done|]; repeat split; eauto; done).
    destruct (PyStr.split_on PyStr.dquote after) as [|name ?]; simpl;
      try (intros [= <- <-]; split; [done|]; repeat split; eauto; done).
    destruct (String.eqb_spec name "off/any") as [->|Hne]; simpl;
      destruct (PyStr.contains "Mode:" (stdout res)); simpl;
      repeat
        match goal with
        | |- context [match ?l with [] => _ | _ :: _ => _ end] =>
            destruct l as [|? ?]; simpl
        end;
      intros [= <- <-]; (split; [done|]); repeat split; eauto;
      try done; simpl; congruence.
  - destruct (PyStr.contains "Mode:" (stdout res)); simpl;
      repeat
        match goal with
        | |- context [match ?l with [] => _ | _ :: _ => _ end] =>
            destruct l as [|? ?]; simpl
        end;
      intros [= <- <-]; (split; [done|]); repeat split; eauto; done.
Qed.

Lemma get_interface_status_cases_witness :
  let d := Fixtures.listing in
  let h := Fixtures.laptop Fixtures.iw_info in
  let s := Status true true (Some "Home") (Some "192.168.1.100")
             (Some "Managed") None None in
  let st := snd (get_interface_status "wlan0" (d, h)) in
  get_interface_status "wlan0" (d, h) = (Returned (Dict s), st)
  /\ fst st = d
  /\ is_Some (dict_get "wlan0" (interfaces d))
  /\ signal_quality s = None /\ bit_rate s = None
  /\ (active s = false ->
      s = Status false false None None None None None /\ st = (d, h))
  /\ (connected s = true ->
      active s = true /\ is_Some (ip_address s)
      /\ is_Some (ssid s) /\ ssid s <> Some "off/any").
Proof.
  intros d h s st. split; [vm_compute; reflexivity|].
  apply (get_interface_status_cases "wlan0" d h (Returned (Dict s)) st).
  vm_compute. reflexivity.
Defined.

End Detector.

(* ===================================================================== *)
(** ** The daemon at the edges of its configuration and of its loop *)
(* ===================================================================== *)

Section DaemonEdges.

Import Daemon.

Context {W : Type} (C : collaborators W).

Ltac reduce := cbv beta iota zeta delta [negb this trace world].

(** X20. [run] on a new daemon when the detector finds no suitable
    interface. Whatever the configuration file holds, [run] returns
    without entering its loop; over the whole run, the clean-up in its
    [finally] clause included, the only call on a collaborator is
    [get_suitable_interfaces]: no collaborator was created, so there is
    nothing to stop. [running] is still set when [run] returns. *)
Theorem run_without_interface (turns : nat) (tr : list event) (w w' : W) :
  get_suitable_interfaces C (snd (read_config C w)) = (Returned [], w') ->
  exists d tr',
    run C turns (State init tr w) = (Returned true, State d (tr ++ tr') w')
    /\ calls tr' = [GetSuitableInterfaces]
    /\ teardown d = []
    /\ running d = true.
Proof.
  intros Hifs.
  unfold run, set_this, load_config, initialize_services, stop_services,
    get_this, log, observe, invoke, when_present.
  py_unfold. reduce.
  destruct (read_config C w) as [[c| |e] w1]; simpl in *; rewrite Hifs;
    simpl; eexists _, _; rewrite <- ?app_assoc;
    (split; [reflexivity|]); done.
Qed.

(** X21. With a configuration that has neither the section "upstream"
    nor the section "ap", as after a missing or unreadable configuration
    file, [start_services] connects to no network and starts no access
    point, but does start the bridge: when that succeeds it is the only
    call made, and the result is [True]. *)
Theorem start_services_without_sections (st : state W) (cm aps : string)
    (br : string * string) (msg : message) (w' : W) :
  connection_manager (this st) = Some cm ->
  ap_service (this st) = Some aps ->
  bridge_service (this st) = Some br ->
  upstream (config (this st)) = None ->
  ap (config (this st)) = None ->
  bridge_start C br (world st) = (Returned (true, msg), w') ->
  start_services C st
  = (Returned true,
     State (this st)
       (trace st ++ [Called BridgeStart;
                     Logged INFO [Lit "All services started successfully"]])
       w').
Proof.
  intros Hcm Haps Hbr Hup Hap Hstart. destruct st as [d tr w]. simpl in *.
  unfold start_services, start_upstream, start_ap, get_this, log, observe,
    invoke.
  py_unfold. reduce. rewrite Hcm, Haps, Hbr, Hup, Hap. simpl.
  rewrite Hstart. simpl. by rewrite <- app_assoc.
Qed.

(** X22. With a section "upstream" that has no key "ssid",
    [start_services] returns [False] without calling any collaborator:
    the [KeyError] is caught by its own handler, which logs it. *)
Theorem start_services_without_ssid (st : state W) (cm aps : string)
    (br : string * string) (password : option string) :
  connection_manager (this st) = Some cm ->
  ap_service (this st) = Some aps ->
  bridge_service (this st) = Some br ->
  upstream (config (this st)) = Some (Upstream None password) ->
  start_services C st
  = (Returned false,
     State (this st)
       (trace st ++ [Logged ERROR [Lit "Error starting services: ";
                                   StrOf (KeyError "ssid")]])
       (world st)).
Proof.
  intros Hcm Haps Hbr Hup. destruct st as [d tr w]. simpl in *.
  unfold start_services, start_upstream, get_this, log, observe, item.
  py_unfold. reduce. rewrite Hcm, Haps, Hbr, Hup. done.
Qed.

(** X23. A signal ends the loop before the next turn. When signals are
    waiting at the moment the loop reads [running], each is logged,
    [running] is cleared and the loop is left without another call on a
    collaborator. *)
Theorem service_loop_signal (turns : nat) (st : state W) (sig : Z)
    (sigs : list Z) (w' : W) :
  signals C (world st) = (sig :: sigs, w') ->
  exists tr,
    service_loop C (S turns) st
    = (Returned true, State (set_running false (this st)) (trace st ++ tr) w')
    /\ calls tr = [].
Proof.
  intros Hsig. destruct st as [d tr w]. simpl in *.
  unfold deliver_signals, get_this. py_unfold. reduce. rewrite Hsig.
  assert (forall l d0 tr0,
            exists tr1,
              for_each l (handle_signal (W := W)) (State d0 tr0 w')
              = (Returned tt,
                 State (if l is [] then d0 else set_running false d0)
                   (tr0 ++ tr1) w')
              /\ calls tr1 = []) as Hl.
  { induction l as [|s l IH]; intros d0 tr0.
    - exists []. by rewrite app_nil_r.
    - assert (handle_signal s (State d0 tr0 w')
              = (Returned tt,
                 State (set_running false d0)
                   (tr0 ++ [Logged INFO
                              [Lit ("Received signal " +:+ pretty s)]]) w'))
        as Hs by reflexivity.
      simpl. unfold bind. rewrite Hs.
      destruct (IH (set_running false d0)
                  (tr0 ++ [Logged INFO
                             [Lit ("Received signal " +:+ pretty s)]]))
        as (tr1 & -> & Hc).
      exists (Logged INFO [Lit ("Received signal " +:+ pretty s)] :: tr1).
      rewrite <- app_assoc. split; [by destruct l|exact Hc]. }
  destruct (Hl (sig :: sigs) d tr) as (tr1 & -> & Hc). simpl.
  by exists tr1.
Qed.

(** X24. One turn of the loop while the upstream is connected: the
    status is read, the clients are listed and counted, the daemon sleeps
    30 seconds. No service is started, stopped or configured. *)
Theorem loop_body_connected (st : state W) (cm aps : string) (w1 w2 : W)
    (clients : list APService.client) :
  connection_manager (this st) = Some cm ->
  ap_service (this st) = Some aps ->
  get_connection_status C cm (world st) = (Returned (Some true), w1) ->
  get_connected_clients C aps w1 = (Returned clients, w2) ->
  loop_body C st
  = (Returned tt,
     State (this st)
       (trace st
        ++ [Called GetConnectionStatus; Called GetConnectedClients;
            Logged INFO [Lit ("Connected clients: "
                              +:+ pretty (length clients))];
            Slept 30])
       w2).
Proof.
  intros Hcm Haps Hstatus Hclients. destruct st as [d tr w]. simpl in *.
  unfold loop_body, get_this, when_present, invoke, log, sleep, observe.
  py_unfold. reduce. rewrite Hcm, Haps. simpl. rewrite Hstatus. simpl.
  rewrite Hclients. simpl. by rewrite <- !app_assoc.
Qed.

(** X25. An exception in a turn does not end the loop. When reading the
    status raises, the turn logs the error, sleeps 5 seconds and returns;
    the clients are not listed in that turn, and the daemon's fields,
    [running] included, are what they were. *)
Theorem loop_body_survives (st : state W) (cm : string) (e : exn)
    (w1 : W) :
  connection_manager (this st) = Some cm ->
  get_connection_status C cm (world st) = (Raised e, w1) ->
  loop_body C st
  = (Returned tt,
     State (this st)
       (trace st
        ++ [Called GetConnectionStatus;
            Logged ERROR [Lit "Error in service loop: "; StrOf e];
            Slept 5])
       w1).
Proof.
  intros Hcm Hstatus. destruct st as [d tr w]. simpl in *.
  unfold loop_body, get_this, when_present, invoke, log, sleep, observe.
  py_unfold. reduce. rewrite Hcm. simpl. rewrite Hstatus. simpl.
  by rewrite <- !app_assoc.
Qed.

Lemma load_config_returns (st : state W) :
  exists c e,
    load_config C st
    = (Returned tt,
       State (set_config c (this st)) (trace st ++ [e])
         (snd (read_config C (world st))))
    /\ calls [e] = [].
Proof.
  unfold load_config, log, observe. py_unfold.
  destruct (read_config C (world st)) as [[c| |e] w1]; simpl; eauto.
Qed.

Lemma initialize_services_create_fails (I : W -> Prop) (st : state W)
    (i : string) :
  (forall w0, I w0 ->
     exists rest w1,
       get_suitable_interfaces C w0 = (Returned (i :: rest), w1) /\ I w1) ->
  constructors_return C I ->
  (forall p, fails I (create_virtual_interface C p)) ->
  I (world st) ->
  exists tr w',
    initialize_services C st
    = (Returned false,
       State (set_managers i (set_interface i (this st))) (trace st ++ tr) w')
    /\ calls tr = [GetSuitableInterfaces; CreateVirtualInterface]
    /\ I w'.
Proof.
  intros Hifs [Hncm Hnim _ _] Hcreate HI.
  destruct st as [d tr0 w0]. simpl in HI.
  unfold initialize_services, set_this, log, observe. py_unfold.
  unfold invoke at 1. simpl.
  destruct (Hifs w0 HI) as (rest & w1 & -> & HI1). reduce.
  destruct (construct_returns I (new_connection_manager C i)
              (State (set_interface i d)
                 ((tr0 ++ [Called GetSuitableInterfaces])
                  ++ [Logged INFO [Lit ("Using interface: " +:+ i)]]) w1)
              (Hncm i) HI1) as (w2 & -> & HI2).
  reduce.
  match goal with
  | |- context [construct ?m ?s] =>
      destruct (construct_returns I m s (Hnim i) HI2) as (w3 & -> & HI3)
  end.
  reduce.
  match goal with
  | |- context [invoke ?c ?m ?s] =>
      destruct (invoke_fails I c m s (Hcreate i) HI3)
        as (msg & w4 & -> & HI4)
  end.
  reduce. rewrite <- !app_assoc. simpl. eexists _, _.
  split; [reflexivity|]. split; [reflexivity|assumption].
Qed.

(** X26. [run] when the virtual interface cannot be created.
    [initialize_services] has created the connection manager and the
    interface manager by then, and neither the access point nor the
    bridge; [run] returns without starting anything, and its clean-up
    calls [disconnect] and [delete_virtual_interface], on an upstream
    that was never connected and a virtual interface that was never
    created. *)
Theorem run_create_fails (I : W -> Prop) (turns : nat) (tr : list event)
    (w : W) (i : string) :
  (forall w0, I w0 -> I (snd (read_config C w0))) ->
  (forall w0, I w0 ->
     exists rest w1,
       get_suitable_interfaces C w0 = (Returned (i :: rest), w1) /\ I w1) ->
  constructors_return C I ->
  (forall p, fails I (create_virtual_interface C p)) ->
  teardown_returns C I ->
  I w ->
  exists st',
    run C turns (State init tr w) = (Returned true, st')
    /\ calls (trace st')
       = calls tr ++ [GetSuitableInterfaces; CreateVirtualInterface;
                      Disconnect; DeleteVirtualInterface]
    /\ interface (this st') = Some i
    /\ ap_service (this st') = None
    /\ bridge_service (this st') = None.
Proof.
  intros Hcfg Hifs Hcons Hcreate Htear HI.
  unfold run, set_this, log, observe. py_unfold. reduce.
  match goal with
  | |- context [load_config C ?s] =>
      destruct (load_config_returns s) as (c & e & -> & Hc0)
  end.
  reduce.
  match goal with
  | |- context [initialize_services C ?s] =>
      destruct (initialize_services_create_fails I s i Hifs Hcons Hcreate
                  (Hcfg w HI))
        as (tr1 & w1 & -> & Hc1 & HI1)
  end.
  reduce.
  match goal with
  | |- context [stop_services C ?s] =>
      destruct (stop_services_trace C I s Htear HI1) as (w2 & -> & _)
  end.
  reduce. eexists. split; [reflexivity|]. split; [|done].
  reduce. rewrite !calls_app, Hc0, Hc1, calls_Called. simpl.
  by rewrite <- !app_assoc.
Qed.

End DaemonEdges.

Section DaemonEdgeScenarios.

Import Daemon.

Lemma run_without_interface_witness :
  let M := Wired.boot Fixtures.quiet [] ConfigMissing [] in
  exists d tr',
    run Wired.real 3 (State init [] M)
    = (Returned true, State d ([] ++ tr') M)
    /\ calls tr' = [GetSuitableInterfaces]
    /\ teardown d = []
    /\ running d = true.
Proof.
  intros M. apply (run_without_interface Wired.real 3 [] M M). reflexivity.
Defined.

Lemma start_services_without_sections_witness :
  let st := State (set_config empty_config (Fixtures.initialised true)) []
              tt in
  start_services (Fixtures.mock Fixtures.all_fine) st
  = (Returned true,
     State (this st)
       (trace st ++ [Called BridgeStart;
                     Logged INFO [Lit "All services started successfully"]])
       tt).
Proof.
  intros st.
  apply (start_services_without_sections (Fixtures.mock Fixtures.all_fine)
           st "wlan0" "wlan0_ap0" ("wlan0", "wlan0_ap0") [] tt);
    reflexivity.
Defined.

Lemma start_services_without_ssid_witness :
  let cfg := Config (Some (Upstream None (Some "secret123"))) None in
  let st := State (set_config cfg (Fixtures.initialised true)) []
              (Fixtures.brought_up Fixtures.quiet) in
  start_services Wired.real st
  = (Returned false,
     State (this st)
       (trace st ++ [Logged ERROR [Lit "Error starting services: ";
                                   StrOf (KeyError "ssid")]])
       (world st)).
Proof.
  intros cfg st.
  apply (start_services_without_ssid Wired.real st "wlan0" "wlan0_ap0"
           ("wlan0", "wlan0_ap0") (Some "secret123"));
    reflexivity.
Defined.

Lemma service_loop_signal_witness :
  let st := State (Fixtures.initialised true) []
              (Fixtures.terminated Fixtures.quiet) in
  exists tr,
    service_loop Wired.real 4 st
    = (Returned true,
       State (set_running false (this st)) (trace st ++ tr)
         (Fixtures.brought_up Fixtures.quiet))
    /\ calls tr = [].
Proof.
  intros st.
  apply (service_loop_signal Wired.real 3 st 15 []
           (Fixtures.brought_up Fixtures.quiet)).
  reflexivity.
Defined.

Lemma loop_body_connected_witness :
  let M := Fixtures.brought_up (Fixtures.associated "Home") in
  let M1 := snd (get_connection_status Wired.real "wlan0" M) in
  let M2 := snd (get_connected_clients Wired.real "wlan0_ap0" M1) in
  let st := State (Fixtures.initialised true) [] M in
  loop_body Wired.real st
  = (Returned tt,
     State (this st)
       (trace st
        ++ [Called GetConnectionStatus; Called GetConnectedClients;
            Logged INFO [Lit ("Connected clients: "
                              +:+ pretty (length (@nil APService.client)))];
            Slept 30])
       M2).
Proof.
  intros M M1 M2 st.
  apply (loop_body_connected Wired.real st "wlan0" "wlan0_ap0" M1 M2 []);
    try reflexivity; vm_compute; reflexivity.
Defined.

(** The detector does not list the interface: reading the status raises
    [KeyError] in every turn. *)
Lemma loop_body_survives_witness :
  let M := Fixtures.brought_up Fixtures.quiet in
  let st := State (Fixtures.initialised true) [] M in
  loop_body Wired.real st
  = (Returned tt,
     State (this st)
       (trace st
        ++ [Called GetConnectionStatus;
            Logged ERROR [Lit "Error in service loop: ";
                          StrOf (KeyError "connected")];
            Slept 5])
       M).
Proof.
  intros M st.
  apply (loop_body_survives Wired.real st "wlan0" (KeyError "connected") M);
    reflexivity.
Defined.

Lemma run_create_fails_witness :
  exists st',
    run Fixtures.no_virtual_interface 2 (State init [] tt)
    = (Returned true, st')
    /\ calls (trace st')
       = calls [] ++ [GetSuitableInterfaces; CreateVirtualInterface;
                      Disconnect; DeleteVirtualInterface]
    /\ interface (this st') = Some "wlan0"
    /\ ap_service (this st') = None
    /\ bridge_service (this st') = None.
Proof.
  apply (run_create_fails Fixtures.no_virtual_interface
           Fixtures.any_situation 2 [] tt "wlan0").
  - intros [] _. exact I.
  - intros [] _. exists [], tt. split; [reflexivity|exact I].
  - split; intros ? [] _; exists tt, tt; split; try reflexivity; exact I.
  - intros p [] _. eexists _, tt. split; [reflexivity|exact I].
  - split; intros ? [] _; eexists _, tt; split; try reflexivity; exact I.
  - exact I.
Defined.

(** The same run on the classes of [core], iw refusing to add the
    interface: [disconnect] runs its two commands, and
    [delete_virtual_interface] runs none. *)
Example run_iw_add_fails :
  let add := ["iw"; "dev"; "wlan0"; "interface"; "add"; "wlan0_ap0";
              "type"; "__ap"] in
  let '(r, st) :=
    run Wired.real 2
      (State init [] (Fixtures.fresh (Fixtures.failing add 161))) in
  r = Returned true
  /\ calls (trace st)
     = [GetSuitableInterfaces; CreateVirtualInterface; Disconnect;
        DeleteVirtualInterface]
  /\ executed (Wired.os (world st))
     = [add; ["killall"; "wpa_supplicant"]; ["dhclient"; "-r"; "wlan0"]].
Proof. vm_compute. done. Qed.

(** X27. The daemon with the detector of the repository. Whenever the
    constructor of [WiFiDetector] returned, [run] on the new daemon ends
    at "No suitable WiFi interfaces found": it asks the detector, creates
    no collaborator, starts nothing and has nothing to stop. (When the
    constructor does not return, it raised, and the daemon was not
    built.) *)
Theorem run_with_own_detector (d0 d : WiFiDetector.t)
    (h h' : WiFiDetector.host) (turns : nat) (tr : list event)
    (M : Wired.machine) :
  WiFiDetector.init (d0, h) = (Returned tt, (d, h')) ->
  exists this' tr',
    run (Wired.with_detector d) turns (State init tr M)
    = (Returned true, State this' (tr ++ tr') M)
    /\ calls tr' = [GetSuitableInterfaces]
    /\ In (Logged ERROR [Lit "No suitable WiFi interfaces found"]) tr'
    /\ teardown this' = [].
Proof.
  intros Hinit.
  assert (WiFiDetector.get_suitable_interfaces d = []) as Hnone.
  { apply plain_unsuitable. revert Hinit.
    unfold WiFiDetector.init, WiFiDetector.refresh_interfaces,
      WiFiDetector.interfaces_now.
    py_unfold. intros H. apply refresh_loop_plain in H; [done|].
    split; simpl; constructor. }
  unfold run, set_this, load_config, initialize_services, stop_services,
    get_this, log, observe, invoke, when_present.
  py_unfold. cbv beta iota zeta delta [negb this trace world].
  simpl. rewrite Hnone.
  destruct (Wired.on_disk M) as [c| |e]; simpl; eexists _, _;
    rewrite <- ?app_assoc; (split; [reflexivity|]); simpl;
    (split; [done|]); (split; [|done]); auto 10.
Qed.

Lemma run_with_own_detector_witness :
  let h := Fixtures.laptop Fixtures.iw_info in
  let d := fst (snd (WiFiDetector.init (WiFiDetector.Make [], h))) in
  let M := Fixtures.fresh Fixtures.quiet in
  exists this' tr',
    run (Wired.with_detector d) 5 (State init [] M)
    = (Returned true, State this' ([] ++ tr') M)
    /\ calls tr' = [GetSuitableInterfaces]
    /\ In (Logged ERROR [Lit "No suitable WiFi interfaces found"]) tr'
    /\ teardown this' = [].
Proof.
  intros h d M.
  apply (run_with_own_detector (WiFiDetector.Make []) d h
           (snd (snd (WiFiDetector.init (WiFiDetector.Make [], h)))) 5 []
           M).
  vm_compute. reflexivity.
Defined.

End DaemonEdgeScenarios.
